(** * paps: an intercepting proxy for HTTP, FTP, DNS and Telnet

    A shallow embedding of the packet model ([src/proxy/packet.py]), the
    handler base class and the registry ([src/protocols/base.py]), the four
    protocol handlers ([src/protocols/{http,ftp,dns,telnet}.py]) and the
    registration of the handlers ([src/proxy/server.py]), followed by the
    properties of the specification that are stated over them.

    Part I holds the definitions, Part II the lemmas and theorems about the
    statements of the specification, Part III further properties of the
    code. *)

From Stdlib Require Import ZArith NArith List String Ascii Bool Lia DecimalString.
From Stdlib.Strings Require Import Byte.
From stdpp Require Import base option list gmap.

Local Open Scope Z_scope.
Local Open Scope list_scope.

#[local] Set Warnings "-register-all".

(* ===================================================================== *)
(** * Part I: definitions                                                 *)
(* ===================================================================== *)

(** ** The Python values the program manipulates *)

(** [bytes]: an immutable sequence of integers in [0, 255].  Indexing a
    [bytes] object yields such an integer, kept here as a [byte]. *)
Abbreviation bytes := (list byte) (only parsing).

#[global] Instance byte_eq_dec : EqDecision byte := Byte.byte_eq_dec.

Definition byte_val (b : byte) : Z := Z.of_N (Byte.to_N b).

(** [str]: a sequence of Unicode code points. *)
Abbreviation char := N (only parsing).
Abbreviation str := (list N) (only parsing).

(** A string literal of the source. *)
Definition lit (s : string) : str := map N_of_ascii (list_ascii_of_string s).

(** The code point of an ASCII byte (and of any single byte read as
    latin-1). *)
Definition char_of_byte (b : byte) : char := Byte.to_N b.

(** [s.encode('ascii')] for a string of ASCII characters. *)
Definition byte_of_char (c : char) : byte := default x00 (Byte.of_N c).
Definition encode_ascii (s : str) : bytes := map byte_of_char s.

(** Strings and chunks made of ASCII characters only. *)
Definition is_ascii (s : str) : Prop := Forall (fun c => (c < 128)%N) s.

(** Exceptions that the modelled code can meet. *)
Inductive exn : Type :=
| IndexError (msg : str)
| KeyError (msg : str)
| TypeError (msg : str)
| ValueError (msg : str)
| AttributeError (msg : str)
| OSError (msg : str)
| StructError (msg : str).

(** [str(e)] *)
Definition exn_str (e : exn) : str :=
  match e with
  | IndexError m | KeyError m | TypeError m | ValueError m
  | AttributeError m | OSError m | StructError m => m
  end.

(** The outcome of running a piece of Python: it returns, it raises, or the
    model gave it too little fuel for its loops. *)
Inductive outcome (A : Type) : Type :=
| Return (a : A)
| Raise (e : exn)
| OutOfFuel.
Arguments Return {A} a.
Arguments Raise {A} e.
Arguments OutOfFuel {A}.

#[global] Instance outcome_ret : MRet outcome := fun A a => Return a.
#[global] Instance outcome_bind : MBind outcome := fun A B f m =>
  match m with
  | Return a => f a
  | Raise e => Raise e
  | OutOfFuel => OutOfFuel
  end.

(** [l[i]] for a non-negative index. *)
Definition index {A : Type} (l : list A) (i : nat) : outcome A :=
  match l !! i with
  | Some x => Return x
  | None => Raise (IndexError (lit "index out of range"))
  end.

(** [l[a:b]] for non-negative bounds: clipped, never raising. *)
Definition slice {A : Type} (l : list A) (a b : nat) : list A :=
  take (b - a) (drop a l).

(** [s.startswith(p)] and [s.endswith(p)] *)
Fixpoint startswith {A : Type} `{EqDecision A} (s p : list A) : bool :=
  match p, s with
  | [], _ => true
  | _ :: _, [] => false
  | x :: p', y :: s' => bool_decide (x = y) && startswith s' p'
  end.

Definition endswith {A : Type} `{EqDecision A} (s p : list A) : bool :=
  startswith (rev s) (rev p).

(** [sub in s] for sequences *)
Fixpoint contains {A : Type} `{EqDecision A} (s sub : list A) : bool :=
  startswith s sub
  || match s with
     | [] => false
     | _ :: s' => contains s' sub
     end.

(** [s.split(sep)] and [s.split(sep, maxsplit)] for a non-empty [sep]: the
    piece being read and the pieces after it.  [skip] counts the bytes of a
    separator that was just recognised and are still to be passed over. *)
Fixpoint split_pieces {A : Type} `{EqDecision A} (sep : list A)
    (maxsplit : option nat) (skip : nat) (s : list A) : list A * list (list A) :=
  match s with
  | [] => ([], [])
  | c :: s' =>
      match skip with
      | S skip' => split_pieces sep maxsplit skip' s'
      | O =>
          if negb (bool_decide (maxsplit = Some O)) && startswith s sep then
            let '(piece, pieces) :=
              split_pieces sep (pred <$> maxsplit) (length sep - 1) s' in
            ([], piece :: pieces)
          else
            let '(piece, pieces) := split_pieces sep maxsplit O s' in
            (c :: piece, pieces)
      end
  end.

Definition split {A : Type} `{EqDecision A} (s sep : list A)
    (maxsplit : option nat) : list (list A) :=
  let '(piece, pieces) := split_pieces sep maxsplit O s in piece :: pieces.

(** [sep.join(l)] *)
Fixpoint join {A : Type} (sep : list A) (l : list (list A)) : list A :=
  match l with
  | [] => []
  | [x] => x
  | x :: t => x ++ sep ++ join sep t
  end.

(** [c.isspace()]: the white space of [str.strip()] and [str.split()]. *)
Definition isspace (c : char) : bool :=
  ((9 <=? c) && (c <=? 13) || (28 <=? c) && (c <=? 32)
   || (c =? 133) || (c =? 160) || (c =? 5760)
   || (8192 <=? c) && (c <=? 8202)
   || (c =? 8232) || (c =? 8233) || (c =? 8239) || (c =? 8287) || (c =? 12288))%N.

(** [s.lstrip()], [s.rstrip()], [s.strip()] *)
Fixpoint lstrip (s : str) : str :=
  match s with
  | [] => []
  | c :: s' => if isspace c then lstrip s' else s
  end.

Definition rstrip (s : str) : str := rev (lstrip (rev s)).

Definition strip (s : str) : str := rstrip (lstrip s).

(** [s.split()]: the words between runs of white space; the word being
    read and the words after it. *)
Fixpoint split_words (s : str) : str * list str :=
  match s with
  | [] => ([], [])
  | c :: s' =>
      let '(word, words) := split_words s' in
      if isspace c then
        ([], match word with [] => words | _ => word :: words end)
      else (c :: word, words)
  end.

Definition split_whitespace (s : str) : list str :=
  let '(word, words) := split_words s in
  match word with [] => words | _ => word :: words end.

(** The Unicode services of the interpreter that the handlers call.  Their
    tables are the interpreter's; the development relies on them through
    [PyTextLaws] only. *)
Class PyText : Type := {
  (** [b.decode('utf-8', 'ignore')] *)
  decode_utf8_ignore : bytes → str;
  (** [s.upper()] *)
  str_upper : str → str;
  (** the test of one character behind [s.isdigit()] *)
  char_isdigit : char → bool;
  (** the value of a decimal digit: the characters that [\d] matches and
      [int()] reads *)
  char_decimal : char → option Z;
}.

Definition ascii_isdigit (c : char) : bool := ((48 <=? c) && (c <=? 57))%N.

Definition ascii_upper (c : char) : char :=
  if ((97 <=? c) && (c <=? 122))%N then (c - 32)%N else c.

(** On ASCII the services are the familiar ones. *)
Record PyTextLaws (T : PyText) : Prop := {
  decode_ascii : ∀ b : bytes,
    Forall (fun x => byte_val x < 128) b →
    decode_utf8_ignore b = map char_of_byte b;
  upper_ascii : ∀ s : str,
    Forall (fun c => (c < 128)%N) s → str_upper s = map ascii_upper s;
  isdigit_ascii : ∀ c : char,
    (c < 128)%N → char_isdigit c = ascii_isdigit c;
  decimal_ascii : ∀ c : char,
    (c < 128)%N →
    char_decimal c = if ascii_isdigit c then Some (Z.of_N c - 48) else None;
}.

(** An interpreter whose text is ASCII: other bytes are dropped when
    decoding, other characters are neither digits nor letters. *)
Definition ascii_text : PyText := {|
  decode_utf8_ignore b :=
    map char_of_byte (filter (fun x => byte_val x < 128) b);
  str_upper s := map ascii_upper s;
  char_isdigit c := ascii_isdigit c;
  char_decimal c := if ascii_isdigit c then Some (Z.of_N c - 48) else None;
|}.

(** [s.isdigit()] *)
Definition isdigit `{PyText} (s : str) : bool :=
  negb (bool_decide (s = [])) && forallb char_isdigit s.

(** [int(s)] for a string of decimal digits. *)
Definition int_of_str `{PyText} (s : str) : outcome Z :=
  if bool_decide (s = []) then
    Raise (ValueError (lit "invalid literal for int() with base 10"))
  else
    fold_left (fun acc c =>
        n ← acc;
        match char_decimal c with
        | Some d => Return (10 * n + d)
        | None => Raise (ValueError (lit "invalid literal for int() with base 10"))
        end)
      s (Return 0).

(** A finite [float]: the dyadic rational [mantissa * 2 ^ exponent].
    ([time.time()] never yields an infinity or a NaN.) *)
Record pyfloat : Type := { mantissa : Z; exponent : Z }.

(** [int(f)]: truncation toward zero. *)
Definition int_of_float (f : pyfloat) : Z :=
  if 0 <=? exponent f then mantissa f * 2 ^ exponent f
  else Z.quot (mantissa f) (2 ^ (- exponent f)).

(** [str(n)] and [f"{n}"] for an [int]. *)
Definition str_of_int (n : Z) : str := lit (NilZero.string_of_int (Z.to_int n)).

(** [b.hex()] *)
Definition hex_char (n : N) : char :=
  if (n <? 10)%N then (48 + n)%N else (87 + n)%N.

Definition bytes_hex (b : bytes) : str :=
  flat_map (fun x => [hex_char (Byte.to_N x / 16); hex_char (Byte.to_N x mod 16)]) b.

(** The dynamically typed values that end up in packet metadata and in the
    argument of [modify_data].  A [dict] keeps its items in insertion order;
    its keys are strings. *)
Inductive pyval : Type :=
| PNone
| PBool (b : bool)
| PInt (n : Z)
| PFloat (f : pyfloat)
| PStr (s : str)
| PBytes (b : bytes)
| PList (l : list pyval)
| PTuple (l : list pyval)
| PDict (d : list (str * pyval)).

Abbreviation dict := (list (list N * pyval)) (only parsing).

(** [d.get(k)] *)
Fixpoint dict_get {V : Type} (k : str) (d : list (str * V)) : option V :=
  match d with
  | [] => None
  | (k', v) :: d' => if bool_decide (k = k') then Some v else dict_get k d'
  end.

(** [d[k] = v]: an existing key keeps its place, a new one goes last. *)
Fixpoint dict_set {V : Type} (k : str) (v : V) (d : list (str * V))
    : list (str * V) :=
  match d with
  | [] => [(k, v)]
  | (k', v') :: d' =>
      if bool_decide (k = k') then (k', v) :: d' else (k', v') :: dict_set k v d'
  end.

(** [v[k]] on a value that should be a [dict]. *)
Definition getitem (v : pyval) (k : str) : outcome pyval :=
  match v with
  | PDict d =>
      match dict_get k d with
      | Some x => Return x
      | None => Raise (KeyError k)
      end
  | _ => Raise (TypeError (lit "object is not subscriptable"))
  end.

(** [v.get(k, default)] on a value that should be a [dict]. *)
Definition get_default (v : pyval) (k : str) (default : pyval) : outcome pyval :=
  match v with
  | PDict d => Return (from_option id default (dict_get k d))
  | _ => Raise (AttributeError (lit "object has no attribute 'get'"))
  end.

(** [bool(v)]: the truth value of a Python value. *)
Definition truthy (v : pyval) : bool :=
  match v with
  | PNone => false
  | PBool b => b
  | PInt n => negb (n =? 0)
  | PFloat f => negb (mantissa f =? 0)
  | PStr s => negb (bool_decide (s = []))
  | PBytes b => negb (bool_decide (b = []))
  | PList l | PTuple l => negb (bool_decide (l = []))
  | PDict d => negb (bool_decide (d = []))
  end.

(** *** The [json] module *)

(** A JSON document.  What [json.dump] writes and [json.load] reads back is
    kept as the document itself; the text syntax is the library's. *)
Inductive json : Type :=
| JNull
| JBool (b : bool)
| JInt (n : Z)
| JFloat (f : pyfloat)
| JString (s : str)
| JArray (l : list json)
| JObject (members : list (str * json)).

(** [json.dump]: lists and tuples both become arrays, [bytes] are refused. *)
Fixpoint json_dump (v : pyval) : outcome json :=
  match v with
  | PNone => Return JNull
  | PBool b => Return (JBool b)
  | PInt n => Return (JInt n)
  | PFloat f => Return (JFloat f)
  | PStr s => Return (JString s)
  | PBytes _ =>
      Raise (TypeError (lit "Object of type bytes is not JSON serializable"))
  | PList l | PTuple l =>
      ds ← mapM json_dump l; Return (JArray ds)
  | PDict d =>
      ms ← mapM (fun kx => j ← json_dump (snd kx); Return (fst kx, j)) d;
      Return (JObject ms)
  end.

(** [dict(items)]: the items are inserted one after the other. *)
Definition dict_of_items {V : Type} (items : list (str * V)) : list (str * V) :=
  fold_left (fun acc kv => dict_set (fst kv) (snd kv) acc) items [].

(** [json.load]: arrays become lists, objects become dicts. *)
Fixpoint json_load (j : json) : pyval :=
  match j with
  | JNull => PNone
  | JBool b => PBool b
  | JInt n => PInt n
  | JFloat f => PFloat f
  | JString s => PStr s
  | JArray l => PList (map json_load l)
  | JObject members =>
      PDict (dict_of_items (map (fun kj => (fst kj, json_load (snd kj))) members))
  end.

(** The values that [json] represents as they are: no [bytes], no tuples,
    and in every [dict] no key twice. *)
Fixpoint json_representable (v : pyval) : bool :=
  match v with
  | PNone | PBool _ | PInt _ | PFloat _ | PStr _ => true
  | PBytes _ | PTuple _ => false
  | PList l => forallb json_representable l
  | PDict d =>
      forallb (fun kx => json_representable (snd kx)) d
      && bool_decide (NoDup (map fst d))
  end.

(** *** Files *)

(** A file holds either the text of a JSON document or raw bytes; a text
    file whose [json.dump] failed half-way holds no document. *)
Inductive file : Type :=
| JsonFile (doc : json)
| BrokenJsonFile
| BinaryFile (content : bytes).

(** The file system maps paths to files; every write succeeds. *)
Abbreviation filesystem := (gmap (list N) file) (only parsing).

(** [with open(path, 'r') as f: json.load(f)] *)
Definition read_json (fs : filesystem) (path : str) : outcome pyval :=
  match fs !! path with
  | Some (JsonFile doc) => Return (json_load doc)
  | Some _ => Raise (ValueError (lit "Expecting value"))
  | None => Raise (OSError (lit "No such file or directory"))
  end.

(** [with open(path, 'rb') as f: f.read()] *)
Definition read_bytes (fs : filesystem) (path : str) : outcome bytes :=
  match fs !! path with
  | Some (BinaryFile content) => Return content
  | Some _ => Raise (OSError (lit "not a raw packet file"))
  | None => Raise (OSError (lit "No such file or directory"))
  end.

(** [os.path.join(a, b)] *)
Definition path_join (a b : str) : str :=
  if startswith b (lit "/") then b
  else if bool_decide (a = []) || endswith a (lit "/") then a ++ b
  else a ++ lit "/" ++ b.

(** A socket address [(host, port)]. *)
Abbreviation address := (list N * Z)%type (only parsing).

(* --------------------------------------------------------------------- *)
(** ** [src/proxy/packet.py] *)

Module PacketModule.

(** [class Packet] *)
Record Packet : Type := {
  id : str;
  timestamp : pyfloat;
  data : bytes;
  source : address;
  destination : address;
  protocol : str;
  direction : str;
  paused : bool;
  modified : bool;
  metadata : dict;
}.

(** [Packet.__init__]; the identifier and the time are drawn by the caller. *)
Definition __init__ (fresh_id : str) (now : pyfloat) (data : bytes)
    (source destination : address) (protocol direction : str) : Packet :=
  {| id := fresh_id; timestamp := now; data := data; source := source;
     destination := destination; protocol := protocol; direction := direction;
     paused := false; modified := false; metadata := [] |}.

Definition address_value (a : address) : pyval :=
  PTuple [PStr (fst a); PInt (snd a)].

(** [Packet.to_dict] *)
Definition to_dict (self : Packet) : pyval :=
  PDict [
    (lit "id", PStr (id self));
    (lit "timestamp", PFloat (timestamp self));
    (lit "source", address_value (source self));
    (lit "destination", address_value (destination self));
    (lit "protocol", PStr (protocol self));
    (lit "direction", PStr (direction self));
    (lit "data_hex", PStr (bytes_hex (data self)));
    (lit "data_length", PInt (Z.of_nat (length (data self))));
    (lit "paused", PBool (paused self));
    (lit "modified", PBool (modified self));
    (lit "metadata", PDict (metadata self))
  ].

(** [Packet.save]: the new file system and the returned path ([None] when
    the body raised). *)
Definition save (self : Packet) (storage_path : str) (fs : filesystem)
    : filesystem * option str :=
  let filename :=
    str_of_int (int_of_float (timestamp self)) ++ lit "_" ++ protocol self
      ++ lit "_" ++ id self ++ lit ".packet" in
  let full_path := path_join storage_path filename in
  match json_dump (to_dict self) with
  | Return doc =>
      let fs1 := <[full_path ++ lit ".json" := JsonFile doc]> fs in
      let fs2 := <[full_path ++ lit ".bin" := BinaryFile (data self)]> fs1 in
      (fs2, Some full_path)
  | _ => (<[full_path ++ lit ".json" := BrokenJsonFile]> fs, None)
  end.

(** The path under which [save] stores a packet: [full_path] in its body. *)
Definition packet_path (self : Packet) (storage_path : str) : str :=
  path_join storage_path
    (str_of_int (int_of_float (timestamp self)) ++ lit "_" ++ protocol self
       ++ lit "_" ++ id self ++ lit ".packet").

(** The fields of a packet are typed in this model; a document that holds
    another kind of value in their place is refused. *)
Definition as_str (v : pyval) : outcome str :=
  match v with PStr s => Return s | _ => Raise (TypeError (lit "str expected")) end.
Definition as_float (v : pyval) : outcome pyfloat :=
  match v with PFloat f => Return f | _ => Raise (TypeError (lit "float expected")) end.
Definition as_bool (v : pyval) : outcome bool :=
  match v with PBool b => Return b | _ => Raise (TypeError (lit "bool expected")) end.
Definition as_dict (v : pyval) : outcome dict :=
  match v with PDict d => Return d | _ => Raise (TypeError (lit "dict expected")) end.

(** [tuple(v)] for an address *)
Definition as_address (v : pyval) : outcome address :=
  match v with
  | PList [PStr host; PInt port] | PTuple [PStr host; PInt port] => Return (host, port)
  | _ => Raise (TypeError (lit "address expected"))
  end.

(** The body of [Packet.load], inside its [try]. *)
Definition load_body (packet_path : str) (fs : filesystem) : outcome Packet :=
  metadata ← read_json fs (packet_path ++ lit ".json");
  data ← read_bytes fs (packet_path ++ lit ".bin");
  source ← getitem metadata (lit "source") ≫= as_address;
  destination ← getitem metadata (lit "destination") ≫= as_address;
  protocol ← getitem metadata (lit "protocol") ≫= as_str;
  direction ← getitem metadata (lit "direction") ≫= as_str;
  id ← getitem metadata (lit "id") ≫= as_str;
  timestamp ← getitem metadata (lit "timestamp") ≫= as_float;
  paused ← getitem metadata (lit "paused") ≫= as_bool;
  modified ← get_default metadata (lit "modified") (PBool false) ≫= as_bool;
  md ← getitem metadata (lit "metadata") ≫= as_dict;
  Return {| id := id; timestamp := timestamp; data := data; source := source;
            destination := destination; protocol := protocol;
            direction := direction; paused := paused; modified := modified;
            metadata := md |}.

(** [Packet.load]: [None] when the body raised. *)
Definition load (packet_path : str) (fs : filesystem) : option Packet :=
  match load_body packet_path fs with
  | Return packet => Some packet
  | _ => None
  end.

(** [Packet.set_pause] *)
Definition set_pause (self : Packet) (paused : bool) : Packet * bool :=
  ({| id := id self; timestamp := timestamp self; data := data self;
      source := source self; destination := destination self;
      protocol := protocol self; direction := direction self;
      paused := paused; modified := modified self;
      metadata := metadata self |}, paused).

(** [Packet.modify_data]: [isinstance(new_data, bytes)] holds of [PBytes]
    only. *)
Definition modify_data (self : Packet) (new_data : pyval) : Packet * bool :=
  match new_data with
  | PBytes b =>
      ({| id := id self; timestamp := timestamp self; data := b;
          source := source self; destination := destination self;
          protocol := protocol self; direction := direction self;
          paused := paused self; modified := true;
          metadata := metadata self |}, true)
  | _ => (self, false)
  end.

End PacketModule.

(* --------------------------------------------------------------------- *)
(** ** The body of a [parse_packet]

    Every [parse_packet] fills a [metadata] dictionary inside a [try] block
    and returns it whatever happened; what was stored before an exception
    stays in it.  A [parser] is such a body: it updates the dictionary and
    returns, raises, or runs out of fuel. *)

Definition parser (A : Type) : Type :=
  list (list N * pyval) → list (list N * pyval) * outcome A.

#[global] Instance parser_ret : MRet parser := fun A a metadata => (metadata, Return a).
#[global] Instance parser_bind : MBind parser := fun A B f m metadata =>
  let '(metadata', o) := m metadata in
  match o with
  | Return a => f a metadata'
  | Raise e => (metadata', Raise e)
  | OutOfFuel => (metadata', OutOfFuel)
  end.

(** [metadata[k] = v] *)
Definition setitem (k : str) (v : pyval) : parser unit :=
  fun metadata => (dict_set k v metadata, Return tt).

(** [metadata[k1][k2] = v] *)
Definition setitem_in (k1 k2 : str) (v : pyval) : parser unit :=
  fun metadata =>
    match dict_get k1 metadata with
    | Some (PDict d) => (dict_set k1 (PDict (dict_set k2 v d)) metadata, Return tt)
    | Some _ =>
        (metadata, Raise (TypeError (lit "object does not support item assignment")))
    | None => (metadata, Raise (KeyError k1))
    end.

(** Reading the dictionary filled so far. *)
Definition get_metadata : parser (list (str * pyval)) :=
  fun metadata => (metadata, Return metadata).

(** A computation that does not touch the dictionary. *)
Definition lift {A : Type} (o : outcome A) : parser A :=
  fun metadata => (metadata, o).

(** [try: body except: pass] *)
Definition try_pass (body : parser unit) : parser unit :=
  fun metadata =>
    let '(metadata', o) := body metadata in
    match o with
    | Raise _ => (metadata', Return tt)
    | _ => (metadata', o)
    end.

(** [metadata = {}; try: body except Exception as e:
    metadata['parse_error'] = str(e); return metadata] *)
Definition try_parse (body : parser unit) : outcome dict :=
  let '(metadata, o) := body [] in
  match o with
  | Return _ => Return metadata
  | Raise e => Return (dict_set (lit "parse_error") (PStr (exn_str e)) metadata)
  | OutOfFuel => OutOfFuel
  end.

(** The exception, if any, that the body of a [parse_packet] ran into. *)
Definition raised (body : parser unit) : option exn :=
  match snd (body []) with
  | Raise e => Some e
  | _ => None
  end.

Definition client_to_server : str := lit "client_to_server".
Definition server_to_client : str := lit "server_to_client".

(* --------------------------------------------------------------------- *)
(** ** [src/protocols/base.py] *)

Module Base.

(** [class Packet] of the handler module: no direction, no [modified]. *)
Record Packet : Type := {
  id : str;
  timestamp : pyfloat;
  data : bytes;
  source : address;
  destination : address;
  protocol : str;
  paused : bool;
  metadata : dict;
}.

Definition __init__ (fresh_id : str) (now : pyfloat) (data : bytes)
    (source destination : address) (protocol : str) : Packet :=
  {| id := fresh_id; timestamp := now; data := data; source := source;
     destination := destination; protocol := protocol; paused := false;
     metadata := [] |}.

(** What a subclass of [BaseProtocolHandler] provides. *)
Record handler_class : Type := {
  get_protocol_name : str;
  (** the body of [parse_packet], inside its [try] *)
  parse_body : bytes → str → parser unit;
  should_inspect_packet : bytes → str → bool;
}.

(** [parse_packet(data, direction)] *)
Definition parse_packet (cls : handler_class) (data : bytes) (direction : str)
    : outcome dict :=
  try_parse (parse_body cls data direction).

(** The attributes of a handler that [create_packet] reads.  [server_peer]
    is what [self.server_socket.getpeername()] answers: nothing for a socket
    that is not connected. *)
Record handler : Type := {
  client_address : address;
  server_peer : option address;
  inspection_mode : str;
  pause_by_default : bool;
}.

Definition getpeername (self : handler) : outcome address :=
  match server_peer self with
  | Some peer => Return peer
  | None => Raise (OSError (lit "Transport endpoint is not connected"))
  end.

(** [BaseProtocolHandler.create_packet]; the identifier and the time of the
    new packet are drawn by the caller. *)
Definition create_packet (cls : handler_class) (self : handler)
    (fresh_id : str) (now : pyfloat) (data : bytes) (direction : str)
    : outcome Packet :=
  ends ← (if bool_decide (direction = client_to_server) then
            peer ← getpeername self; Return (client_address self, peer)
          else
            peer ← getpeername self; Return (peer, client_address self));
  let packet :=
    __init__ fresh_id now data (fst ends) (snd ends) (get_protocol_name cls) in
  (* parsed metadata if the inspection mode includes 'parsed' *)
  md ← (if bool_decide (inspection_mode self ∈ [lit "parsed"; lit "both"]) then
          parse_packet cls data direction
        else Return (metadata packet));
  Return {| id := id packet; timestamp := timestamp packet; data := data;
            source := source packet; destination := destination packet;
            protocol := protocol packet;
            paused := pause_by_default self; metadata := md |}.

End Base.

(* --------------------------------------------------------------------- *)
(** ** [src/protocols/http.py] *)

Module Http.

Definition CRLF : bytes := [x0d; x0a].

(** The block that handles one header line, inside its [try]. *)
Definition header_block `{PyText} (line : bytes) : parser unit :=
  let header_line := decode_utf8_ignore line in
  if contains header_line (lit ":") then
    match split header_line (lit ":") (Some 1%nat) with
    | [name; value] =>
        setitem_in (lit "headers") (strip name) (PStr (strip value))
    | _ => lift (Raise (ValueError (lit "not enough values to unpack")))
    end
  else mret tt.

(** The loop over the header lines, shared by the request and the response
    branch: it stops at the first empty line. *)
Fixpoint parse_header_lines `{PyText} (lines : list bytes) : parser unit :=
  match lines with
  | [] => mret tt
  | line :: rest =>
      if bool_decide (line = []) || bool_decide (line = CRLF) then mret tt
      else
        try_pass (header_block line);;
        parse_header_lines rest
  end.

(** The request branch. *)
Definition parse_request `{PyText} (data : bytes) : parser unit :=
  let lines := split data CRLF None in
  match lines with
  | [] => mret tt
  | line :: _ =>
      let request_line := decode_utf8_ignore line in
      match split request_line (lit " ") None with
      | method :: path :: version :: _ =>
          setitem (lit "method") (PStr method);;
          setitem (lit "path") (PStr path);;
          setitem (lit "version") (PStr version)
      | _ => mret tt
      end
  end;;
  setitem (lit "headers") (PDict []);;
  parse_header_lines (tail lines).

(** The response branch. *)
Definition parse_response `{PyText} (data : bytes) : parser unit :=
  let lines := split data CRLF None in
  match lines with
  | [] => mret tt
  | line :: _ =>
      let status_line := decode_utf8_ignore line in
      match split status_line (lit " ") (Some 2%nat) with
      | version :: status_code :: status_message :: _ =>
          setitem (lit "version") (PStr version);;
          setitem (lit "status_code") (PStr status_code);;
          setitem (lit "status_message") (PStr status_message)
      | _ => mret tt
      end
  end;;
  setitem (lit "headers") (PDict []);;
  parse_header_lines (tail lines).

(** [metadata.get('headers', {}).get('Content-Type', '')] *)
Definition content_type_of (metadata : dict) : str :=
  match dict_get (lit "headers") metadata with
  | Some (PDict headers) =>
      match dict_get (lit "Content-Type") headers with
      | Some (PStr value) => value
      | _ => []
      end
  | _ => []
  end.

(** The body of [HTTPProtocolHandler.parse_packet]. *)
Definition parse_body `{PyText} (data : bytes) (direction : str) : parser unit :=
  (if bool_decide (direction = client_to_server) then parse_request data
   else parse_response data);;
  metadata ← get_metadata;
  let content_type := content_type_of metadata in
  setitem (lit "content_type") (PStr content_type);;
  if contains data (CRLF ++ CRLF) then
    match split data (CRLF ++ CRLF) (Some 1%nat) with
    | _ :: body :: _ =>
        setitem (lit "body_length") (PInt (Z.of_nat (length body)));;
        if startswith content_type (lit "text/")
           || startswith content_type (lit "application/json")
           || startswith content_type (lit "application/xml") then
          try_pass
            (let preview := decode_utf8_ignore (take 100 body) in
             setitem (lit "body_preview") (PStr preview))
        else mret tt
    | _ => lift (Raise (IndexError (lit "list index out of range")))
    end
  else mret tt.

(** *** Vocabulary of the statements about requests *)

(** A header as it is written on its line: [name:value]. *)
Definition header_line (h : str * str) : str := fst h ++ lit ":" ++ snd h.

(** The bytes of a request: the request line, one line for each header, an
    empty line, the body. *)
Definition request_bytes (method path version : str)
    (headers : list (str * str)) (body : bytes) : bytes :=
  encode_ascii (method ++ lit " " ++ path ++ lit " " ++ version) ++ CRLF
  ++ flat_map (fun h => encode_ascii (header_line h) ++ CRLF) headers
  ++ CRLF ++ body.

(** The bytes of a response: the status line, one line for each header, an
    empty line, the body. *)
Definition response_bytes (version status_code status_message : str)
    (headers : list (str * str)) (body : bytes) : bytes :=
  encode_ascii (version ++ lit " " ++ status_code ++ lit " " ++ status_message)
  ++ CRLF
  ++ flat_map (fun h => encode_ascii (header_line h) ++ CRLF) headers
  ++ CRLF ++ body.

(** A part of the request line: ASCII, without space or carriage return. *)
Definition request_token (s : str) : Prop :=
  is_ascii s ∧ (32%N ∉ s) ∧ (13%N ∉ s).

(** A header: ASCII, no colon in the name, no carriage return. *)
Definition header_ok (h : str * str) : Prop :=
  is_ascii (fst h) ∧ is_ascii (snd h)
  ∧ (58%N ∉ fst h) ∧ (13%N ∉ fst h) ∧ (13%N ∉ snd h).

(** Every header of the request is found in the header map: under its
    trimmed name, its trimmed value. *)
Definition every_header_recovered (headers : list (str * str))
    (header_dict : dict) : Prop :=
  ∀ name value, (name, value) ∈ headers →
    dict_get (strip name) header_dict = Some (PStr (strip value)).

(** The header map of a request: each pair, trimmed, is stored in turn. *)
Definition header_map (headers : list (str * str)) (start : dict) : dict :=
  fold_left (fun m h => dict_set (strip (fst h)) (PStr (strip (snd h))) m)
    headers start.

(** The head of a message: its lines, without the line break that ends the
    last of them. *)
Definition message_head (first : bytes) (headers : list (str * str)) : bytes :=
  first ++ flat_map (fun h => CRLF ++ encode_ascii (header_line h)) headers.

(** The keys that the first half of [parse_packet] may set. *)
Definition head_keys : list str :=
  [lit "method"; lit "path"; lit "version"; lit "status_code";
   lit "status_message"; lit "headers"].

Definition HTTPProtocolHandler `{PyText} : Base.handler_class := {|
  Base.get_protocol_name := lit "http";
  Base.parse_body := parse_body;
  Base.should_inspect_packet := fun _ _ => true;
|}.

(** [HTTPProtocolHandler.parse_packet] *)
Definition parse_packet `{PyText} (data : bytes) (direction : str) : outcome dict :=
  Base.parse_packet HTTPProtocolHandler data direction.

End Http.

(* --------------------------------------------------------------------- *)
(** ** [src/protocols/ftp.py] *)

Module Ftp.

(** *** The regular expression [\((\d+),(\d+),(\d+),(\d+),(\d+),(\d+)\)]

    A run [\d+] is greedy and is always followed by a character that is not
    a digit, so matching never has to give a digit back. *)

(** The longest run of decimal digits at the head of [s], and what follows. *)
Fixpoint span_digits `{PyText} (s : str) : str * str :=
  match s with
  | [] => ([], [])
  | c :: s' =>
      match char_decimal c with
      | Some _ => let '(d, r) := span_digits s' in (c :: d, r)
      | None => ([], s)
      end
  end.

(** [(\d+)] *)
Definition number `{PyText} (s : str) : option (str * str) :=
  let '(d, r) := span_digits s in
  if bool_decide (d = []) then None else Some (d, r).

(** One literal character. *)
Definition expect (c : char) (s : str) : option str :=
  match s with
  | c' :: r => if bool_decide (c = c') then Some r else None
  | [] => None
  end.

(** [re.match] of the expression at the head of [s]: its six groups. *)
Definition match_pasv `{PyText} (s : str) : option (list str) :=
  s ← expect 40%N s;
  n1 ← number s; s ← expect 44%N (snd n1);
  n2 ← number s; s ← expect 44%N (snd n2);
  n3 ← number s; s ← expect 44%N (snd n3);
  n4 ← number s; s ← expect 44%N (snd n4);
  n5 ← number s; s ← expect 44%N (snd n5);
  n6 ← number s; _ ← expect 41%N (snd n6);
  Some [fst n1; fst n2; fst n3; fst n4; fst n5; fst n6].

(** [re.search]: the leftmost position where the expression matches. *)
Fixpoint search_pasv `{PyText} (text : str) : option (list str) :=
  match match_pasv text with
  | Some groups => Some groups
  | None =>
      match text with
      | [] => None
      | _ :: text' => search_pasv text'
      end
  end.

(** The last part of both branches that handle code 227:
    [h1, h2, h3, h4, p1, p2 = map(int, match.groups())] and what is computed
    from them. *)
Definition passive_endpoint `{PyText} (groups : list str) : outcome (str * Z) :=
  ints ← mapM int_of_str groups;
  match ints with
  | [h1; h2; h3; h4; p1; p2] =>
      let passive_ip :=
        str_of_int h1 ++ lit "." ++ str_of_int h2 ++ lit "."
          ++ str_of_int h3 ++ lit "." ++ str_of_int h4 in
      let passive_port := p1 * 256 + p2 in
      Return (passive_ip, passive_port)
  | _ => Raise (ValueError (lit "not enough values to unpack"))
  end.

(** The command branch. *)
Definition parse_command `{PyText} (text : str) : parser unit :=
  let parts := split text (lit " ") (Some 1%nat) in
  part0 ← lift (index parts 0);
  let command := str_upper part0 in
  setitem (lit "command") (PStr command);;
  (if bool_decide (1 < length parts)%nat then
     part1 ← lift (index parts 1); setitem (lit "argument") (PStr part1)
   else mret tt);;
  if bool_decide (command = lit "USER") then
    username ← (if bool_decide (1 < length parts)%nat then lift (index parts 1)
                else mret []);
    setitem (lit "username") (PStr username)
  else if bool_decide (command = lit "PASS") then
    setitem (lit "password") (PStr (lit "********"))
  else if bool_decide (command ∈ [lit "CWD"; lit "CDUP"; lit "PWD"]) then
    setitem (lit "directory_operation") (PBool true)
  else if bool_decide (command ∈ [lit "RETR"; lit "STOR"; lit "LIST"; lit "NLST"]) then
    setitem (lit "data_channel_operation") (PBool true);;
    if bool_decide (command ∈ [lit "RETR"; lit "STOR"])
       && bool_decide (1 < length parts)%nat then
      part1 ← lift (index parts 1); setitem (lit "filename") (PStr part1)
    else mret tt
  else mret tt.

(** The response branch. *)
Definition parse_response `{PyText} (text : str) : parser unit :=
  let parts := split text (lit " ") (Some 1%nat) in
  match parts with
  | [] => mret tt
  | code :: _ =>
      if isdigit code then
        setitem (lit "response_code") (PStr code);;
        (if bool_decide (1 < length parts)%nat then
           part1 ← lift (index parts 1);
           setitem (lit "response_message") (PStr part1)
         else mret tt);;
        code_category ← lift (index code 0);
        (if bool_decide (code_category = 49%N) then
           setitem (lit "response_type") (PStr (lit "preliminary"))
         else if bool_decide (code_category = 50%N) then
           setitem (lit "response_type") (PStr (lit "completion"))
         else if bool_decide (code_category = 51%N) then
           setitem (lit "response_type") (PStr (lit "intermediate"))
         else if bool_decide (code_category = 52%N) then
           setitem (lit "response_type") (PStr (lit "transient_negative"))
         else if bool_decide (code_category = 53%N) then
           setitem (lit "response_type") (PStr (lit "permanent_negative"))
         else mret tt);;
        if bool_decide (code = lit "227") then
          match search_pasv text with
          | Some groups =>
              endpoint ← lift (passive_endpoint groups);
              setitem (lit "passive_ip") (PStr (fst endpoint));;
              setitem (lit "passive_port") (PInt (snd endpoint))
          | None => mret tt
          end
        else mret tt
      else mret tt
  end.

(** The body of [FTPProtocolHandler.parse_packet]. *)
Definition parse_body `{PyText} (data : bytes) (direction : str) : parser unit :=
  let text := strip (decode_utf8_ignore data) in
  if bool_decide (direction = client_to_server) then parse_command text
  else parse_response text.

(** [FTPProtocolHandler._handle_pasv_response]: the endpoint that it hands
    to [_handle_data_connection], if the line holds a group. *)
Definition _handle_pasv_response `{PyText} (response_line : str)
    : outcome (option (str * Z)) :=
  match search_pasv response_line with
  | Some groups =>
      endpoint ← passive_endpoint groups;
      Return (Some endpoint)
  | None => Return None
  end.

(** The block of [_proxy_data] that watches what the server sends, inside
    its [try ... except: pass]: the endpoint, if any, to which a data
    connection is opened. *)
Definition watch_pasv_response `{PyText} (data : bytes) : option (str * Z) :=
  let response_line := strip (decode_utf8_ignore data) in
  if contains response_line (lit "227 Entering Passive Mode") then
    match _handle_pasv_response response_line with
    | Return endpoint => endpoint
    | _ => None
    end
  else None.

(** *** Vocabulary of the statements about passive-mode responses *)

(** A decimal numeral: one or more ASCII digits. *)
Definition numeral (d : str) : Prop :=
  d ≠ [] ∧ Forall (fun c => ascii_isdigit c = true) d.

(** The integer that a numeral writes. *)
Definition numeral_value (d : str) : Z :=
  fold_left (fun n c => 10 * n + (Z.of_N c - 48)) d 0.

(** The group [(d1,d2,d3,d4,d5,d6)]. *)
Definition pasv_group (d1 d2 d3 d4 d5 d6 : str) : str :=
  lit "(" ++ d1 ++ lit "," ++ d2 ++ lit "," ++ d3 ++ lit "," ++ d4
    ++ lit "," ++ d5 ++ lit "," ++ d6 ++ lit ")".

(** A response with code 227: the code, a space, some text, the group, the
    rest of the text. *)
Definition pasv_response (pre d1 d2 d3 d4 d5 d6 post : str) : str :=
  lit "227 " ++ pre ++ pasv_group d1 d2 d3 d4 d5 d6 ++ post.

Definition FTPProtocolHandler `{PyText} : Base.handler_class := {|
  Base.get_protocol_name := lit "ftp";
  Base.parse_body := parse_body;
  Base.should_inspect_packet := fun _ _ => true;
|}.

(** [FTPProtocolHandler.parse_packet] *)
Definition parse_packet `{PyText} (data : bytes) (direction : str) : outcome dict :=
  Base.parse_packet FTPProtocolHandler data direction.

End Ftp.

(* --------------------------------------------------------------------- *)
(** ** [src/protocols/dns.py] *)

Module Dns.

(** One big-endian unsigned 16-bit field. *)
Definition u16 (hi lo : byte) : Z := 256 * byte_val hi + byte_val lo.

(** [struct.unpack('!HHHHHH', b)] *)
Definition unpack_6H (b : bytes) : outcome (Z * Z * Z * Z * Z * Z) :=
  match b with
  | [a0; a1; a2; a3; a4; a5; a6; a7; a8; a9; a10; a11] =>
      Return (u16 a0 a1, u16 a2 a3, u16 a4 a5, u16 a6 a7, u16 a8 a9, u16 a10 a11)
  | _ => Raise (StructError (lit "unpack requires a buffer of 12 bytes"))
  end.

(** [struct.unpack('!HH', b)] *)
Definition unpack_2H (b : bytes) : outcome (Z * Z) :=
  match b with
  | [a0; a1; a2; a3] => Return (u16 a0 a1, u16 a2 a3)
  | _ => Raise (StructError (lit "unpack requires a buffer of 4 bytes"))
  end.

(** [opcode_map.get(opcode, f'UNKNOWN ({opcode})')] *)
Definition opcode_name (opcode : Z) : str :=
  match opcode with
  | 0 => lit "QUERY"
  | 1 => lit "IQUERY"
  | 2 => lit "STATUS"
  | 3 => lit "NOTIFY"
  | 4 => lit "UPDATE"
  | _ => lit "UNKNOWN (" ++ str_of_int opcode ++ lit ")"
  end.

(** [rcode_map.get(rcode, f'UNKNOWN ({rcode})')] *)
Definition rcode_name (rcode : Z) : str :=
  match rcode with
  | 0 => lit "NOERROR"
  | 1 => lit "FORMERR"
  | 2 => lit "SERVFAIL"
  | 3 => lit "NXDOMAIN"
  | 4 => lit "NOTIMP"
  | 5 => lit "REFUSED"
  | _ => lit "UNKNOWN (" ++ str_of_int rcode ++ lit ")"
  end.

(** [qtype_map.get(qtype, f'TYPE{qtype}')] *)
Definition qtype_name (qtype : Z) : str :=
  match qtype with
  | 1 => lit "A"
  | 2 => lit "NS"
  | 5 => lit "CNAME"
  | 6 => lit "SOA"
  | 12 => lit "PTR"
  | 15 => lit "MX"
  | 16 => lit "TXT"
  | 28 => lit "AAAA"
  | 33 => lit "SRV"
  | 255 => lit "ANY"
  | _ => lit "TYPE" ++ str_of_int qtype
  end.

(** [qclass_map.get(qclass, f'CLASS{qclass}')] *)
Definition qclass_name (qclass : Z) : str :=
  match qclass with
  | 1 => lit "IN"
  | 2 => lit "CS"
  | 3 => lit "CH"
  | 4 => lit "HS"
  | 255 => lit "ANY"
  | _ => lit "CLASS" ++ str_of_int qclass
  end.

(** The [while True] loop that reads the labels of the question name; it
    returns the labels and the offset after the closing zero byte. *)
Fixpoint name_loop `{PyText} (fuel : nat) (data : bytes) (offset : nat)
    (domain_parts : list str) : outcome (list str * nat) :=
  length ← index data offset;
  let offset := (offset + 1)%nat in
  if bool_decide (byte_val length = 0) then Return (domain_parts, offset)
  else
    let len := Z.to_nat (byte_val length) in
    let domain_part := decode_utf8_ignore (slice data offset (offset + len)) in
    match fuel with
    | O => OutOfFuel
    | S fuel' =>
        name_loop fuel' data (offset + len)%nat (domain_parts ++ [domain_part])
    end.

(** The [while offset < len(data)] loop that skips one question name. *)
Fixpoint skip_name (fuel : nat) (data : bytes) (offset : nat) : outcome nat :=
  if negb (bool_decide (offset < length data)%nat) then Return offset
  else
    length ← index data offset;
    let offset := (offset + 1)%nat in
    if bool_decide (byte_val length = 0) then Return offset
    else if bool_decide (Z.land (byte_val length) 192 = 192) then
      (* compressed name, skip one more byte *)
      Return (offset + 1)%nat
    else
      match fuel with
      | O => OutOfFuel
      | S fuel' => skip_name fuel' data (offset + Z.to_nat (byte_val length))%nat
      end.

(** [for _ in range(qdcount)]: skip the name, then type and class. *)
Fixpoint skip_questions (qdcount : nat) (data : bytes) (offset : nat) : outcome nat :=
  match qdcount with
  | O => Return offset
  | S qdcount' =>
      offset ← skip_name (length data) data offset;
      skip_questions qdcount' data (offset + 4)%nat
  end.

(** The second half of [parse_packet]: the question name of the packet and
    the answers of a response. *)
Definition parse_sections `{PyText} (data : bytes) (qr qdcount ancount : Z)
    : parser unit :=
  (* the query name *)
  (if bool_decide (0 < qdcount) then
     name ← lift (name_loop (length data) data 12 []);
     let '(domain_parts, offset) := name in
     setitem (lit "query_name") (PStr (join (lit ".") domain_parts));;
     if bool_decide (offset + 4 ≤ length data)%nat then
       question ← lift (unpack_2H (slice data offset (offset + 4)));
       setitem (lit "query_type") (PStr (qtype_name (fst question)));;
       setitem (lit "query_class") (PStr (qclass_name (snd question)))
     else mret tt
   else mret tt);;
  (* the answers of a response *)
  if negb (qr =? 0) && bool_decide (0 < ancount) then
    setitem (lit "answers") (PList []);;
    lift (skip_questions (Z.to_nat qdcount) data 12);;
    setitem (lit "answers_parsed") (PInt (Z.min ancount 10))
  else mret tt.

(** The body of [DNSProtocolHandler.parse_packet]: the header, then
    [parse_sections]. *)
Definition parse_body `{PyText} (data : bytes) (direction : str) : parser unit :=
  if bool_decide (length data < 12)%nat then
    setitem (lit "error") (PStr (lit "Packet too short for DNS header"))
  else
    header ← lift (unpack_6H (take 12 data));
    let '(id, flags, qdcount, ancount, nscount, arcount) := header in
    setitem (lit "transaction_id") (PInt id);;
    setitem (lit "query_count") (PInt qdcount);;
    setitem (lit "answer_count") (PInt ancount);;
    setitem (lit "authority_count") (PInt nscount);;
    setitem (lit "additional_count") (PInt arcount);;
    (* decode flags *)
    let qr := Z.land (Z.shiftr flags 15) 1 in
    let opcode := Z.land (Z.shiftr flags 11) 15 in
    let aa := Z.land (Z.shiftr flags 10) 1 in
    let tc := Z.land (Z.shiftr flags 9) 1 in
    let rd := Z.land (Z.shiftr flags 8) 1 in
    let ra := Z.land (Z.shiftr flags 7) 1 in
    let z := Z.land (Z.shiftr flags 4) 7 in
    let rcode := Z.land flags 15 in
    setitem (lit "is_response") (PBool (negb (qr =? 0)));;
    setitem (lit "opcode") (PInt opcode);;
    setitem (lit "authoritative") (PBool (negb (aa =? 0)));;
    setitem (lit "truncated") (PBool (negb (tc =? 0)));;
    setitem (lit "recursion_desired") (PBool (negb (rd =? 0)));;
    setitem (lit "recursion_available") (PBool (negb (ra =? 0)));;
    setitem (lit "response_code") (PInt rcode);;
    setitem (lit "opcode_name") (PStr (opcode_name opcode));;
    setitem (lit "response_code_name") (PStr (rcode_name rcode));;
    parse_sections data qr qdcount ancount.

(** [DNSProtocolHandler._setup_server_connection], as far as the server
    socket goes: a fresh datagram socket, which no call connects to a peer
    (the loop addresses the resolver with [sendto]). *)
Definition _setup_server_connection (self : Base.handler) : Base.handler :=
  {| Base.client_address := Base.client_address self;
     Base.server_peer := None;
     Base.inspection_mode := Base.inspection_mode self;
     Base.pause_by_default := Base.pause_by_default self |}.

(** The standard encoding of a name: each label behind its length byte,
    then a zero byte. *)
Definition encode_labels (labels : list str) : bytes :=
  flat_map (fun label =>
              byte_of_char (N.of_nat (length label)) :: encode_ascii label) labels
  ++ [x00].

(** A label that fits the encoding: ASCII, between 1 and 255 characters. *)
Definition label_ok (label : str) : Prop :=
  is_ascii label ∧ (1 ≤ length label ≤ 255)%nat.

Definition DNSProtocolHandler `{PyText} : Base.handler_class := {|
  Base.get_protocol_name := lit "dns";
  Base.parse_body := parse_body;
  Base.should_inspect_packet := fun _ _ => true;
|}.

(** [DNSProtocolHandler.parse_packet] *)
Definition parse_packet `{PyText} (data : bytes) (direction : str) : outcome dict :=
  Base.parse_packet DNSProtocolHandler data direction.

End Dns.

(* --------------------------------------------------------------------- *)
(** ** [src/protocols/telnet.py]: the command processor *)

Module Telnet.

(** Telnet command codes *)
Definition IAC : byte := xff.   (* 255, Interpret As Command *)
Definition DONT : byte := xfe.  (* 254 *)
Definition DO : byte := xfd.    (* 253 *)
Definition WONT : byte := xfc.  (* 252 *)
Definition WILL : byte := xfb.  (* 251 *)
Definition SB : byte := xfa.    (* 250, Subnegotiation Begin *)
Definition SE : byte := xf0.    (* 240, Subnegotiation End *)

(** The inner [while j < len(buffer) - 1] of the subnegotiation branch:
    it stops at the first [j] with [buffer[j] == IAC] and
    [buffer[j+1] == SE], or at [len(buffer) - 1]. *)
Fixpoint find_se (fuel : nat) (buffer : bytes) (j : nat) : outcome nat :=
  if negb (bool_decide (j < length buffer - 1)%nat) then Return j
  else
    match fuel with
    | O => OutOfFuel
    | S fuel' =>
        bj ← index buffer j;
        bj1 ← index buffer (j + 1);
        if bool_decide (bj = IAC) && bool_decide (bj1 = SE) then Return j
        else find_se fuel' buffer (j + 1)%nat
    end.

(** The [while i < len(buffer)] loop of [_process_telnet_commands]. *)
Fixpoint process_loop (fuel : nat) (buffer : bytes) (i : nat)
    (processed_data : bytes) : outcome (bytes * bytes) :=
  if negb (bool_decide (i < length buffer)%nat) then
    Return (processed_data, [])
  else
    match fuel with
    | O => OutOfFuel
    | S fuel' =>
        b ← index buffer i;
        (* not an IAC, or the last byte of the buffer *)
        if bool_decide (b ≠ IAC) || bool_decide (length buffer - 1 ≤ i)%nat then
          process_loop fuel' buffer (i + 1)%nat (processed_data ++ [b])
        else
          command ← index buffer (i + 1);
          (* simple option negotiation *)
          if bool_decide (command ∈ [DO; DONT; WILL; WONT])
             && bool_decide (i < length buffer - 2)%nat then
            option ← index buffer (i + 2);
            process_loop fuel' buffer (i + 3)%nat
              (processed_data ++ [IAC; command; option])
          else if bool_decide (command = SB) then
            (* look for the end of the subnegotiation *)
            j ← find_se (length buffer) buffer (i + 2);
            if bool_decide (j < length buffer - 1)%nat then
              process_loop fuel' buffer (j + 2)%nat
                (processed_data ++ slice buffer i (j + 2))
            else
              (* incomplete subnegotiation, kept in the buffer *)
              Return (processed_data, drop i buffer)
          else
            (* other two-byte commands *)
            process_loop fuel' buffer (i + 2)%nat
              (processed_data ++ [IAC; command])
    end.

(** [TelnetProtocolHandler._process_telnet_commands(buffer, direction)]:
    every round of the loop advances [i], so [len(buffer)] rounds are
    enough. *)
Definition _process_telnet_commands (buffer : bytes) (direction : str)
    : outcome (bytes * bytes) :=
  if negb (bool_decide (IAC ∈ buffer)) then Return (buffer, [])
  else process_loop (length buffer) buffer 0 [].

(** [_get_command_name] *)
Definition _get_command_name (cmd : byte) : str :=
  if bool_decide (cmd = DO) then lit "DO"
  else if bool_decide (cmd = DONT) then lit "DONT"
  else if bool_decide (cmd = WILL) then lit "WILL"
  else if bool_decide (cmd = WONT) then lit "WONT"
  else if bool_decide (cmd = SB) then lit "SB"
  else if bool_decide (cmd = SE) then lit "SE"
  else str_of_int (byte_val cmd).

(** [_get_option_name] *)
Definition _get_option_name (opt : byte) : str :=
  match byte_val opt with
  | 1 => lit "ECHO"
  | 3 => lit "SGA"
  | 24 => lit "TERM_TYPE"
  | 31 => lit "NAWS"
  | 32 => lit "TERM_SPEED"
  | 34 => lit "LINEMODE"
  | 36 => lit "ENV_VARS"
  | n => str_of_int n
  end.

(** The [while i < len(data)] loop of [parse_packet] that lists the command
    sequences of a chunk. *)
Fixpoint scan_commands (fuel : nat) (data : bytes) (i : nat)
    (commands : list str) : outcome (list str) :=
  if negb (bool_decide (i < length data)%nat) then Return commands
  else
    match fuel with
    | O => OutOfFuel
    | S fuel' =>
        b ← index data i;
        if bool_decide (b = IAC) && bool_decide (i < length data - 1)%nat then
          cmd ← index data (i + 1);
          let cmd_name := _get_command_name cmd in
          if bool_decide (cmd ∈ [DO; DONT; WILL; WONT])
             && bool_decide (i < length data - 2)%nat then
            opt ← index data (i + 2);
            let opt_name := _get_option_name opt in
            scan_commands fuel' data (i + 3)%nat
              (commands ++ [lit "IAC " ++ cmd_name ++ lit " " ++ opt_name])
          else if bool_decide (cmd = SB) && bool_decide (i < length data - 2)%nat then
            sub_opt ← index data (i + 2);
            let sub_opt_name := _get_option_name sub_opt in
            j ← find_se (length data) data (i + 3);
            if bool_decide (j < length data - 1)%nat then
              let sub_data := slice data (i + 3) j in
              scan_commands fuel' data (j + 2)%nat
                (commands ++ [lit "IAC SB " ++ sub_opt_name ++ lit " "
                                ++ bytes_hex sub_data ++ lit " IAC SE"])
            else
              scan_commands fuel' data (length data)
                (commands ++ [lit "IAC SB " ++ sub_opt_name ++ lit " [incomplete]"])
          else
            scan_commands fuel' data (i + 2)%nat
              (commands ++ [lit "IAC " ++ cmd_name])
        else scan_commands fuel' data (i + 1)%nat commands
    end.

(** [b.decode('ascii', errors='ignore')] *)
Definition decode_ascii_ignore (b : bytes) : str :=
  map char_of_byte (filter (fun x => byte_val x < 128) b).

(** The body of [TelnetProtocolHandler.parse_packet]. *)
Definition parse_body (data : bytes) (direction : str) : parser unit :=
  commands ← lift (scan_commands (length data) data 0 []);
  setitem (lit "command_count") (PInt (Z.of_nat (length commands)));;
  (if negb (bool_decide (commands = [])) then
     setitem (lit "commands") (PList (map PStr (take 10 commands)));;
     if bool_decide (10 < length commands)%nat then
       setitem (lit "additional_commands") (PInt (Z.of_nat (length commands) - 10))
     else mret tt
   else mret tt);;
  (* displayable text *)
  let displayable :=
    filter (fun b => (32 ≤ byte_val b ∧ byte_val b < 127)
                     ∨ byte_val b ∈ [9; 10; 13]) data in
  let text := decode_ascii_ignore displayable in
  let text := join (lit " ") (split_whitespace text) in
  if negb (bool_decide (text = [])) then
    setitem (lit "text_preview") (PStr (take 100 text));;
    if bool_decide (100 < length text)%nat then
      setitem (lit "text_preview") (PStr (take 100 text ++ lit "..."))
    else mret tt
  else mret tt.

Definition TelnetProtocolHandler : Base.handler_class := {|
  Base.get_protocol_name := lit "telnet";
  Base.parse_body := parse_body;
  Base.should_inspect_packet := fun _ _ => true;
|}.

(** [TelnetProtocolHandler.parse_packet] *)
Definition parse_packet (data : bytes) (direction : str) : outcome dict :=
  Base.parse_packet TelnetProtocolHandler data direction.

(** *** Vocabulary of the statements about the command processor *)

(** [contains_iac_se p]: the pair [IAC SE] occurs somewhere in [p]. *)
Fixpoint contains_iac_se (p : bytes) : bool :=
  match p with
  | [] => false
  | b :: t =>
      match t with
      | [] => false
      | c :: _ => (bool_decide (b = IAC) && bool_decide (c = SE)) || contains_iac_se t
      end
  end.

(** [subnegotiation payload] is the byte sequence [IAC SB payload IAC SE]. *)
Definition subnegotiation (payload : bytes) : bytes :=
  IAC :: SB :: payload ++ [IAC; SE].

(** A byte sequence made of complete Telnet units: data bytes, three-byte
    option negotiations, two-byte commands and closed subnegotiations. *)
Inductive tokens : bytes → Prop :=
| tokens_nil : tokens []
| tokens_data b t :
    b ≠ IAC → tokens t → tokens (b :: t)
| tokens_negotiation c o t :
    c ∈ [DO; DONT; WILL; WONT] → tokens t → tokens (IAC :: c :: o :: t)
| tokens_command c t :
    c ∉ [DO; DONT; WILL; WONT] → c ≠ SB → tokens t → tokens (IAC :: c :: t)
| tokens_subnegotiation p t :
    contains_iac_se p = false → tokens t → tokens (subnegotiation p ++ t).

(** The reassembly property of a stream [pre ++ IAC SB payload IAC SE ++ post]
    read in two pieces, the first of [k] bytes: the first round emits [pre]
    and keeps what it has seen of the subnegotiation; the second round, run on
    the kept bytes followed by the second read, emits the subnegotiation
    first and whole. *)
Definition straddle_reassembled (pre payload post : bytes) (k : nat)
    (direction : str) : Prop :=
  let sub := subnegotiation payload in
  let stream := pre ++ sub ++ post in
  let kept := take (k - length pre) sub in
  _process_telnet_commands (take k stream) direction = Return (pre, kept)
  ∧ ∃ emitted remaining,
      _process_telnet_commands (kept ++ drop k stream) direction
        = Return (sub ++ emitted, remaining).

End Telnet.

(* --------------------------------------------------------------------- *)
(** ** The relay loops ([_proxy_data])

    One turn of a relay loop is modelled on what it does with a chunk that
    [recv] handed to it: the sockets are the lists of chunks sent so far. *)

Module Relay.

Inductive log_entry : Type :=
| LogPacket (packet : Base.Packet)           (* [self.log_packet(packet)] *)
| LogPaused (id : str) (direction : str).    (* ["Packet ... paused (...)"] *)

Record state : Type := {
  running : bool;
  sent_to_server : list bytes;
  sent_to_client : list bytes;
  log : list log_entry;
}.

Definition stop (st : state) : state :=
  {| running := false; sent_to_server := sent_to_server st;
     sent_to_client := sent_to_client st; log := log st |}.

Definition logged (entry : log_entry) (st : state) : state :=
  {| running := running st; sent_to_server := sent_to_server st;
     sent_to_client := sent_to_client st; log := log st ++ [entry] |}.

(** [self.server_socket.sendall(data)] *)
Definition send_to_server (data : bytes) (st : state) : state :=
  {| running := running st; sent_to_server := sent_to_server st ++ [data];
     sent_to_client := sent_to_client st; log := log st |}.

(** [self.client_socket.sendall(data)] *)
Definition send_to_client (data : bytes) (st : state) : state :=
  {| running := running st; sent_to_server := sent_to_server st;
     sent_to_client := sent_to_client st ++ [data]; log := log st |}.

(** The block that every relay loop repeats before it forwards a chunk:
<<
    if self.should_inspect_packet(data, direction):
        packet = self.create_packet(data, direction)
        self.log_packet(packet)
        if packet.paused:
            logging.info(f"Packet {packet.id} paused (...)")
            # In a real implementation, we would wait here
>> *)
Definition inspect (cls : Base.handler_class) (self : Base.handler)
    (fresh_id : str) (now : pyfloat) (data : bytes) (direction : str)
    (st : state) : outcome state :=
  if Base.should_inspect_packet cls data direction then
    packet ← Base.create_packet cls self fresh_id now data direction;
    let st := logged (LogPacket packet) st in
    if Base.paused packet then
      Return (logged (LogPaused (Base.id packet) direction) st)
    else Return st
  else Return st.





(** [TelnetProtocolHandler._proxy_data], the client socket is readable:
    the new [client_buffer] and the new state. *)
Definition telnet_client_readable (self : Base.handler)
    (fresh_id : str) (now : pyfloat) (client_buffer data : bytes) (st : state)
    : outcome (bytes * state) :=
  if bool_decide (data = []) then Return (client_buffer, stop st)
  else
    let client_buffer := client_buffer ++ data in
    round ← Telnet._process_telnet_commands client_buffer client_to_server;
    let '(processed_data, client_buffer) := round in
    if negb (bool_decide (processed_data = [])) then
      st ← inspect Telnet.TelnetProtocolHandler self fresh_id now processed_data
             client_to_server st;
      Return (client_buffer, send_to_server processed_data st)
    else Return (client_buffer, st).

(** [TelnetProtocolHandler._proxy_data], the server socket is readable. *)
Definition telnet_server_readable (self : Base.handler)
    (fresh_id : str) (now : pyfloat) (server_buffer data : bytes) (st : state)
    : outcome (bytes * state) :=
  if bool_decide (data = []) then Return (server_buffer, stop st)
  else
    let server_buffer := server_buffer ++ data in
    round ← Telnet._process_telnet_commands server_buffer server_to_client;
    let '(processed_data, server_buffer) := round in
    if negb (bool_decide (processed_data = [])) then
      st ← inspect Telnet.TelnetProtocolHandler self fresh_id now processed_data
             server_to_client st;
      Return (server_buffer, send_to_client processed_data st)
    else Return (server_buffer, st).

End Relay.


(** ** [src/protocols/http.py]: [_setup_server_connection] *)

Module HttpSetup.

(** What [_setup_server_connection] of the HTTP handler takes from the
    interpreter and its library besides the services of [PyText]. *)
Class PyUrl : Type := {
  (** [int(s)] *)
  int_of_text : str → outcome Z;
  (** the last branch: [re.search(r'^[A-Z]+ (http[s]?://[^/\s]+)', line)] and
      [urlparse] of what it finds; the host and the port that the branch
      assigns *)
  absolute_url_target : str → outcome (option str * option Z);
}.

(** [int] reads a decimal numeral of ASCII digits that is not too long as
    its value. *)
Record PyUrlLaws (U : PyUrl) : Prop := {
  int_of_numeral : ∀ d : str,
    Ftp.numeral d → (length d ≤ 4300)%nat →
    int_of_text d = Return (Ftp.numeral_value d);
}.

(** *** The regular expression [rb'Host: ([^\r\n]+)'] *)

(** The longest run of bytes other than CR and LF at the head of [s]. *)
Fixpoint span_line (s : bytes) : bytes :=
  match s with
  | [] => []
  | b :: s' =>
      if bool_decide (b = x0d) || bool_decide (b = x0a) then []
      else b :: span_line s'
  end.

(** [re.match] of the expression at the head of [s]: its group. *)
Definition match_host (s : bytes) : option bytes :=
  if startswith s (encode_ascii (lit "Host: ")) then
    let group := span_line (drop 6 s) in
    if bool_decide (group = []) then None else Some group
  else None.

(** [re.search]: the leftmost position where the expression matches. *)
Fixpoint search_host (header_data : bytes) : option bytes :=
  match match_host header_data with
  | Some group => Some group
  | None =>
      match header_data with
      | [] => None
      | _ :: rest => search_host rest
      end
  end.

(** [host_parts[0]] and
    [int(host_parts[1]) if len(host_parts) > 1 else default]. *)
Definition host_and_port `{PyUrl} (host_port : str) (default : Z)
    : outcome (option str * option Z) :=
  let host_parts := split host_port (lit ":") None in
  target_host ← index host_parts 0;
  target_port ← (if bool_decide (1 < length host_parts)%nat then
                   port ← index host_parts 1; int_of_text port
                 else Return default);
  Return (Some target_host, Some target_port).

(** The part of [HTTPProtocolHandler._setup_server_connection] that
    determines [target_host] and [target_port] from the headers read. *)
Definition determine_target `{PyText} `{PyUrl} (header_data : bytes)
    : outcome (option str * option Z) :=
  if startswith header_data (encode_ascii (lit "CONNECT ")) then
    line ← index (split header_data Http.CRLF None) 0;
    let connect_line := decode_utf8_ignore line in
    let connect_parts := split connect_line (lit " ") None in
    if bool_decide (2 ≤ length connect_parts)%nat then
      host_port ← index connect_parts 1;
      host_and_port host_port 443
    else Return (None, None)
  else
    match search_host header_data with
    | Some group => host_and_port (decode_utf8_ignore group) 80
    | None =>
        line ← index (split header_data Http.CRLF None) 0;
        absolute_url_target (decode_utf8_ignore line)
    end.

(** Where the handler connects, or that it gives up
    ([raise Exception("Could not determine target server ...")]). *)
Inductive target : Type :=
| Target (host : str) (port : Z)
| Undetermined.

(** [if not self.target_host or not self.target_port: raise ...], and the
    address handed to [connect] otherwise. *)
Definition _setup_server_connection `{PyText} `{PyUrl} (header_data : bytes)
    : outcome target :=
  found ← determine_target header_data;
  match found with
  | (Some target_host, Some target_port) =>
      if negb (bool_decide (target_host = [])) && negb (target_port =? 0)
      then Return (Target target_host target_port)
      else Return Undetermined
  | _ => Return Undetermined
  end.

(** Services for ASCII text whose search for an absolute URL finds nothing:
    enough for the requests that name their target in a [CONNECT] line or in
    a [Host] header, which never reach that search. *)
Definition ascii_url : PyUrl := {|
  int_of_text := @int_of_str ascii_text;
  absolute_url_target := fun _ => Return (None, None);
|}.

End HttpSetup.


(** ** [ProtocolHandlerRegistry] of [src/protocols/base.py] and its users in
    [src/proxy/server.py] *)

Module Registry.

(** [_handlers]: one dictionary for the whole process, from protocol names
    to handler classes. *)
Abbreviation handlers := (gmap (list N) Base.handler_class) (only parsing).

(** [ProtocolHandlerRegistry.register] *)
Definition register (protocol_name : str) (handler_class : Base.handler_class)
    (_handlers : handlers) : handlers :=
  <[protocol_name := handler_class]> _handlers.

(** [ProtocolHandlerRegistry.get_handler]: [None] for a name that is not
    registered. *)
Definition get_handler (protocol_name : str) (_handlers : handlers)
    : option Base.handler_class :=
  _handlers !! protocol_name.

End Registry.

Module Server.

(** [self.protocol_configs.get(name, {}).get('enabled', False)], as the
    condition of an [if]. *)
Definition enabled (protocol_configs : pyval) (name : str) : outcome bool :=
  config ← get_default protocol_configs name (PDict []);
  flag ← get_default config (lit "enabled") (PBool false);
  Return (truthy flag).

(** One of the four blocks of [_register_protocol_handlers]: the registry it
    leaves and how it ends. *)
Definition register_if_enabled (protocol_configs : pyval) (name : str)
    (handler_class : Base.handler_class) (_handlers : Registry.handlers)
    : Registry.handlers * outcome unit :=
  match enabled protocol_configs name with
  | Return true => (Registry.register name handler_class _handlers, Return tt)
  | Return false => (_handlers, Return tt)
  | Raise e => (_handlers, Raise e)
  | OutOfFuel => (_handlers, OutOfFuel)
  end.

(** The handler classes that the server knows, in the order of the blocks. *)
Definition handler_classes `{PyText} : list (str * Base.handler_class) :=
  [(lit "http", Http.HTTPProtocolHandler); (lit "ftp", Ftp.FTPProtocolHandler);
   (lit "dns", Dns.DNSProtocolHandler);
   (lit "telnet", Telnet.TelnetProtocolHandler)].

(** [ProxyServer._register_protocol_handlers]: block after block, until one
    raises. *)
Fixpoint register_blocks (protocol_configs : pyval)
    (blocks : list (str * Base.handler_class)) (_handlers : Registry.handlers)
    : Registry.handlers * outcome unit :=
  match blocks with
  | [] => (_handlers, Return tt)
  | (name, handler_class) :: blocks' =>
      match register_if_enabled protocol_configs name handler_class _handlers with
      | (_handlers', Return _) => register_blocks protocol_configs blocks' _handlers'
      | stopped => stopped
      end
  end.

Definition _register_protocol_handlers `{PyText} (protocol_configs : pyval)
    (_handlers : Registry.handlers) : Registry.handlers * outcome unit :=
  register_blocks protocol_configs handler_classes _handlers.

(** What [_protocol_server_loop] does with a connection that it accepted:
    without a handler class the client socket is closed, with one the
    connection is handed to an instance of the class. *)
Inductive accepted : Type :=
| Closed
| Handled (handler_class : Base.handler_class).

Definition accept (protocol_name : str) (_handlers : Registry.handlers) : accepted :=
  match Registry.get_handler protocol_name _handlers with
  | Some handler_class => Handled handler_class
  | None => Closed
  end.

End Server.

(* --------------------------------------------------------------------- *)
(** ** Notions used in the statements and proofs about the parsers *)

(** A computation that does not run out of fuel. *)
Definition finishes {A : Type} (o : outcome A) : Prop := o ≠ OutOfFuel.

(** A parser body that does not run out of fuel, whatever it starts from. *)
Definition terminates {A : Type} (m : parser A) : Prop :=
  ∀ metadata, finishes (snd (m metadata)).

(** A parser body that leaves the entry of key [k] as it finds it. *)
Definition keeps {A : Type} (k : str) (m : parser A) : Prop :=
  ∀ metadata, dict_get k (fst (m metadata)) = dict_get k metadata.

(** A parser body that leaves the value [v] under key [k], even when it
    raises afterwards. *)
Definition assigns {A : Type} (k : str) (v : pyval) (m : parser A) : Prop :=
  ∀ metadata, dict_get k (fst (m metadata)) = Some v.

(** A parser body that returns, whatever it starts from. *)
Definition returns {A : Type} (m : parser A) : Prop :=
  ∀ metadata, ∃ a, snd (m metadata) = Return a.

(** C2 for one handler class: [parse_packet] returns a dictionary for every
    chunk and direction, and an exception met by its body is recorded under
    ['parse_error']. *)
Definition never_raises (cls : Base.handler_class) : Prop :=
  ∀ (data : bytes) (direction : str),
    ∃ metadata,
      Base.parse_packet cls data direction = Return metadata
      ∧ ∀ e, raised (Base.parse_body cls data direction) = Some e →
             dict_get (lit "parse_error") metadata = Some (PStr (exn_str e)).

(* ===================================================================== *)
(** * Part II: lemmas and theorems                                        *)
(* ===================================================================== *)

(** ** Indexing and slicing *)

Lemma index_lt {A : Type} (l : list A) (i : nat) :
  (i < length l)%nat → ∃ x, l !! i = Some x ∧ index l i = Return x.
Proof.
  intros Hi. destruct (lookup_lt_is_Some_2 l i Hi) as [x Hx].
  exists x. unfold index. rewrite Hx. auto.
Qed.

Lemma index_Return {A : Type} (l : list A) (i : nat) (x : A) :
  l !! i = Some x → index l i = Return x.
Proof. intros Hx. unfold index. now rewrite Hx. Qed.

Lemma slice_take_app {A : Type} (l : list A) (a b : nat) :
  (a ≤ b)%nat → take a l ++ slice l a b = take b l.
Proof.
  intros Hab. unfold slice. rewrite take_take_drop. f_equal. lia.
Qed.

(** ** Splitting, searching and stripping strings *)

Section Strings.
Context {A : Type} `{EqDecision A}.
Implicit Types (s sep a r : list A) (maxsplit : option nat).

Lemma startswith_app s p : startswith (p ++ s) p = true.
Proof.
  induction p as [|x p IH]; simpl; [now destruct s|].
  now rewrite bool_decide_eq_true_2, IH.
Qed.

Lemma startswith_cons_ne (x y : A) s p :
  y ≠ x → startswith (x :: s) (y :: p) = false.
Proof. intros Hne. simpl. now rewrite bool_decide_eq_false_2. Qed.

Lemma contains_startswith s sub : startswith s sub = true → contains s sub = true.
Proof. intros Hs. destruct s; simpl in *; now rewrite Hs. Qed.

Lemma contains_app a sub r : contains (a ++ sub ++ r) sub = true.
Proof.
  induction a as [|x a IH]; simpl.
  - apply contains_startswith, startswith_app.
  - rewrite IH. apply orb_true_r.
Qed.

(** Passing over the rest of a separator that was recognised. *)
Lemma split_pieces_skip sep maxsplit t r :
  split_pieces sep maxsplit (length t) (t ++ r) = split_pieces sep maxsplit 0 r.
Proof. induction t as [|x t IH]; simpl; [now destruct r|exact IH]. Qed.

(** No split is left to make. *)
Lemma split_pieces_zero sep s : split_pieces sep (Some 0%nat) 0 s = (s, []).
Proof. induction s as [|c s IH]; simpl; [done|]. now rewrite IH. Qed.

(** No separator can start in [s]. *)
Lemma split_pieces_none (h : A) t maxsplit s :
  h ∉ s → split_pieces (h :: t) maxsplit 0 s = (s, []).
Proof.
  induction s as [|c s IH]; intros Hh; [done|].
  apply not_elem_of_cons in Hh as [Hne Hh].
  cbn [split_pieces]. rewrite startswith_cons_ne, andb_false_r by done.
  now rewrite IH.
Qed.

(** The first separator of [a ++ sep ++ r] is the one written there, when
    no separator can start in [a]. *)
Lemma split_pieces_app (h : A) t maxsplit a r :
  h ∉ a → maxsplit ≠ Some 0%nat →
  split_pieces (h :: t) maxsplit 0 (a ++ (h :: t) ++ r)
  = (a, fst (split_pieces (h :: t) (pred <$> maxsplit) 0 r)
        :: snd (split_pieces (h :: t) (pred <$> maxsplit) 0 r)).
Proof.
  intros Hh Hmax. induction a as [|c a IH].
  - cbn [app split_pieces]. change (h :: t ++ r) with ((h :: t) ++ r).
    rewrite startswith_app, bool_decide_eq_false_2 by done.
    cbn [negb andb].
    replace (length (h :: t) - 1)%nat with (length t) by (simpl; lia).
    rewrite split_pieces_skip.
    now destruct (split_pieces _ _ _ r).
  - apply not_elem_of_cons in Hh as [Hne Hh].
    rewrite <- app_comm_cons. cbn [split_pieces].
    rewrite startswith_cons_ne, andb_false_r by done.
    now rewrite (IH Hh).
Qed.

(** A string that contains a character splits in two at its first
    occurrence. *)
Lemma contains_char_split (c : A) s :
  contains s [c] = true → ∃ a r, s = a ++ c :: r ∧ c ∉ a.
Proof.
  induction s as [|x s IH]; [discriminate|]. simpl.
  destruct (bool_decide (c = x)) eqn:Hx.
  - intros _. apply bool_decide_eq_true in Hx as <-.
    exists [], s. split; [done|apply not_elem_of_nil].
  - apply bool_decide_eq_false in Hx. simpl. intros Hs.
    destruct (IH Hs) as (a & r & -> & Ha).
    exists (x :: a), r. split; [done|]. apply not_elem_of_cons. done.
Qed.

Lemma split_zero s sep : split s sep (Some 0%nat) = [s].
Proof. unfold split. now rewrite split_pieces_zero. Qed.

Lemma split_none (h : A) t maxsplit s : h ∉ s → split s (h :: t) maxsplit = [s].
Proof. intros Hh. unfold split. now rewrite split_pieces_none. Qed.

Lemma split_app (h : A) t maxsplit a r :
  h ∉ a → maxsplit ≠ Some 0%nat →
  split (a ++ (h :: t) ++ r) (h :: t) maxsplit
  = a :: split r (h :: t) (pred <$> maxsplit).
Proof.
  intros Hh Hmax. unfold split. rewrite split_pieces_app by done.
  now destruct (split_pieces _ _ _ r).
Qed.

End Strings.

Lemma lstrip_app_nonspace (x y : str) (c : char) :
  isspace c = false → lstrip (x ++ c :: y) = lstrip x ++ c :: y.
Proof.
  intros Hc. induction x as [|d x IH]; simpl.
  - now rewrite Hc.
  - now destruct (isspace d).
Qed.

Lemma rstrip_app_nonspace (x y : str) (c : char) :
  isspace c = false → rstrip (x ++ c :: y) = x ++ c :: rstrip y.
Proof.
  intros Hc. unfold rstrip.
  rewrite rev_app_distr. simpl. rewrite <- app_assoc. simpl.
  rewrite lstrip_app_nonspace by done.
  rewrite rev_app_distr. simpl. rewrite rev_involutive, <- app_assoc. done.
Qed.

(** ** Dictionaries and JSON documents *)

Lemma dict_get_set_eq {V : Type} (k : str) (v : V) (d : list (str * V)) :
  dict_get k (dict_set k v d) = Some v.
Proof.
  induction d as [|[k' v'] d IH]; simpl.
  - now rewrite bool_decide_eq_true_2.
  - case_bool_decide as Hk; simpl.
    + now rewrite bool_decide_eq_true_2.
    + now rewrite bool_decide_eq_false_2.
Qed.

Lemma dict_get_set_ne {V : Type} (k k' : str) (v : V) (d : list (str * V)) :
  k ≠ k' → dict_get k (dict_set k' v d) = dict_get k d.
Proof.
  intros Hne. induction d as [|[k'' v''] d IH]; simpl.
  - now rewrite bool_decide_eq_false_2.
  - destruct (bool_decide (k' = k'')) eqn:Hk'; simpl.
    + apply bool_decide_eq_true in Hk'. subst k''.
      now rewrite !bool_decide_eq_false_2.
    + destruct (bool_decide (k = k'')); [done|apply IH].
Qed.

Lemma dict_set_fresh {V : Type} (k : str) (v : V) (d : list (str * V)) :
  k ∉ map fst d → dict_set k v d = d ++ [(k, v)].
Proof.
  induction d as [|[k' v'] d IH]; intros Hk; simpl; [done|].
  rewrite bool_decide_eq_false_2.
  - rewrite IH; [done|]. intros Hin. apply Hk. simpl. now apply list_elem_of_further.
  - intros ->. apply Hk. simpl. apply list_elem_of_here.
Qed.

Lemma dict_of_items_app {V : Type} (items acc : list (str * V)) :
  NoDup (map fst (acc ++ items)) →
  fold_left (fun acc kv => dict_set (fst kv) (snd kv) acc) items acc = acc ++ items.
Proof.
  revert acc. induction items as [|[k v] items IH]; intros acc Hnd; simpl.
  - now rewrite app_nil_r.
  - assert (k ∉ map fst acc) as Hfresh.
    { rewrite map_app in Hnd. apply NoDup_app in Hnd as (_ & Hdisj & _).
      intros Hin. apply (Hdisj _ Hin). simpl. apply list_elem_of_here. }
    rewrite dict_set_fresh by done.
    rewrite IH; rewrite <- app_assoc; done.
Qed.

Lemma dict_of_items_nodup {V : Type} (items : list (str * V)) :
  NoDup (map fst items) → dict_of_items items = items.
Proof. intros Hnd. unfold dict_of_items. now rewrite dict_of_items_app. Qed.

(** Induction on values, with the hypothesis available on the elements of
    lists, tuples and dicts. *)
Lemma pyval_nested_ind (P : pyval → Prop) :
  P PNone → (∀ b, P (PBool b)) → (∀ n, P (PInt n)) → (∀ f, P (PFloat f)) →
  (∀ s, P (PStr s)) → (∀ b, P (PBytes b)) →
  (∀ l, Forall P l → P (PList l)) →
  (∀ l, Forall P l → P (PTuple l)) →
  (∀ d, Forall (fun kx => P (snd kx)) d → P (PDict d)) →
  ∀ v, P v.
Proof.
  intros HNone HBool HInt HFloat HStr HBytes HList HTuple HDict.
  fix IH 1. intros [| | | | | |l|l|d];
    [exact HNone|apply HBool|apply HInt|apply HFloat|apply HStr|apply HBytes| | |].
  - apply HList. induction l as [|x l IHl]; constructor; [apply IH|apply IHl].
  - apply HTuple. induction l as [|x l IHl]; constructor; [apply IH|apply IHl].
  - apply HDict. induction d as [|[k x] d IHd]; constructor; [apply IH|apply IHd].
Qed.

(** What [json.dump] writes for a representable value, [json.load] reads
    back as that value. *)
Lemma json_roundtrip (v : pyval) :
  json_representable v = true →
  ∃ doc, json_dump v = Return doc ∧ json_load doc = v.
Proof.
  induction v as [| | | | | |l IH|l IH|d IH] using pyval_nested_ind;
    intros Hrep; simpl in *; try discriminate; eauto.
  - assert (∃ ds, mapM json_dump l = Return ds ∧ map json_load ds = l)
      as (ds & -> & Hds).
    { induction IH as [|x l Hx _ IHl]; simpl in *; [eauto|].
      apply andb_true_iff in Hrep as [Hx' Hl'].
      destruct (Hx Hx') as (dx & -> & Hdx), (IHl Hl') as (ds & -> & Hds).
      simpl. exists (dx :: ds). simpl. now rewrite Hdx, Hds. }
    simpl. exists (JArray ds). simpl. now rewrite Hds.
  - apply andb_true_iff in Hrep as [Hvals Hkeys].
    apply bool_decide_eq_true in Hkeys.
    assert (∃ ms,
      mapM (fun kx => j ← json_dump (snd kx); Return (fst kx, j)) d = Return ms
      ∧ map (fun kj => (fst kj, json_load (snd kj))) ms = d) as (ms & -> & Hms).
    { clear Hkeys. induction IH as [|[k x] d Hx _ IHd]; simpl in *; [eauto|].
      apply andb_true_iff in Hvals as [Hx' Hd'].
      destruct (Hx Hx') as (dx & -> & Hdx), (IHd Hd') as (ms & -> & Hms).
      simpl. exists ((k, dx) :: ms). simpl. now rewrite Hdx, Hms. }
    simpl. exists (JObject ms). simpl.
    now rewrite Hms, dict_of_items_nodup.
Qed.

(** ** Parser bodies: running out of fuel, raising, keeping entries *)

Lemma finishes_Return {A : Type} (a : A) : finishes (Return a).
Proof. discriminate. Qed.

Lemma finishes_Raise {A : Type} (e : exn) : finishes (@Raise A e).
Proof. discriminate. Qed.

Lemma finishes_bind {A B : Type} (m : outcome A) (f : A → outcome B) :
  finishes m → (∀ a, finishes (f a)) → finishes (m ≫= f).
Proof. intros Hm Hf. destruct m; simpl; [apply Hf|discriminate|done]. Qed.

Lemma finishes_index {A : Type} (l : list A) (i : nat) : finishes (index l i).
Proof. unfold index. destruct (l !! i); discriminate. Qed.

Lemma terminates_ret {A : Type} (a : A) : terminates (mret a : parser A).
Proof. intros md. apply finishes_Return. Qed.

Lemma terminates_bind {A B : Type} (m : parser A) (f : A → parser B) :
  terminates m → (∀ a, terminates (f a)) → terminates (m ≫= f).
Proof.
  intros Hm Hf md. specialize (Hm md). unfold mbind, parser_bind.
  destruct (m md) as [md' [a|e|]]; simpl in *; [apply Hf|discriminate|done].
Qed.

Lemma terminates_setitem (k : str) (v : pyval) : terminates (setitem k v).
Proof. intros md. apply finishes_Return. Qed.

Lemma terminates_setitem_in (k1 k2 : str) (v : pyval) :
  terminates (setitem_in k1 k2 v).
Proof.
  intros md. unfold setitem_in.
  destruct (dict_get k1 md) as [[]|]; discriminate.
Qed.

Lemma terminates_get_metadata : terminates get_metadata.
Proof. intros md. apply finishes_Return. Qed.

Lemma terminates_lift {A : Type} (o : outcome A) : finishes o → terminates (lift o).
Proof. intros Ho md. exact Ho. Qed.

Lemma terminates_try_pass (body : parser unit) :
  terminates body → terminates (try_pass body).
Proof.
  intros Hbody md. specialize (Hbody md). unfold try_pass.
  destruct (body md) as [md' [a|e|]]; simpl in *; done.
Qed.

(** Takes a parser body apart, down to its loops. *)
Ltac terminates_step :=
  lazymatch goal with
  | |- terminates (mret _) => apply terminates_ret
  | |- terminates (_ ≫= _) => apply terminates_bind; [|intros ?]
  | |- terminates (setitem _ _) => apply terminates_setitem
  | |- terminates (setitem_in _ _ _) => apply terminates_setitem_in
  | |- terminates get_metadata => apply terminates_get_metadata
  | |- terminates (try_pass _) => apply terminates_try_pass
  | |- terminates (lift (index _ _)) => apply terminates_lift, finishes_index
  | |- terminates (lift (Raise _)) => apply terminates_lift, finishes_Raise
  | |- terminates (if ?b then _ else _) => destruct b
  | |- terminates (match ?x with _ => _ end) => destruct x
  end.

(** What [try_parse] makes of a body that does not run out of fuel. *)
Lemma try_parse_terminates (body : parser unit) :
  terminates body →
  ∃ metadata,
    try_parse body = Return metadata
    ∧ ∀ e, raised body = Some e →
           dict_get (lit "parse_error") metadata = Some (PStr (exn_str e)).
Proof.
  intros Hbody. specialize (Hbody []). unfold try_parse, raised.
  destruct (body []) as [md [a|e|]]; simpl in *; [| |done].
  - exists md. split; [done|]. intros e He. discriminate He.
  - eexists. split; [done|]. intros e' He'. injection He' as <-.
    apply dict_get_set_eq.
Qed.

Lemma never_raises_of_terminates (cls : Base.handler_class) :
  (∀ data direction, terminates (Base.parse_body cls data direction)) →
  never_raises cls.
Proof.
  intros Hterm data direction. unfold Base.parse_packet.
  apply try_parse_terminates, Hterm.
Qed.

(** *** Entries that a body keeps, entries that it assigns *)

Lemma keeps_ret {A : Type} (k : str) (a : A) : keeps k (mret a : parser A).
Proof. intros md. reflexivity. Qed.

Lemma keeps_bind {A B : Type} (k : str) (m : parser A) (f : A → parser B) :
  keeps k m → (∀ a, keeps k (f a)) → keeps k (m ≫= f).
Proof.
  intros Hm Hf md. specialize (Hm md). unfold mbind, parser_bind.
  destruct (m md) as [md' [a|e|]]; simpl in *; [|done..].
  now rewrite Hf.
Qed.

Lemma keeps_setitem (k k' : str) (v : pyval) : k ≠ k' → keeps k (setitem k' v).
Proof. intros Hne md. simpl. now apply dict_get_set_ne. Qed.

Lemma keeps_setitem_in (k k1 k2 : str) (v : pyval) :
  k ≠ k1 → keeps k (setitem_in k1 k2 v).
Proof.
  intros Hne md. unfold setitem_in.
  destruct (dict_get k1 md) as [[]|]; simpl; try done.
  now apply dict_get_set_ne.
Qed.

Lemma keeps_get_metadata (k : str) : keeps k get_metadata.
Proof. intros md. reflexivity. Qed.

Lemma keeps_lift {A : Type} (k : str) (o : outcome A) : keeps k (lift o).
Proof. intros md. reflexivity. Qed.

Lemma keeps_try_pass (k : str) (body : parser unit) :
  keeps k body → keeps k (try_pass body).
Proof.
  intros Hbody md. specialize (Hbody md). unfold try_pass.
  destruct (body md) as [md' [a|e|]]; simpl in *; done.
Qed.

(** Two string literals of the source that differ. *)
Ltac lit_neq := apply (bool_decide_eq_false_1 _); vm_compute; reflexivity.

Ltac keeps_step :=
  lazymatch goal with
  | |- keeps _ (mret _) => apply keeps_ret
  | |- keeps _ (_ ≫= _) => apply keeps_bind; [|intros ?]
  | |- keeps _ (setitem _ _) => apply keeps_setitem; lit_neq
  | |- keeps _ (setitem_in _ _ _) => apply keeps_setitem_in; lit_neq
  | |- keeps _ get_metadata => apply keeps_get_metadata
  | |- keeps _ (try_pass _) => apply keeps_try_pass
  | |- keeps _ (lift _) => apply keeps_lift
  | |- keeps _ (if ?b then _ else _) => destruct b
  | |- keeps _ (match ?x with _ => _ end) => destruct x
  end.

Lemma returns_setitem (k : str) (v : pyval) : returns (setitem k v).
Proof. intros md. now exists tt. Qed.

Lemma returns_lift {A : Type} (a : A) : returns (lift (Return a)).
Proof. intros md. now exists a. Qed.

Lemma returns_get_metadata : returns get_metadata.
Proof. intros md. now exists md. Qed.

Lemma returns_ret {A : Type} (a : A) : returns (mret a : parser A).
Proof. intros md. now exists a. Qed.

Lemma returns_bind {A B : Type} (m : parser A) (f : A → parser B) :
  returns m → (∀ a, returns (f a)) → returns (m ≫= f).
Proof.
  intros Hm Hf md. destruct (Hm md) as [a Ha]. unfold mbind, parser_bind.
  destruct (m md) as [md' o]. simpl in Ha. subst o. apply Hf.
Qed.

Lemma assigns_setitem (k : str) (v : pyval) : assigns k v (setitem k v).
Proof. intros md. simpl. apply dict_get_set_eq. Qed.

(** The entry is assigned here and kept by what follows. *)
Lemma assigns_here {B : Type} (k : str) (v : pyval) (f : unit → parser B) :
  (∀ a, keeps k (f a)) → assigns k v (setitem k v ≫= f).
Proof.
  intros Hf md. unfold mbind, parser_bind. simpl.
  rewrite Hf. apply dict_get_set_eq.
Qed.

(** The entry is assigned by what follows a step that returns. *)
Lemma assigns_later {A B : Type} (k : str) (v : pyval)
    (m : parser A) (f : A → parser B) :
  returns m → (∀ a, assigns k v (f a)) → assigns k v (m ≫= f).
Proof.
  intros Hm Hf md. destruct (Hm md) as [a Ha]. unfold mbind, parser_bind.
  destruct (m md) as [md' o]. simpl in Ha. subst o. apply Hf.
Qed.

(** The entry is assigned before a part that keeps it. *)
Lemma assigns_before {A B : Type} (k : str) (v : pyval)
    (m : parser A) (f : A → parser B) :
  assigns k v m → (∀ a, keeps k (f a)) → assigns k v (m ≫= f).
Proof.
  intros Hm Hf md. specialize (Hm md). unfold mbind, parser_bind.
  destruct (m md) as [md' [a|e|]]; simpl in *; [|done..].
  now rewrite Hf.
Qed.

(** What [try_parse] returns holds every entry that the body assigns. *)
Lemma try_parse_assigns (body : parser unit) :
  terminates body →
  ∃ metadata,
    try_parse body = Return metadata
    ∧ ∀ k v, k ≠ lit "parse_error" → assigns k v body →
             dict_get k metadata = Some v.
Proof.
  intros Hbody. specialize (Hbody []). unfold try_parse.
  destruct (body []) as [md [a|e|]] eqn:Hrun; simpl in *; [| |done].
  - exists md. split; [done|]. intros k v _ Hkv.
    specialize (Hkv []). now rewrite Hrun in Hkv.
  - eexists. split; [done|]. intros k v Hk Hkv.
    rewrite dict_get_set_ne by done.
    specialize (Hkv []). now rewrite Hrun in Hkv.
Qed.

(** *** The HTTP body *)

Lemma http_header_lines_terminate `{PyText} (lines : list bytes) :
  terminates (Http.parse_header_lines lines).
Proof.
  induction lines as [|line rest IH]; simpl; unfold Http.header_block;
    repeat terminates_step; exact IH.
Qed.

Lemma http_body_terminates `{PyText} (data : bytes) (direction : str) :
  terminates (Http.parse_body data direction).
Proof.
  unfold Http.parse_body, Http.parse_request, Http.parse_response.
  repeat terminates_step; apply http_header_lines_terminate.
Qed.

(** *** The FTP body *)

Lemma int_of_str_finishes `{PyText} (s : str) : finishes (int_of_str s).
Proof.
  unfold int_of_str. destruct (bool_decide (s = [])); [apply finishes_Raise|].
  generalize (Return 0 : outcome Z) (finishes_Return 0).
  induction s as [|c s IH]; intros acc Hacc; simpl; [done|].
  apply IH. apply finishes_bind; [done|]. intros n.
  destruct (char_decimal c); discriminate.
Qed.

Lemma passive_endpoint_finishes `{PyText} (groups : list str) :
  finishes (Ftp.passive_endpoint groups).
Proof.
  unfold Ftp.passive_endpoint. apply finishes_bind.
  - induction groups as [|g groups IH]; simpl; [discriminate|].
    apply finishes_bind; [apply int_of_str_finishes|]. intros n.
    apply finishes_bind; [exact IH|]. discriminate.
  - intros [|h1 [|h2 [|h3 [|h4 [|p1 [|p2 [|]]]]]]]; discriminate.
Qed.

Lemma ftp_body_terminates `{PyText} (data : bytes) (direction : str) :
  terminates (Ftp.parse_body data direction).
Proof.
  unfold Ftp.parse_body, Ftp.parse_command, Ftp.parse_response.
  repeat first [terminates_step
               | apply terminates_lift, passive_endpoint_finishes].
Qed.

(** *** The DNS body *)

Lemma dns_name_loop_finishes `{PyText} (data : bytes) :
  ∀ fuel offset parts, (length data ≤ fuel + offset)%nat →
    finishes (Dns.name_loop fuel data offset parts).
Proof.
  induction fuel as [|fuel IH]; intros offset parts Hfuel; simpl;
    unfold index; destruct (data !! offset) as [b|] eqn:Hb; simpl;
    try discriminate; case_bool_decide; try discriminate.
  - apply lookup_lt_Some in Hb. lia.
  - apply IH. lia.
Qed.

Lemma dns_skip_name_finishes (data : bytes) :
  ∀ fuel offset, (length data ≤ fuel + offset)%nat →
    finishes (Dns.skip_name fuel data offset).
Proof.
  induction fuel as [|fuel IH]; intros offset Hfuel; simpl;
    (case_bool_decide as Hlt; simpl; [|discriminate]);
    unfold index; destruct (data !! offset) as [b|] eqn:Hb; simpl;
    try discriminate; repeat (case_bool_decide; try discriminate).
  - lia.
  - apply IH. lia.
Qed.

Lemma dns_skip_questions_finishes (data : bytes) :
  ∀ qdcount offset, finishes (Dns.skip_questions qdcount data offset).
Proof.
  induction qdcount as [|n IH]; intros offset; simpl; [discriminate|].
  apply finishes_bind; [apply dns_skip_name_finishes; lia|]. intros o. apply IH.
Qed.

Lemma dns_unpack_6H_finishes (b : bytes) : finishes (Dns.unpack_6H b).
Proof. unfold Dns.unpack_6H. repeat case_match; discriminate. Qed.

Lemma dns_unpack_2H_finishes (b : bytes) : finishes (Dns.unpack_2H b).
Proof. unfold Dns.unpack_2H. repeat case_match; discriminate. Qed.

Lemma dns_body_terminates `{PyText} (data : bytes) (direction : str) :
  terminates (Dns.parse_body data direction).
Proof.
  unfold Dns.parse_body, Dns.parse_sections.
  repeat first
    [ terminates_step
    | apply terminates_lift;
      first [ apply dns_unpack_6H_finishes | apply dns_unpack_2H_finishes
            | apply dns_skip_questions_finishes
            | apply dns_name_loop_finishes; lia ] ].
Qed.

(** ** ASCII text and its bytes *)

Lemma char_of_byte_of_char (c : char) :
  (c < 256)%N → char_of_byte (byte_of_char c) = c.
Proof.
  intros Hc. unfold char_of_byte, byte_of_char.
  destruct (Byte.of_N c) as [b|] eqn:Hb; simpl.
  - now apply Byte.to_of_N.
  - apply Byte.of_N_None_iff in Hb. lia.
Qed.

Lemma byte_val_of_char (c : char) :
  (c < 256)%N → byte_val (byte_of_char c) = Z.of_N c.
Proof.
  intros Hc. unfold byte_val. f_equal. now apply char_of_byte_of_char.
Qed.

Lemma encode_ascii_bytes (s : str) :
  is_ascii s → Forall (fun x => byte_val x < 128) (encode_ascii s).
Proof.
  intros Hs. unfold encode_ascii. apply Forall_map.
  eapply Forall_impl; [exact Hs|]. intros c Hc. cbv beta in Hc |- *.
  unfold compose. rewrite byte_val_of_char; lia.
Qed.

Lemma char_of_encode_ascii (s : str) :
  is_ascii s → map char_of_byte (encode_ascii s) = s.
Proof.
  intros Hs. unfold encode_ascii. rewrite map_map.
  induction Hs as [|c s Hc _ IH]; simpl; [done|].
  rewrite char_of_byte_of_char by lia. now rewrite IH.
Qed.

Lemma decode_encode_ascii `{T : PyText} (s : str) :
  PyTextLaws T → is_ascii s → decode_utf8_ignore (encode_ascii s) = s.
Proof.
  intros Hlaws Hs.
  rewrite (decode_ascii T Hlaws) by now apply encode_ascii_bytes.
  now apply char_of_encode_ascii.
Qed.

Lemma is_ascii_app (s t : str) : is_ascii (s ++ t) ↔ is_ascii s ∧ is_ascii t.
Proof. apply Forall_app. Qed.

Lemma encode_ascii_app (s t : str) :
  encode_ascii (s ++ t) = encode_ascii s ++ encode_ascii t.
Proof. apply map_app. Qed.

(** The laws hold of the ASCII interpreter. *)
Lemma ascii_text_laws : PyTextLaws ascii_text.
Proof.
  split; simpl; try done.
  intros b Hb. f_equal. induction Hb as [|x b Hx _ IH]; [done|].
  rewrite filter_cons_True by done. now rewrite IH.
Qed.

(** ** [src/protocols/dns.py] *)

Section DnsProperties.
Context `{T : PyText}.
Import Dns.

(** One flag bit, as [parse_packet] extracts it. *)
Lemma flag_bit (flags n : Z) :
  negb (Z.land (Z.shiftr flags n) 1 =? 0) = Z.testbit flags n.
Proof.
  change 1 with (Z.ones 1). rewrite Z.land_ones by lia.
  change (2 ^ 1) with 2. rewrite <- Z.bit0_mod, Z.shiftr_spec by lia.
  rewrite Z.add_0_l. destruct (Z.testbit flags n); reflexivity.
Qed.

(** A four-bit field, as [parse_packet] extracts it. *)
Lemma field_bits (flags n k : Z) :
  0 ≤ k →
  Z.testbit (Z.land (Z.shiftr flags n) 15) k = (k <? 4) && Z.testbit flags (k + n).
Proof.
  intros Hk. rewrite Z.land_spec, Z.shiftr_spec by done.
  change 15 with (Z.ones 4). rewrite Z.testbit_ones_nonneg by lia.
  apply andb_comm.
Qed.

Lemma assigns_lift_return {A B : Type} (k : str) (v : pyval) (a : A)
    (f : A → parser B) :
  assigns k v (f a) → assigns k v (lift (Return a) ≫= f).
Proof. intros Hf md. exact (Hf md). Qed.

(** Finds, among the assignments that a body makes one after the other,
    the one to the key at hand, and checks that what follows keeps it. *)
Ltac assigns_find :=
  first
    [ apply assigns_here; intros ?; unfold parse_sections; repeat keeps_step
    | apply assigns_later; [apply returns_setitem|intros ?; assigns_find] ].

(** The body on a chunk that starts with a full header. *)
Lemma dns_body_with_header (a0 a1 a2 a3 a4 a5 a6 a7 a8 a9 a10 a11 : byte)
    (rest : bytes) (direction : str) :
  let data := [a0; a1; a2; a3; a4; a5; a6; a7; a8; a9; a10; a11] ++ rest in
  let flags := u16 a2 a3 in
  parse_body data direction
  = (setitem (lit "transaction_id") (PInt (u16 a0 a1));;
     setitem (lit "query_count") (PInt (u16 a4 a5));;
     setitem (lit "answer_count") (PInt (u16 a6 a7));;
     setitem (lit "authority_count") (PInt (u16 a8 a9));;
     setitem (lit "additional_count") (PInt (u16 a10 a11));;
     setitem (lit "is_response") (PBool (negb (Z.land (Z.shiftr flags 15) 1 =? 0)));;
     setitem (lit "opcode") (PInt (Z.land (Z.shiftr flags 11) 15));;
     setitem (lit "authoritative") (PBool (negb (Z.land (Z.shiftr flags 10) 1 =? 0)));;
     setitem (lit "truncated") (PBool (negb (Z.land (Z.shiftr flags 9) 1 =? 0)));;
     setitem (lit "recursion_desired") (PBool (negb (Z.land (Z.shiftr flags 8) 1 =? 0)));;
     setitem (lit "recursion_available") (PBool (negb (Z.land (Z.shiftr flags 7) 1 =? 0)));;
     setitem (lit "response_code") (PInt (Z.land flags 15));;
     setitem (lit "opcode_name") (PStr (opcode_name (Z.land (Z.shiftr flags 11) 15)));;
     setitem (lit "response_code_name") (PStr (rcode_name (Z.land flags 15)));;
     parse_sections data (Z.land (Z.shiftr flags 15) 1) (u16 a4 a5) (u16 a6 a7)).
Proof.
  intros data flags. unfold parse_body.
  rewrite bool_decide_eq_false_2 by (unfold data; simpl; lia).
  reflexivity.
Qed.

(** *** The question name *)

Lemma encode_labels_cons (label : str) (labels : list str) :
  encode_labels (label :: labels)
  = byte_of_char (N.of_nat (length label)) :: encode_ascii label
    ++ encode_labels labels.
Proof. unfold encode_labels. simpl. now rewrite <- app_assoc. Qed.

Lemma length_encode_ascii (s : str) : length (encode_ascii s) = length s.
Proof. apply length_map. Qed.

(** One round of the name loop over a label. *)
Lemma dns_name_loop_label (fuel : nat) (pre : bytes) (label : str)
    (more : bytes) (parts : list str) :
  PyTextLaws T → label_ok label →
  let data := pre ++ byte_of_char (N.of_nat (length label))
                :: encode_ascii label ++ more in
  name_loop (S fuel) data (length pre) parts
  = name_loop fuel data (length pre + 1 + length label) (parts ++ [label]).
Proof.
  intros Hlaws [Hascii Hlen] data.
  assert (byte_val (byte_of_char (N.of_nat (length label)))
          = Z.of_nat (length label)) as Hval.
  { rewrite byte_val_of_char by lia. lia. }
  cbn [name_loop].
  rewrite (index_Return data (length pre) (byte_of_char (N.of_nat (length label))))
    by apply list_lookup_middle, eq_refl.
  cbn [mbind outcome_bind]. rewrite Hval.
  rewrite bool_decide_eq_false_2 by lia.
  rewrite Nat2Z.id.
  assert (slice data (length pre + 1) (length pre + 1 + length label)
          = encode_ascii label) as ->.
  { unfold slice, data.
    rewrite (cons_middle (byte_of_char _)), app_assoc.
    rewrite drop_app_length' by (rewrite length_app; simpl; lia).
    replace (length pre + 1 + length label - (length pre + 1))%nat
      with (length (encode_ascii label)) by (rewrite length_encode_ascii; lia).
    apply take_app_length. }
  now rewrite decode_encode_ascii.
Qed.

(** The name loop over a standard encoding returns the labels and stops
    behind the closing zero byte. *)
Lemma dns_name_loop_labels (labels : list str) :
  PyTextLaws T → Forall label_ok labels →
  ∀ (pre rest : bytes) (parts : list str) (fuel : nat),
    (length labels ≤ fuel)%nat →
    name_loop fuel (pre ++ encode_labels labels ++ rest) (length pre) parts
    = Return (parts ++ labels,
              (length pre + length (encode_labels labels))%nat).
Proof.
  intros Hlaws Hlabels.
  induction Hlabels as [|label labels Hlabel _ IH]; intros pre rest parts fuel Hfuel.
  - assert (∀ f, name_loop f (pre ++ [x00] ++ rest) (length pre) parts
                 = Return (parts, (length pre + 1)%nat)) as Hend.
    { intros f. destruct f; cbn [name_loop];
        rewrite (index_Return _ (length pre) x00)
          by apply list_lookup_middle, eq_refl; reflexivity. }
    rewrite app_nil_r. apply Hend.
  - destruct fuel as [|fuel]; [simpl in Hfuel; lia|].
    rewrite encode_labels_cons.
    change ((?b :: encode_ascii label ++ encode_labels labels) ++ rest)
      with (b :: (encode_ascii label ++ encode_labels labels) ++ rest).
    rewrite <- (app_assoc (encode_ascii label)).
    rewrite dns_name_loop_label by done.
    specialize (IH (pre ++ byte_of_char (N.of_nat (length label))
                      :: encode_ascii label) rest (parts ++ [label]) fuel).
    rewrite length_app in IH. simpl in IH. rewrite length_encode_ascii in IH.
    rewrite <- app_assoc in IH. simpl in IH.
    replace (length pre + 1 + length label)%nat
      with (length pre + S (length label))%nat by lia.
    rewrite IH by (simpl in Hfuel; lia).
    rewrite <- app_assoc. simpl. rewrite length_app, length_encode_ascii.
    f_equal. f_equal. lia.
Qed.

(** C6.  For every datagram that starts with a twelve-byte header,
    [parse_packet] stores under [is_response] bit 15 of the flags word (the
    third byte times 256 plus the fourth: network order), under [opcode]
    its bits 11 to 14, under [authoritative], [truncated],
    [recursion_desired] and [recursion_available] its bits 10, 9, 8 and 7,
    and under [response_code] its bits 0 to 3; and for a header that
    announces a question (fifth byte times 256 plus the sixth is positive),
    followed by the name [example.com] in the standard encoding by
    length-prefixed labels, it stores ["example.com"] under [query_name]. *)
Theorem dns_flags_and_query_name
    (a0 a1 a2 a3 a4 a5 a6 a7 a8 a9 a10 a11 : byte) (rest : bytes)
    (direction : str) :
  PyTextLaws T →
  let header := [a0; a1; a2; a3; a4; a5; a6; a7; a8; a9; a10; a11] in
  let flags := 256 * byte_val a2 + byte_val a3 in
  (∃ metadata opcode rcode,
     parse_packet (header ++ rest) direction = Return metadata
     ∧ dict_get (lit "is_response") metadata = Some (PBool (Z.testbit flags 15))
     ∧ dict_get (lit "opcode") metadata = Some (PInt opcode)
     ∧ (∀ k, 0 ≤ k → Z.testbit opcode k = (k <? 4) && Z.testbit flags (k + 11))
     ∧ dict_get (lit "authoritative") metadata = Some (PBool (Z.testbit flags 10))
     ∧ dict_get (lit "truncated") metadata = Some (PBool (Z.testbit flags 9))
     ∧ dict_get (lit "recursion_desired") metadata
       = Some (PBool (Z.testbit flags 8))
     ∧ dict_get (lit "recursion_available") metadata
       = Some (PBool (Z.testbit flags 7))
     ∧ dict_get (lit "response_code") metadata = Some (PInt rcode)
     ∧ (∀ k, 0 ≤ k → Z.testbit rcode k = (k <? 4) && Z.testbit flags k))
  ∧ (0 < 256 * byte_val a4 + byte_val a5 →
     ∃ metadata,
       parse_packet
         (header ++ encode_labels [lit "example"; lit "com"] ++ rest) direction
       = Return metadata
       ∧ dict_get (lit "query_name") metadata = Some (PStr (lit "example.com"))).
Proof.
  intros Hlaws header flags. split.
  - destruct (try_parse_assigns (parse_body (header ++ rest) direction)
                (dns_body_terminates _ _)) as (md & Hrun & Hmd).
    exists md, (Z.land (Z.shiftr flags 11) 15), (Z.land flags 15).
    split; [exact Hrun|].
    unfold header in Hmd. rewrite dns_body_with_header in Hmd.
    change (u16 a2 a3) with flags in Hmd.
    repeat split.
    + rewrite <- flag_bit. apply Hmd; [lit_neq|assigns_find].
    + apply Hmd; [lit_neq|assigns_find].
    + intros k Hk. now apply field_bits.
    + rewrite <- flag_bit. apply Hmd; [lit_neq|assigns_find].
    + rewrite <- flag_bit. apply Hmd; [lit_neq|assigns_find].
    + rewrite <- flag_bit. apply Hmd; [lit_neq|assigns_find].
    + rewrite <- flag_bit. apply Hmd; [lit_neq|assigns_find].
    + apply Hmd; [lit_neq|assigns_find].
    + intros k Hk. rewrite Z.land_spec. change 15 with (Z.ones 4).
      rewrite Z.testbit_ones_nonneg by lia. apply andb_comm.
  - intros Hquestion. change (0 < u16 a4 a5) in Hquestion.
    set (name := encode_labels [lit "example"; lit "com"]).
    destruct (try_parse_assigns (parse_body (header ++ name ++ rest) direction)
                (dns_body_terminates _ _)) as (md & Hrun & Hmd).
    exists md. split; [exact Hrun|]. apply Hmd; [lit_neq|].
    unfold header. rewrite dns_body_with_header.
    do 14 (apply assigns_later; [apply returns_setitem|intros _]).
    unfold parse_sections. rewrite (bool_decide_eq_true_2 _ Hquestion).
    apply assigns_before; [|intros ?; repeat keeps_step].
    pose proof (dns_name_loop_labels [lit "example"; lit "com"] Hlaws) as Hname.
    specialize (Hname ltac:(repeat constructor; vm_compute; lia)
                  [a0; a1; a2; a3; a4; a5; a6; a7; a8; a9; a10; a11] rest []).
    rewrite Hname by (rewrite length_app; simpl; lia).
    apply assigns_lift_return. cbv beta iota.
    apply assigns_here. intros ?. repeat keeps_step.
Qed.

End DnsProperties.

Lemma dns_flags_and_query_name_witness :
  let response := [x12; x34; xad; x83; x00; x01; x00; x00; x00; x00; x00; x00]
                  ++ Dns.encode_labels [lit "example"; lit "com"]
                  ++ [x00; x01; x00; x01] in
  ∃ metadata,
    @Dns.parse_packet ascii_text response server_to_client = Return metadata
    ∧ dict_get (lit "is_response") metadata = Some (PBool true)
    ∧ dict_get (lit "opcode") metadata = Some (PInt 5)
    ∧ dict_get (lit "authoritative") metadata = Some (PBool true)
    ∧ dict_get (lit "truncated") metadata = Some (PBool false)
    ∧ dict_get (lit "recursion_desired") metadata = Some (PBool true)
    ∧ dict_get (lit "recursion_available") metadata = Some (PBool true)
    ∧ dict_get (lit "response_code") metadata = Some (PInt 3)
    ∧ dict_get (lit "query_name") metadata = Some (PStr (lit "example.com")).
Proof.
  intros response.
  destruct (@dns_flags_and_query_name ascii_text
              x12 x34 xad x83 x00 x01 x00 x00 x00 x00 x00 x00
              (Dns.encode_labels [lit "example"; lit "com"] ++ [x00; x01; x00; x01])
              server_to_client ascii_text_laws)
    as [(md & opcode & rcode & Hrun & Hqr & Hopcode & Hopbits & Haa & Htc & Hrd
         & Hra & Hrcode & Hrcbits) _].
  destruct (@dns_flags_and_query_name ascii_text
              x12 x34 xad x83 x00 x01 x00 x00 x00 x00 x00 x00
              [x00; x01; x00; x01] server_to_client ascii_text_laws)
    as [_ Hname].
  destruct Hname as (md' & Hrun' & Hname); [vm_compute; reflexivity|].
  assert (md' = md) as ->.
  { unfold response in *. rewrite Hrun in Hrun'. now injection Hrun'. }
  assert (opcode = 5) as ->.
  { apply Z.bits_inj'. intros k Hk. rewrite Hopbits by exact Hk.
    destruct (Z.ltb_spec k 4) as [Hlt|Hge].
    - assert (k = 0 ∨ k = 1 ∨ k = 2 ∨ k = 3) as [->|[->|[->| ->]]] by lia;
        reflexivity.
    - rewrite (Z.bits_above_log2 5 k); [reflexivity|lia|simpl; lia]. }
  assert (rcode = 3) as ->.
  { apply Z.bits_inj'. intros k Hk. rewrite Hrcbits by exact Hk.
    destruct (Z.ltb_spec k 4) as [Hlt|Hge].
    - assert (k = 0 ∨ k = 1 ∨ k = 2 ∨ k = 3) as [->|[->|[->| ->]]] by lia;
        reflexivity.
    - rewrite (Z.bits_above_log2 3 k); [reflexivity|lia|simpl; lia]. }
  exists md. split; [exact Hrun|].
  split; [exact Hqr|]. split; [exact Hopcode|]. split; [exact Haa|].
  split; [exact Htc|]. split; [exact Hrd|]. split; [exact Hra|].
  split; [exact Hrcode|exact Hname].
Defined.

(** ** [src/protocols/http.py] *)

Section HttpProperties.
Context `{T : PyText}.
Import Http.

Lemma lit_space : lit " " = [32%N].
Proof. reflexivity. Qed.

Lemma lit_colon : lit ":" = [58%N].
Proof. reflexivity. Qed.

Lemma cr_not_in_encode_ascii (s : str) :
  is_ascii s → 13%N ∉ s → x0d ∉ encode_ascii s.
Proof.
  intros Hs Hcr Hin. apply Hcr. unfold encode_ascii in Hin.
  apply list_elem_of_fmap in Hin as (c & Hc & Hin).
  unfold is_ascii in Hs. rewrite Forall_forall in Hs.
  specialize (Hs c Hin).
  assert (c = 13%N) as <-; [|done].
  rewrite <- (char_of_byte_of_char c) by lia. now rewrite <- Hc.
Qed.

Lemma header_line_ascii (h : str * str) :
  header_ok h → is_ascii (header_line h) ∧ 13%N ∉ header_line h.
Proof.
  intros (Hn & Hv & _ & Hcn & Hcv). unfold header_line. split.
  - apply is_ascii_app. split; [done|]. apply is_ascii_app. split; [|done].
    repeat constructor.
  - rewrite !elem_of_app. intros [?|[Hc|?]]; try done.
    rewrite lit_colon in Hc. apply list_elem_of_singleton in Hc. discriminate Hc.
Qed.

(** The lines that [data.split(b'\r\n')] finds in a request. *)
Lemma http_request_lines (method path version : str)
    (headers : list (str * str)) (body : bytes) :
  request_token method → request_token path → request_token version →
  Forall header_ok headers →
  split (request_bytes method path version headers body) CRLF None
  = encode_ascii (method ++ lit " " ++ path ++ lit " " ++ version)
    :: map (fun h => encode_ascii (header_line h)) headers
    ++ [] :: split body CRLF None.
Proof.
  intros (Hm & _ & Hmcr) (Hp & _ & Hpcr) (Hv & _ & Hvcr) Hheaders.
  unfold request_bytes, CRLF.
  rewrite (split_app x0d [x0a]); [|apply cr_not_in_encode_ascii|done].
  - f_equal. simpl. induction Hheaders as [|h headers Hh _ IH]; simpl.
    + apply (split_app x0d [x0a] None []); [apply not_elem_of_nil|done].
    + rewrite <- !app_assoc.
      destruct (header_line_ascii h Hh) as [Hascii Hcr].
      rewrite (split_app x0d [x0a]); [|now apply cr_not_in_encode_ascii|done].
      simpl. now rewrite IH.
  - rewrite !is_ascii_app. repeat split; try done; repeat constructor.
  - rewrite !elem_of_app, lit_space, !list_elem_of_singleton.
    intros [?|[?|[?|[?|?]]]]; done.
Qed.

(** The three parts of the request line. *)
Lemma http_request_line_parts (method path version : str) :
  request_token method → request_token path → request_token version →
  split (method ++ lit " " ++ path ++ lit " " ++ version) (lit " ") None
  = [method; path; version].
Proof.
  intros (_ & Hm & _) (_ & Hp & _) (_ & Hv & _). rewrite lit_space.
  rewrite split_app by done. change (pred <$> None) with (@None nat).
  rewrite split_app by done. change (pred <$> None) with (@None nat).
  now rewrite split_none.
Qed.

(** The block under the inner [except: pass] never raises: a line with a
    colon always splits in two, and the header map is there to receive the
    pair.  The inner handler therefore never swallows anything. *)
Lemma http_header_block_returns (line : bytes) (md start : dict) :
  dict_get (lit "headers") md = Some (PDict start) →
  ∃ md' start',
    header_block line md = (md', Return tt)
    ∧ dict_get (lit "headers") md' = Some (PDict start').
Proof.
  intros Hstart. unfold header_block. cbv zeta.
  destruct (contains (decode_utf8_ignore line) (lit ":")) eqn:Hcolon; [|eauto].
  rewrite lit_colon in *.
  destruct (contains_char_split _ _ Hcolon) as (name & value & -> & Hname).
  rewrite (split_app 58%N [] (Some 1%nat) name value) by done.
  cbn [fmap option_fmap option_map pred]. rewrite split_zero.
  unfold setitem_in. rewrite Hstart. eexists _, _. split; [done|].
  apply dict_get_set_eq.
Qed.

(** The loop over the header lines of a request: it fills the header map
    and touches nothing else. *)
Lemma http_header_lines_run (headers : list (str * str)) :
  PyTextLaws T → Forall header_ok headers →
  ∀ (more : list bytes) (md start : dict),
    dict_get (lit "headers") md = Some (PDict start) →
    ∃ md',
      parse_header_lines
        (map (fun h => encode_ascii (header_line h)) headers ++ [] :: more) md
      = (md', Return tt)
      ∧ dict_get (lit "headers") md' = Some (PDict (header_map headers start))
      ∧ ∀ k, k ≠ lit "headers" → dict_get k md' = dict_get k md.
Proof.
  intros Hlaws Hheaders.
  induction Hheaders as [|[name value] headers Hh _ IH]; intros more md start Hstart.
  - exists md. simpl. auto.
  - destruct (header_line_ascii _ Hh) as [Hascii Hcr].
    destruct Hh as (Hn & Hv & Hcolon & _). simpl in Hn, Hv, Hcolon.
    cbn [map app parse_header_lines].
    assert (encode_ascii (header_line (name, value)) ≠ []) as Hne.
    { unfold header_line, encode_ascii. simpl. rewrite !map_app. simpl.
      intros Hnil. apply app_eq_nil in Hnil as [_ Hnil]. discriminate Hnil. }
    assert (encode_ascii (header_line (name, value)) ≠ CRLF) as Hcrlf.
    { intros Heq. apply (cr_not_in_encode_ascii _ Hascii Hcr).
      rewrite Heq. apply list_elem_of_here. }
    rewrite (bool_decide_eq_false_2 _ Hne), (bool_decide_eq_false_2 _ Hcrlf).
    cbn [orb]. unfold header_block. rewrite decode_encode_ascii by done.
    change (header_line (name, value)) with (name ++ lit ":" ++ value).
    rewrite contains_app, lit_colon.
    rewrite split_app by done. cbn [fmap option_fmap option_map pred].
    rewrite split_zero.
    set (md1 := dict_set (lit "headers")
                  (PDict (dict_set (strip name) (PStr (strip value)) start)) md).
    destruct (IH more md1 (dict_set (strip name) (PStr (strip value)) start))
      as (md' & Hrun & Hmap & Hkeep).
    { apply dict_get_set_eq. }
    exists md'. split; [|split].
    + unfold mbind, parser_bind, try_pass, setitem_in. rewrite Hstart.
      fold md1. exact Hrun.
    + exact Hmap.
    + intros k Hk. rewrite Hkeep by done. unfold md1.
      now apply dict_get_set_ne.
Qed.

(** A header is found in the map under its trimmed name, with its trimmed
    value, when no later header has the same trimmed name. *)
Lemma header_map_last (hs1 hs2 : list (str * str)) (name value : str)
    (start : dict) :
  strip name ∉ map (fun h => strip (fst h)) hs2 →
  dict_get (strip name) (header_map (hs1 ++ (name, value) :: hs2) start)
  = Some (PStr (strip value)).
Proof.
  intros Hlater. unfold header_map. rewrite fold_left_app. simpl.
  generalize (fold_left
    (fun m h => dict_set (strip (fst h)) (PStr (strip (snd h))) m) hs1 start).
  intros m.
  assert (dict_get (strip name)
            (dict_set (strip name) (PStr (strip value)) m)
          = Some (PStr (strip value))) as Hnow by apply dict_get_set_eq.
  revert Hnow. generalize (dict_set (strip name) (PStr (strip value)) m).
  induction hs2 as [|[n v] hs2 IH]; intros m' Hm'; simpl; [done|].
  simpl in Hlater. apply not_elem_of_cons in Hlater as [Hne Hlater].
  apply IH; [done|]. now rewrite dict_get_set_ne.
Qed.

(** What [try_parse] returns for a body whose first part returns. *)
Lemma try_parse_after (first : parser unit) (rest : unit → parser unit)
    (md1 : dict) :
  first [] = (md1, Return tt) → terminates (rest tt) →
  ∃ metadata,
    try_parse (first ≫= rest) = Return metadata
    ∧ ∀ k, k ≠ lit "parse_error" → keeps k (rest tt) →
           dict_get k metadata = dict_get k md1.
Proof.
  intros Hfirst Hrest. specialize (Hrest md1).
  unfold try_parse, mbind, parser_bind. rewrite Hfirst.
  destruct (rest tt md1) as [md [a|e|]] eqn:Hrun; simpl in Hrest; [| |done].
  - exists md. split; [done|]. intros k _ Hk. specialize (Hk md1).
    now rewrite Hrun in Hk.
  - eexists. split; [done|]. intros k Hne Hk. specialize (Hk md1).
    rewrite Hrun in Hk. simpl in Hk. now rewrite dict_get_set_ne.
Qed.

(** The request branch on the bytes of a request. *)
Lemma http_parse_request_run (method path version : str)
    (headers : list (str * str)) (body : bytes) :
  PyTextLaws T →
  request_token method → request_token path → request_token version →
  Forall header_ok headers →
  ∃ md1,
    parse_request (request_bytes method path version headers body) []
    = (md1, Return tt)
    ∧ dict_get (lit "method") md1 = Some (PStr method)
    ∧ dict_get (lit "path") md1 = Some (PStr path)
    ∧ dict_get (lit "version") md1 = Some (PStr version)
    ∧ dict_get (lit "headers") md1 = Some (PDict (header_map headers [])).
Proof.
  intros Hlaws Hm Hp Hv Hheaders.
  unfold parse_request. cbv zeta. rewrite http_request_lines by done.
  cbn [tail]. rewrite decode_encode_ascii; cycle 1; [done| |].
  { destruct Hm as (Hm & _), Hp as (Hp & _), Hv as (Hv & _).
    rewrite !is_ascii_app. repeat split; try done; repeat constructor. }
  rewrite http_request_line_parts by done.
  cbv [mbind parser_bind setitem].
  set (md0 := dict_set (lit "headers") (PDict []) _).
  destruct (http_header_lines_run headers Hlaws Hheaders
              (split body CRLF None) md0 []) as (md1 & Hrun & Hmap & Hkeep).
  { apply dict_get_set_eq. }
  exists md1. split; [exact Hrun|].
  rewrite !Hkeep by lit_neq. repeat split; try exact Hmap; reflexivity.
Qed.

(** C7, as the code has it.  For every request made of a request line
    [method path version] and of CRLF-separated header lines [name:value],
    [parse_packet] in the client-to-server direction recovers the method,
    the path and the version, and a header map that holds, under the trimmed
    name of a header and in the case it was written in, its trimmed value,
    provided no later header line carries the same trimmed name (of several
    lines with one name the last one is kept). *)
Theorem http_request_recovered (method path version : str)
    (headers : list (str * str)) (body : bytes) :
  PyTextLaws T →
  request_token method → request_token path → request_token version →
  Forall header_ok headers →
  ∃ metadata header_dict,
    parse_packet (request_bytes method path version headers body) client_to_server
    = Return metadata
    ∧ dict_get (lit "method") metadata = Some (PStr method)
    ∧ dict_get (lit "path") metadata = Some (PStr path)
    ∧ dict_get (lit "version") metadata = Some (PStr version)
    ∧ dict_get (lit "headers") metadata = Some (PDict header_dict)
    ∧ ∀ hs1 name value hs2,
        headers = hs1 ++ (name, value) :: hs2 →
        strip name ∉ map (fun h => strip (fst h)) hs2 →
        dict_get (strip name) header_dict = Some (PStr (strip value)).
Proof.
  intros Hlaws Hm Hp Hv Hheaders.
  destruct (http_parse_request_run method path version headers body
              Hlaws Hm Hp Hv Hheaders)
    as (md1 & Hrun & Hmethod & Hpath & Hversion & Hmap).
  unfold parse_packet, Base.parse_packet. cbn [Base.parse_body HTTPProtocolHandler].
  unfold parse_body. rewrite bool_decide_eq_true_2 by done.
  lazymatch goal with
  | |- context [try_parse (?first ≫= ?rest)] =>
      destruct (try_parse_after first rest md1 Hrun) as (md & Hparse & Hkeep)
  end.
  { repeat terminates_step. }
  rewrite Hparse. exists md, (header_map headers []).
  split; [done|].
  rewrite !Hkeep; try lit_neq; try (repeat keeps_step).
  repeat split; try done.
  intros hs1 name value hs2 -> Hlater. now apply header_map_last.
Qed.

End HttpProperties.

Lemma http_request_recovered_witness :
  let headers := [(lit "Host", lit " example.com"); (lit "Accept", lit " text/html ")] in
  ∃ metadata header_dict,
    @Http.parse_packet ascii_text
      (Http.request_bytes (lit "GET") (lit "/index.html") (lit "HTTP/1.1")
         headers []) client_to_server
    = Return metadata
    ∧ dict_get (lit "method") metadata = Some (PStr (lit "GET"))
    ∧ dict_get (lit "headers") metadata = Some (PDict header_dict)
    ∧ dict_get (lit "Accept") header_dict = Some (PStr (lit "text/html")).
Proof.
  intros headers.
  destruct (@http_request_recovered ascii_text (lit "GET") (lit "/index.html")
              (lit "HTTP/1.1") headers [] ascii_text_laws)
    as (md & hd & Hrun & Hmethod & _ & _ & Hheaders & Hlast).
  - unfold Http.request_token, is_ascii. repeat split.
    + repeat constructor.
    + apply (bool_decide_eq_true_1 _). vm_compute. reflexivity.
    + apply (bool_decide_eq_true_1 _). vm_compute. reflexivity.
  - unfold Http.request_token, is_ascii. repeat split.
    + repeat constructor.
    + apply (bool_decide_eq_true_1 _). vm_compute. reflexivity.
    + apply (bool_decide_eq_true_1 _). vm_compute. reflexivity.
  - unfold Http.request_token, is_ascii. repeat split.
    + repeat constructor.
    + apply (bool_decide_eq_true_1 _). vm_compute. reflexivity.
    + apply (bool_decide_eq_true_1 _). vm_compute. reflexivity.
  - unfold headers, Http.header_ok, is_ascii. repeat constructor;
      apply (bool_decide_eq_true_1 _); vm_compute; reflexivity.
  - exists md, hd. repeat split; try done.
    apply (Hlast [(lit "Host", lit " example.com")] (lit "Accept")
             (lit " text/html ") []); [reflexivity|].
    apply (bool_decide_eq_true_1 _). vm_compute. reflexivity.
Defined.

(** C7, as the specification states it, fails on a request that repeats a
    header name: the first of the two [Accept] headers is not recovered, the
    map holds the value of the second. *)
Lemma http_repeated_header_not_recovered :
  let headers := [(lit "Accept", lit " text/html");
                  (lit "Accept", lit " application/json")] in
  ∃ metadata header_dict,
    Forall Http.header_ok headers
    ∧ @Http.parse_packet ascii_text
        (Http.request_bytes (lit "GET") (lit "/") (lit "HTTP/1.1") headers [])
        client_to_server
      = Return metadata
    ∧ dict_get (lit "headers") metadata = Some (PDict header_dict)
    ∧ dict_get (lit "Accept") header_dict = Some (PStr (lit "application/json"))
    ∧ ¬ Http.every_header_recovered headers header_dict.
Proof.
  intros headers. eexists _, _.
  split.
  { unfold headers, Http.header_ok, is_ascii. repeat constructor;
      apply (bool_decide_eq_true_1 _); vm_compute; reflexivity. }
  split; [vm_compute; reflexivity|].
  split; [reflexivity|].
  split; [vm_compute; reflexivity|].
  intros Hall.
  specialize (Hall (lit "Accept") (lit " text/html") (list_elem_of_here _ _)).
  vm_compute in Hall. discriminate Hall.
Qed.

(** *** The cases of [tests/test_http.py] *)

(** [test_parse_request] *)
Example http_test_parse_request :
  let sample_request :=
    Http.request_bytes (lit "GET") (lit "/index.html") (lit "HTTP/1.1")
      [(lit "Host", lit " example.com"); (lit "User-Agent", lit " Mozilla/5.0");
       (lit "Accept", lit " text/html")] [] in
  ∃ metadata headers,
    @Http.parse_packet ascii_text sample_request client_to_server = Return metadata
    ∧ dict_get (lit "method") metadata = Some (PStr (lit "GET"))
    ∧ dict_get (lit "path") metadata = Some (PStr (lit "/index.html"))
    ∧ dict_get (lit "version") metadata = Some (PStr (lit "HTTP/1.1"))
    ∧ dict_get (lit "headers") metadata = Some (PDict headers)
    ∧ dict_get (lit "Host") headers = Some (PStr (lit "example.com"))
    ∧ dict_get (lit "User-Agent") headers = Some (PStr (lit "Mozilla/5.0"))
    ∧ dict_get (lit "Accept") headers = Some (PStr (lit "text/html")).
Proof.
  intros sample_request. eexists _, _.
  split; [vm_compute; reflexivity|]. repeat split.
Qed.

(** [test_parse_response] *)
Example http_test_parse_response :
  let sample_response :=
    encode_ascii (lit "HTTP/1.1 200 OK") ++ Http.CRLF
    ++ encode_ascii (lit "Content-Type: text/html") ++ Http.CRLF
    ++ encode_ascii (lit "Content-Length: 13") ++ Http.CRLF
    ++ Http.CRLF ++ encode_ascii (lit "Hello, World!") in
  ∃ metadata headers,
    @Http.parse_packet ascii_text sample_response server_to_client = Return metadata
    ∧ dict_get (lit "version") metadata = Some (PStr (lit "HTTP/1.1"))
    ∧ dict_get (lit "status_code") metadata = Some (PStr (lit "200"))
    ∧ dict_get (lit "status_message") metadata = Some (PStr (lit "OK"))
    ∧ dict_get (lit "headers") metadata = Some (PDict headers)
    ∧ dict_get (lit "Content-Type") headers = Some (PStr (lit "text/html"))
    ∧ dict_get (lit "Content-Length") headers = Some (PStr (lit "13"))
    ∧ dict_get (lit "body_length") metadata = Some (PInt 13).
Proof.
  intros sample_response. eexists _, _.
  split; [vm_compute; reflexivity|]. repeat split.
Qed.

(** [test_get_protocol_name] and [test_should_inspect_packet] *)
Example http_test_protocol_name_and_inspection :
  Base.get_protocol_name (@Http.HTTPProtocolHandler ascii_text) = lit "http"
  ∧ ∀ data direction,
      Base.should_inspect_packet (@Http.HTTPProtocolHandler ascii_text)
        data direction = true.
Proof. split; reflexivity. Qed.

(** ** [src/protocols/ftp.py] *)

Section FtpProperties.
Context `{T : PyText}.
Import Ftp.

Lemma numeral_digit_decimal (c : char) :
  PyTextLaws T → ascii_isdigit c = true →
  char_decimal c = Some (Z.of_N c - 48).
Proof.
  intros Hlaws Hc. rewrite (decimal_ascii T Hlaws), Hc; [done|].
  unfold ascii_isdigit in Hc. apply andb_true_iff in Hc as [_ Hc].
  apply N.leb_le in Hc. lia.
Qed.

Lemma numeral_ascii (d : str) : numeral d → is_ascii d.
Proof.
  intros [_ Hd]. eapply Forall_impl; [exact Hd|]. intros c Hc. cbv beta in *.
  unfold ascii_isdigit in Hc. apply andb_true_iff in Hc as [_ Hc].
  apply N.leb_le in Hc. lia.
Qed.

(** A greedy run of digits stops at the first character that is none. *)
Lemma span_digits_numeral (d : str) (c : char) (r : str) :
  PyTextLaws T → Forall (fun c => ascii_isdigit c = true) d →
  char_decimal c = None →
  span_digits (d ++ c :: r) = (d, c :: r).
Proof.
  intros Hlaws Hd Hc. induction Hd as [|x d Hx _ IH]; simpl.
  - now rewrite Hc.
  - now rewrite (numeral_digit_decimal x Hlaws Hx), IH.
Qed.

Lemma number_numeral (d : str) (c : char) (r : str) :
  PyTextLaws T → numeral d → char_decimal c = None →
  number (d ++ c :: r) = Some (d, c :: r).
Proof.
  intros Hlaws [Hne Hd] Hc. unfold number.
  rewrite span_digits_numeral by done. now rewrite bool_decide_eq_false_2.
Qed.

Lemma comma_not_decimal : PyTextLaws T → char_decimal 44%N = None.
Proof. intros Hlaws. now rewrite (decimal_ascii T Hlaws). Qed.

Lemma paren_not_decimal : PyTextLaws T → char_decimal 41%N = None.
Proof. intros Hlaws. now rewrite (decimal_ascii T Hlaws). Qed.

(** The expression matches at the head of a group and yields its numerals. *)
Lemma match_pasv_group (d1 d2 d3 d4 d5 d6 r : str) :
  PyTextLaws T →
  numeral d1 → numeral d2 → numeral d3 → numeral d4 → numeral d5 → numeral d6 →
  match_pasv (pasv_group d1 d2 d3 d4 d5 d6 ++ r) = Some [d1; d2; d3; d4; d5; d6].
Proof.
  intros Hlaws H1 H2 H3 H4 H5 H6. unfold pasv_group, match_pasv.
  change (lit "(") with [40%N]. change (lit ",") with [44%N].
  change (lit ")") with [41%N]. rewrite <- !app_assoc. simpl.
  rewrite (number_numeral d1) by (done || now apply comma_not_decimal). simpl.
  rewrite (number_numeral d2) by (done || now apply comma_not_decimal). simpl.
  rewrite (number_numeral d3) by (done || now apply comma_not_decimal). simpl.
  rewrite (number_numeral d4) by (done || now apply comma_not_decimal). simpl.
  rewrite (number_numeral d5) by (done || now apply comma_not_decimal). simpl.
  rewrite (number_numeral d6) by (done || now apply paren_not_decimal). simpl.
  reflexivity.
Qed.

(** The search passes over a text without an opening parenthesis. *)
Lemma search_pasv_skip (a s : str) :
  40%N ∉ a → search_pasv (a ++ s) = search_pasv s.
Proof.
  induction a as [|c a IH]; intros Ha; [done|].
  apply not_elem_of_cons in Ha as [Hc Ha].
  cbn [app search_pasv]. unfold match_pasv at 1. cbn [expect].
  rewrite bool_decide_eq_false_2 by done. simpl. now apply IH.
Qed.

Lemma search_pasv_found (a d1 d2 d3 d4 d5 d6 r : str) :
  PyTextLaws T → 40%N ∉ a →
  numeral d1 → numeral d2 → numeral d3 → numeral d4 → numeral d5 → numeral d6 →
  search_pasv (a ++ pasv_group d1 d2 d3 d4 d5 d6 ++ r)
  = Some [d1; d2; d3; d4; d5; d6].
Proof.
  intros Hlaws Ha H1 H2 H3 H4 H5 H6. rewrite search_pasv_skip by done.
  pose proof (match_pasv_group d1 d2 d3 d4 d5 d6 r Hlaws H1 H2 H3 H4 H5 H6) as Hm.
  destruct (pasv_group d1 d2 d3 d4 d5 d6 ++ r) as [|c s] eqn:Hs.
  - discriminate Hm.
  - cbn [search_pasv]. now rewrite Hm.
Qed.

(** [int] of a numeral is its value. *)
Lemma int_of_str_numeral (d : str) :
  PyTextLaws T → numeral d → int_of_str d = Return (numeral_value d).
Proof.
  intros Hlaws [Hne Hd]. unfold int_of_str, numeral_value.
  rewrite bool_decide_eq_false_2 by done. clear Hne.
  generalize 0. induction Hd as [|c d Hc _ IH]; intros n; simpl; [done|].
  rewrite (numeral_digit_decimal c Hlaws Hc). simpl. apply IH.
Qed.

Lemma passive_endpoint_numerals (d1 d2 d3 d4 d5 d6 : str) :
  PyTextLaws T →
  numeral d1 → numeral d2 → numeral d3 → numeral d4 → numeral d5 → numeral d6 →
  passive_endpoint [d1; d2; d3; d4; d5; d6]
  = Return (str_of_int (numeral_value d1) ++ lit "."
              ++ str_of_int (numeral_value d2) ++ lit "."
              ++ str_of_int (numeral_value d3) ++ lit "."
              ++ str_of_int (numeral_value d4),
            numeral_value d5 * 256 + numeral_value d6).
Proof.
  intros Hlaws H1 H2 H3 H4 H5 H6. unfold passive_endpoint. cbn [mapM].
  rewrite !int_of_str_numeral by done. reflexivity.
Qed.

Lemma lstrip_cons_nonspace (c : char) (s : str) :
  isspace c = false → lstrip (c :: s) = c :: s.
Proof. intros Hc. simpl. now rewrite Hc. Qed.

(** Stripping a response only trims the end of its text. *)
Lemma strip_pasv_response (pre d1 d2 d3 d4 d5 d6 post : str) :
  strip (pasv_response pre d1 d2 d3 d4 d5 d6 post)
  = pasv_response pre d1 d2 d3 d4 d5 d6 (rstrip post).
Proof.
  unfold strip.
  assert (lstrip (pasv_response pre d1 d2 d3 d4 d5 d6 post)
          = pasv_response pre d1 d2 d3 d4 d5 d6 post) as ->.
  { exact (lstrip_cons_nonspace 50%N
             ([50; 55; 32]%N ++ pre ++ pasv_group d1 d2 d3 d4 d5 d6 ++ post)
             eq_refl). }
  set (body := lit "(" ++ d1 ++ lit "," ++ d2 ++ lit "," ++ d3 ++ lit ","
                 ++ d4 ++ lit "," ++ d5 ++ lit "," ++ d6).
  assert (∀ post', pasv_response pre d1 d2 d3 d4 d5 d6 post'
                   = (lit "227 " ++ pre ++ body) ++ 41%N :: post') as Hshape.
  { intros post'. unfold pasv_response, pasv_group, body.
    rewrite <- !app_assoc. reflexivity. }
  rewrite !Hshape. now apply rstrip_app_nonspace.
Qed.

Ltac returns_step :=
  lazymatch goal with
  | |- returns (mret _) => apply returns_ret
  | |- returns (setitem _ _) => apply returns_setitem
  | |- returns (lift (Return _)) => apply returns_lift
  | |- returns (_ ≫= _) => apply returns_bind; [|intros ?]
  | |- returns (if ?b then _ else _) => destruct b
  end.

(** The response branch on a passive-mode response. *)
Lemma ftp_parse_response_pasv (pre d1 d2 d3 d4 d5 d6 post : str) :
  PyTextLaws T → 40%N ∉ pre →
  numeral d1 → numeral d2 → numeral d3 → numeral d4 → numeral d5 → numeral d6 →
  let response := parse_response (pasv_response pre d1 d2 d3 d4 d5 d6 post) in
  assigns (lit "passive_ip")
    (PStr (str_of_int (numeral_value d1) ++ lit "."
             ++ str_of_int (numeral_value d2) ++ lit "."
             ++ str_of_int (numeral_value d3) ++ lit "."
             ++ str_of_int (numeral_value d4))) response
  ∧ assigns (lit "passive_port")
      (PInt (numeral_value d5 * 256 + numeral_value d6)) response.
Proof.
  intros Hlaws Hpre H1 H2 H3 H4 H5 H6 response.
  assert (response
          = (setitem (lit "response_code") (PStr (lit "227"));;
             setitem (lit "response_message")
               (PStr (pre ++ pasv_group d1 d2 d3 d4 d5 d6 ++ post));;
             setitem (lit "response_type") (PStr (lit "completion"));;
             setitem (lit "passive_ip")
               (PStr (str_of_int (numeral_value d1) ++ lit "."
                        ++ str_of_int (numeral_value d2) ++ lit "."
                        ++ str_of_int (numeral_value d3) ++ lit "."
                        ++ str_of_int (numeral_value d4)));;
             setitem (lit "passive_port")
               (PInt (numeral_value d5 * 256 + numeral_value d6)))) as ->.
  { assert (search_pasv (pasv_response pre d1 d2 d3 d4 d5 d6 post)
            = Some [d1; d2; d3; d4; d5; d6]) as Hsearch.
    { unfold pasv_response. rewrite app_assoc. apply search_pasv_found; try done.
      change (lit "227 ") with [50; 50; 55; 32]%N.
      rewrite elem_of_app, !elem_of_cons, elem_of_nil.
      intros [[?|[?|[?|[?|[]]]]]|?]; done. }
    assert (split (pasv_response pre d1 d2 d3 d4 d5 d6 post) (lit " ") (Some 1%nat)
            = [[50; 50; 55]%N; pre ++ pasv_group d1 d2 d3 d4 d5 d6 ++ post])
      as Hsplit.
    { unfold pasv_response.
      change (lit "227 " ++ ?x) with ([50; 50; 55]%N ++ [32%N] ++ x).
      rewrite lit_space, (split_app 32%N []); [|
        rewrite !elem_of_cons, elem_of_nil; intros [?|[?|[?|[]]]]; done|done].
      cbn [fmap option_fmap option_map pred]. now rewrite split_zero. }
    unfold response, parse_response. rewrite Hsearch, Hsplit.
    assert (isdigit [50; 50; 55]%N = true) as ->.
    { unfold isdigit. cbn [forallb].
      rewrite !(isdigit_ascii T Hlaws) by reflexivity. reflexivity. }
    rewrite passive_endpoint_numerals by done.
    reflexivity. }
  split.
  - do 3 (apply assigns_later; [apply returns_setitem|intros _]).
    apply assigns_here. intros _. apply keeps_setitem. lit_neq.
  - do 4 (apply assigns_later; [apply returns_setitem|intros _]).
    apply assigns_setitem.
Qed.

(** C5.  For every response with code 227 whose text holds, as its first
    parenthesis, a group [(d1,d2,d3,d4,d5,d6)] of six decimal numerals,
    [parse_packet] in the server-to-client direction stores under
    [passive_ip] the values of the first four numerals joined by dots, and
    under [passive_port] the value of the fifth times 256 plus the value of
    the sixth. *)
Theorem ftp_passive_endpoint_recovered (pre d1 d2 d3 d4 d5 d6 post : str) :
  PyTextLaws T →
  is_ascii pre → is_ascii post → 40%N ∉ pre →
  numeral d1 → numeral d2 → numeral d3 → numeral d4 → numeral d5 → numeral d6 →
  ∃ metadata,
    parse_packet (encode_ascii (pasv_response pre d1 d2 d3 d4 d5 d6 post))
      server_to_client
    = Return metadata
    ∧ dict_get (lit "passive_ip") metadata
      = Some (PStr (str_of_int (numeral_value d1) ++ lit "."
                      ++ str_of_int (numeral_value d2) ++ lit "."
                      ++ str_of_int (numeral_value d3) ++ lit "."
                      ++ str_of_int (numeral_value d4)))
    ∧ dict_get (lit "passive_port") metadata
      = Some (PInt (numeral_value d5 * 256 + numeral_value d6)).
Proof.
  intros Hlaws Hpre Hpost Hparen H1 H2 H3 H4 H5 H6.
  destruct (try_parse_assigns
              (parse_body (encode_ascii (pasv_response pre d1 d2 d3 d4 d5 d6 post))
                 server_to_client) (ftp_body_terminates _ _))
    as (md & Hrun & Hmd).
  exists md. split; [exact Hrun|].
  assert (parse_body (encode_ascii (pasv_response pre d1 d2 d3 d4 d5 d6 post))
            server_to_client
          = parse_response (pasv_response pre d1 d2 d3 d4 d5 d6 (rstrip post)))
    as Hbody.
  { unfold parse_body. rewrite bool_decide_eq_false_2 by lit_neq.
    rewrite decode_encode_ascii, strip_pasv_response; [done..|].
    unfold pasv_response, pasv_group. rewrite !is_ascii_app.
    repeat split; try done; try (now apply numeral_ascii); repeat constructor. }
  rewrite Hbody in Hmd.
  destruct (ftp_parse_response_pasv pre d1 d2 d3 d4 d5 d6 (rstrip post)
              Hlaws Hparen H1 H2 H3 H4 H5 H6) as [Hip Hport].
  split; apply Hmd; (lit_neq || done).
Qed.

End FtpProperties.

Lemma ftp_passive_endpoint_recovered_witness :
  ∃ metadata,
    @Ftp.parse_packet ascii_text
      (encode_ascii
         (Ftp.pasv_response (lit "Entering Passive Mode ")
            (lit "192") (lit "168") (lit "1") (lit "2") (lit "19") (lit "137")
            [46; 13; 10]%N))
      server_to_client
    = Return metadata
    ∧ dict_get (lit "passive_ip") metadata = Some (PStr (lit "192.168.1.2"))
    ∧ dict_get (lit "passive_port") metadata = Some (PInt 5001).
Proof.
  apply (@ftp_passive_endpoint_recovered ascii_text (lit "Entering Passive Mode ")
           (lit "192") (lit "168") (lit "1") (lit "2") (lit "19") (lit "137")
           [46; 13; 10]%N ascii_text_laws);
    try (split; [discriminate|repeat constructor]);
    try (apply (bool_decide_eq_true_1 _); vm_compute; reflexivity);
    unfold is_ascii; repeat constructor.
Defined.


(** ** [src/proxy/packet.py] *)

Section PacketProperties.
Import PacketModule.

Lemma packet_files_differ (full_path : str) :
  full_path ++ lit ".json" ≠ full_path ++ lit ".bin".
Proof. intros H. apply app_inv_head in H. discriminate H. Qed.

(** C1.  For every packet whose metadata is JSON-representable, [save]
    returns a path, and [load] of that path on the resulting file system
    yields a packet equal to the saved one in every field. *)
Theorem load_save_roundtrip (p : Packet) (storage_path : str) (fs : filesystem) :
  json_representable (PDict (metadata p)) = true →
  ∃ fs' path,
    save p storage_path fs = (fs', Some path) ∧ load path fs' = Some p.
Proof.
  destruct p as [pid ts dat src dst proto dir pau modi md].
  cbn [metadata]. intros Hrep.
  remember (PDict md) as mdv eqn:Hmdv.
  destruct (json_roundtrip _ Hrep) as (mdoc & Hdump & Hload).
  unfold save, to_dict; cbn [id timestamp data source destination protocol
    direction paused modified metadata].
  set (full_path := path_join _ _). rewrite <- Hmdv.
  cbn [json_dump mapM address_value fst snd mbind mret outcome_bind outcome_ret].
  rewrite Hdump.
  cbn [mbind mret outcome_bind outcome_ret].
  eexists _, _. split; [reflexivity|].
  unfold load, load_body, read_json, read_bytes.
  rewrite (lookup_insert_ne _ (full_path ++ lit ".bin") (full_path ++ lit ".json"))
    by (symmetry; apply packet_files_differ).
  rewrite !lookup_insert_eq.
  cbn [json_load map fst snd]. rewrite Hload, Hmdv.
  destruct src as [shost sport], dst as [dhost dport].
  vm_compute. reflexivity.
Qed.

Lemma load_save_roundtrip_witness :
  let p := {| id := lit "7f3c"; timestamp := {| mantissa := 3400000001; exponent := -1 |};
              data := [x47; x45; x54]; source := (lit "10.0.0.1", 40000);
              destination := (lit "10.0.0.2", 80); protocol := lit "http";
              direction := lit "client_to_server"; paused := true; modified := true;
              metadata := [(lit "method", PStr (lit "GET"));
                           (lit "headers", PDict [(lit "Host", PStr (lit "a"))])] |} in
  ∃ fs' path, save p (lit "data/packets") ∅ = (fs', Some path) ∧ load path fs' = Some p.
Proof. intros p. apply load_save_roundtrip. vm_compute. reflexivity. Defined.

(** C10.  [modify_data] on anything but [bytes] returns [False] and leaves
    the packet as it is; on [bytes] it returns [True], replaces the data,
    sets [modified], and leaves the other fields as they are. *)
Theorem modify_data_spec (p : Packet) (x : pyval) :
  (∀ b, x ≠ PBytes b) ∧ modify_data p x = (p, false)
  ∨ ∃ b, x = PBytes b
      ∧ snd (modify_data p x) = true
      ∧ data (fst (modify_data p x)) = b
      ∧ modified (fst (modify_data p x)) = true
      ∧ id (fst (modify_data p x)) = id p
      ∧ timestamp (fst (modify_data p x)) = timestamp p
      ∧ source (fst (modify_data p x)) = source p
      ∧ destination (fst (modify_data p x)) = destination p
      ∧ protocol (fst (modify_data p x)) = protocol p
      ∧ direction (fst (modify_data p x)) = direction p
      ∧ paused (fst (modify_data p x)) = paused p
      ∧ metadata (fst (modify_data p x)) = metadata p.
Proof.
  destruct x; try (left; split; [intros b' Hb; discriminate Hb|reflexivity]).
  right. exists b. repeat split.
Qed.

End PacketProperties.

(** ** [src/protocols/base.py]: [create_packet] *)

Section CreatePacket.
Import Base.

Lemma create_packet_cases (cls : handler_class) (self : handler)
    (fresh_id : str) (now : pyfloat) (data : bytes) (direction : str)
    (packet : Packet) :
  create_packet cls self fresh_id now data direction = Return packet →
  (if bool_decide (direction = client_to_server) then
     source packet = client_address self
     ∧ server_peer self = Some (destination packet)
   else
     server_peer self = Some (source packet)
     ∧ destination packet = client_address self)
  ∧ (if bool_decide (inspection_mode self = lit "parsed"
                     ∨ inspection_mode self = lit "both") then
       parse_packet cls data direction = Return (metadata packet)
     else metadata packet = [])
  ∧ paused packet = pause_by_default self.
Proof.
  unfold create_packet, getpeername. intros Hcreate.
  destruct (server_peer self) as [peer|] eqn:Hpeer; cycle 1.
  { destruct (bool_decide (direction = client_to_server)); discriminate Hcreate. }
  assert (bool_decide (inspection_mode self ∈ [lit "parsed"; lit "both"])
          = bool_decide (inspection_mode self = lit "parsed"
                         ∨ inspection_mode self = lit "both")) as Hmode.
  { apply bool_decide_ext. rewrite !elem_of_cons, elem_of_nil. tauto. }
  rewrite Hmode in Hcreate. clear Hmode.
  destruct (bool_decide (direction = client_to_server));
    destruct (bool_decide (_ ∨ _)); simpl in Hcreate;
    try (destruct (parse_packet cls data direction) as [md| |] eqn:Hparse;
         simpl in Hcreate; try discriminate Hcreate);
    injection Hcreate as <-; simpl; auto.
Qed.

(** C8.  Whatever the handler class, the data and the direction, the packet
    that [create_packet] returns has the client address as its source and
    the peer of the server socket as its destination when the direction is
    [client_to_server], and the reverse otherwise; its metadata is the
    result of [parse_packet] when the inspection mode is ['parsed'] or
    ['both'], and is empty otherwise; its [paused] flag is the
    [pause_by_default] setting. *)
Theorem create_packet_policy (cls : handler_class) (self : handler)
    (fresh_id : str) (now : pyfloat) (data : bytes) (direction : str)
    (packet : Packet) :
  create_packet cls self fresh_id now data direction = Return packet →
  (direction = client_to_server →
     source packet = client_address self
     ∧ server_peer self = Some (destination packet))
  ∧ (direction ≠ client_to_server →
     server_peer self = Some (source packet)
     ∧ destination packet = client_address self)
  ∧ (inspection_mode self = lit "parsed" ∨ inspection_mode self = lit "both" →
     parse_packet cls data direction = Return (metadata packet))
  ∧ (inspection_mode self ≠ lit "parsed" → inspection_mode self ≠ lit "both" →
     metadata packet = [])
  ∧ paused packet = pause_by_default self.
Proof.
  intros Hcreate.
  destruct (create_packet_cases _ _ _ _ _ _ _ Hcreate) as (Hends & Hmd & Hpaused).
  repeat case_bool_decide; repeat split; intros; tauto.
Qed.

Lemma create_packet_policy_witness :
  let self := {| client_address := (lit "127.0.0.1", 12345);
                 server_peer := Some (lit "93.184.216.34", 23);
                 inspection_mode := lit "both"; pause_by_default := true |} in
  ∃ packet,
    create_packet Telnet.TelnetProtocolHandler self (lit "id-1")
      {| mantissa := 1; exponent := 30 |} [x68; x69] server_to_client = Return packet
    ∧ source packet = (lit "93.184.216.34", 23)
    ∧ destination packet = (lit "127.0.0.1", 12345)
    ∧ Telnet.parse_packet [x68; x69] server_to_client = Return (metadata packet)
    ∧ paused packet = true.
Proof.
  intros self. eexists. split; [vm_compute; reflexivity|].
  pose proof (create_packet_policy Telnet.TelnetProtocolHandler self (lit "id-1")
    {| mantissa := 1; exponent := 30 |} [x68; x69] server_to_client _ eq_refl)
    as (_ & Hrev & Hmd & _ & Hpaused).
  destruct Hrev as [Hsrc Hdst]; [discriminate|].
  split; [apply (inj Some); symmetry; exact Hsrc|]. split; [exact Hdst|].
  split; [apply Hmd; now right|exact Hpaused].
Defined.

(** [create_packet] returns a packet as soon as the server socket is
    connected and [parse_packet] returns. *)
Lemma create_packet_returns (cls : handler_class) (self : handler)
    (fresh_id : str) (now : pyfloat) (data : bytes) (direction : str)
    (peer : address) (md : dict) :
  server_peer self = Some peer →
  parse_packet cls data direction = Return md →
  ∃ packet,
    create_packet cls self fresh_id now data direction = Return packet
    ∧ paused packet = pause_by_default self.
Proof.
  intros Hpeer Hparse. unfold create_packet, getpeername. rewrite Hpeer, Hparse.
  destruct (bool_decide (direction = client_to_server));
    destruct (bool_decide (_ ∈ _)); simpl; eauto.
Qed.

End CreatePacket.

(** ** The Telnet command processor *)

Section TelnetProcess.
Import Telnet.

Lemma find_se_total (buffer : bytes) :
  ∀ fuel j, (length buffer ≤ fuel + j + 1)%nat →
    ∃ j', find_se fuel buffer j = Return j' ∧ (j ≤ j')%nat.
Proof.
  induction fuel as [|fuel IH]; intros j Hfuel; simpl.
  - rewrite bool_decide_eq_false_2 by lia. simpl. eauto.
  - case_bool_decide as Hj; simpl; [|eauto].
    destruct (index_lt buffer j) as (bj & _ & ->); [lia|].
    destruct (index_lt buffer (j + 1)) as (bj1 & _ & ->); [lia|].
    simpl. destruct (_ && _); [eauto|].
    destruct (IH (j + 1)%nat) as (j' & -> & Hle); [lia|].
    exists j'. split; [done|lia].
Qed.

(** The loop only ever appends to what it has emitted, and what it emits
    from index [i] on, followed by what it keeps, is the buffer from [i] on. *)
Lemma process_loop_partition (buffer : bytes) :
  ∀ fuel i acc, (i ≤ length buffer)%nat → (length buffer ≤ fuel + i)%nat →
    ∃ emitted remaining,
      process_loop fuel buffer i acc = Return (acc ++ emitted, remaining)
      ∧ emitted ++ remaining = drop i buffer.
Proof.
  induction fuel as [|fuel IH]; intros i acc Hi Hfuel; simpl.
  - rewrite bool_decide_eq_false_2 by lia. simpl.
    exists [], []. rewrite app_nil_r, drop_ge by lia. done.
  - case_bool_decide as Hlt; simpl; cycle 1.
    { exists [], []. rewrite app_nil_r, drop_ge by lia. done. }
    destruct (index_lt buffer i Hlt) as (b & Hb & ->). simpl.
    destruct (bool_decide (b ≠ IAC) || bool_decide (length buffer - 1 ≤ i)%nat)
      eqn:Hplain.
    { destruct (IH (i + 1)%nat (acc ++ [b])) as (e & r & -> & Her); [lia..|].
      exists (b :: e), r. rewrite <- app_assoc. split; [done|].
      rewrite (drop_S _ _ _ Hb). simpl. f_equal.
      now replace (S i) with (i + 1)%nat by lia. }
    apply orb_false_iff in Hplain as [Hiac Hlast].
    apply bool_decide_eq_false in Hiac, Hlast.
    assert (b = IAC) as -> by (destruct (decide (b = IAC)); [done|contradiction]).
    destruct (index_lt buffer (i + 1)) as (command & Hc & ->); [lia|]. simpl.
    assert (drop i buffer = IAC :: command :: drop (i + 2) buffer) as Htwo.
    { rewrite (drop_S _ _ _ Hb). replace (S i) with (i + 1)%nat by lia.
      rewrite (drop_S _ _ _ Hc). now replace (S (i + 1)) with (i + 2)%nat by lia. }
    destruct (bool_decide (command ∈ [DO; DONT; WILL; WONT])
              && bool_decide (i < length buffer - 2)%nat) eqn:Hneg.
    { apply andb_true_iff in Hneg as [_ Hopt]. apply bool_decide_eq_true in Hopt.
      destruct (index_lt buffer (i + 2)) as (option & Ho & ->); [lia|]. simpl.
      destruct (IH (i + 3)%nat (acc ++ [IAC; command; option]))
        as (e & r & -> & Her); [lia..|].
      exists (IAC :: command :: option :: e), r. rewrite <- app_assoc.
      split; [done|]. rewrite Htwo, (drop_S _ _ _ Ho). simpl. do 3 f_equal.
      now replace (S (i + 2)) with (i + 3)%nat by lia. }
    clear Hneg. destruct (bool_decide (command = SB)).
    + destruct (find_se_total buffer (length buffer) (i + 2)) as (j & -> & Hj); [lia|].
      simpl. case_bool_decide as Hfound.
      * destruct (IH (j + 2)%nat (acc ++ slice buffer i (j + 2)))
          as (e & r & -> & Her); [lia..|].
        exists (slice buffer i (j + 2) ++ e), r. rewrite <- !app_assoc.
        split; [done|]. rewrite Her. unfold slice.
        replace (j + 2)%nat with (i + (j + 2 - i))%nat at 2 by lia.
        rewrite <- drop_drop. apply take_drop.
      * exists [], (drop i buffer). rewrite app_nil_r. done.
    + destruct (IH (i + 2)%nat (acc ++ [IAC; command])) as (e & r & -> & Her); [lia..|].
      exists (IAC :: command :: e), r. rewrite <- app_assoc. split; [done|].
      rewrite Htwo. simpl. now rewrite Her.
Qed.


(** C9.  For every input buffer and direction the command processor
    returns a pair [(processed_data, remaining_buffer)] whose
    concatenation is the input buffer: within one round no byte is
    dropped, duplicated or reordered. *)
Theorem process_telnet_commands_partition (buffer : bytes) (direction : str) :
  ∃ processed_data remaining_buffer,
    _process_telnet_commands buffer direction
      = Return (processed_data, remaining_buffer)
    ∧ processed_data ++ remaining_buffer = buffer.
Proof.
  unfold _process_telnet_commands. case_bool_decide; simpl.
  - apply (process_loop_partition buffer (length buffer) 0%nat []); lia.
  - exists buffer, []. split; [done|apply app_nil_r].
Qed.

(** A data byte followed by the start of a subnegotiation: the byte is
    emitted, the open subnegotiation is kept. *)
Example process_keeps_open_subnegotiation :
  _process_telnet_commands [x41; IAC; SB; x18; x01] client_to_server
  = Return ([x41], [IAC; SB; x18; x01]).
Proof. vm_compute. reflexivity. Qed.

(** *** Scanning for the end of a subnegotiation *)

Lemma contains_iac_se_cons (b c : byte) (t : bytes) :
  contains_iac_se (b :: c :: t) = false →
  (bool_decide (b = IAC) && bool_decide (c = SE)) = false
  ∧ contains_iac_se (c :: t) = false.
Proof. simpl. intros H. now apply orb_false_iff in H. Qed.

Lemma contains_iac_se_snoc (p : bytes) :
  contains_iac_se p = false → contains_iac_se (p ++ [IAC]) = false.
Proof.
  induction p as [|b [|c t] IH]; intros Hp; [done| |].
  - simpl. rewrite andb_false_r. done.
  - apply contains_iac_se_cons in Hp as [Hbc Ht].
    change ((b :: c :: t) ++ [IAC]) with (b :: c :: (t ++ [IAC])).
    change (c :: t ++ [IAC]) with ((c :: t) ++ [IAC]) in *.
    simpl in *. rewrite Hbc. simpl. now apply IH.
Qed.

Lemma contains_iac_se_take (p : bytes) (n : nat) :
  contains_iac_se p = false → contains_iac_se (take n p) = false.
Proof.
  revert n. induction p as [|b [|c t] IH]; intros [|n] Hp; try done.
  - now destruct n.
  - apply contains_iac_se_cons in Hp as [Hbc Ht].
    destruct n as [|n]; [done|].
    change (take (S (S n)) (b :: c :: t)) with (b :: c :: take n t).
    specialize (IH (S n) Ht). change (take (S n) (c :: t)) with (c :: take n t) in IH.
    simpl in *. now rewrite Hbc.
Qed.

(** One round of the inner loop over a byte that does not start [IAC SE]. *)
Lemma find_se_step (fuel : nat) (a : bytes) (b c : byte) (t : bytes) :
  (bool_decide (b = IAC) && bool_decide (c = SE)) = false →
  find_se (S fuel) (a ++ b :: c :: t) (length a)
  = find_se fuel ((a ++ [b]) ++ c :: t) (length (a ++ [b])).
Proof.
  intros Hbc. cbn [find_se].
  rewrite bool_decide_eq_true_2 by (rewrite length_app; simpl; lia). simpl.
  rewrite (index_Return _ (length a) b) by apply list_lookup_middle, eq_refl.
  simpl. rewrite (index_Return _ (length a + 1) c).
  2:{ rewrite (cons_middle b), app_assoc.
      apply list_lookup_middle. rewrite length_app. simpl. lia. }
  simpl. rewrite Hbc, <- app_assoc, length_app. done.
Qed.

(** The scan stops on the terminator of a closed subnegotiation ... *)
Lemma find_se_found (p : bytes) :
  ∀ a rest fuel, contains_iac_se (p ++ [IAC]) = false → (length p < fuel)%nat →
    find_se fuel (a ++ p ++ IAC :: SE :: rest) (length a)
    = Return (length a + length p)%nat.
Proof.
  induction p as [|b p IH]; intros a rest fuel Hp Hfuel.
  - destruct fuel as [|fuel]; [simpl in Hfuel; lia|]. cbn [find_se app].
    rewrite bool_decide_eq_true_2 by (rewrite length_app; simpl; lia). simpl.
    rewrite (index_Return _ (length a) IAC) by apply list_lookup_middle, eq_refl.
    simpl. rewrite (index_Return _ (length a + 1) SE).
    2:{ rewrite (cons_middle IAC), app_assoc.
        apply list_lookup_middle. rewrite length_app. simpl. lia. }
    simpl. f_equal. lia.
  - destruct fuel as [|fuel]; [simpl in Hfuel; lia|].
    destruct (p ++ IAC :: SE :: rest) as [|c t] eqn:Ht; [now destruct p|].
    assert (∃ u, p ++ [IAC] = c :: u) as [u Hu].
    { destruct p; simpl in *; inversion Ht; eauto. }
    change ((b :: p) ++ [IAC]) with (b :: (p ++ [IAC])) in Hp. rewrite Hu in Hp.
    apply contains_iac_se_cons in Hp as [Hbc Hp]. rewrite <- Hu in Hp.
    change ((b :: p) ++ IAC :: SE :: rest) with (b :: (p ++ IAC :: SE :: rest)).
    rewrite Ht, find_se_step, <- Ht by done.
    rewrite IH by (simpl in Hfuel; done || lia).
    rewrite length_app. simpl. f_equal. lia.
Qed.

(** ... and runs to the end of the buffer when there is none. *)
Lemma find_se_missing (q : bytes) :
  ∀ a fuel, contains_iac_se q = false → (length q ≤ fuel)%nat →
    ∃ j, find_se fuel (a ++ q) (length a) = Return j
         ∧ ¬ (j < length (a ++ q) - 1)%nat.
Proof.
  induction q as [|b [|c t] IH]; intros a fuel Hq Hfuel.
  - exists (length a). destruct fuel; simpl;
      rewrite bool_decide_eq_false_2 by (rewrite length_app; simpl; lia);
      (split; [done|rewrite length_app; simpl; lia]).
  - exists (length a). destruct fuel; simpl;
      rewrite bool_decide_eq_false_2 by (rewrite length_app; simpl; lia);
      (split; [done|rewrite length_app; simpl; lia]).
  - destruct fuel as [|fuel]; [simpl in Hfuel; lia|].
    apply contains_iac_se_cons in Hq as [Hbc Hq].
    rewrite find_se_step by done.
    destruct (IH (a ++ [b]) fuel Hq) as (j & Hj & Hend); [simpl in *; lia|].
    exists j. split; [done|]. rewrite <- app_assoc in Hend. done.
Qed.

(** *** One round of the outer loop, unit by unit *)

(** Closes a goal with an equation that differs from it only in the way
    lists are bracketed and lengths are written. *)
Ltac aligned H :=
  etransitivity; [|etransitivity; [exact H|]];
  f_equal; rewrite ?length_app, <- ?app_assoc; simpl; (lia || done).

Lemma lookup_app_add {A : Type} (a l : list A) (k : nat) :
  (a ++ l) !! (length a + k)%nat = l !! k.
Proof. rewrite lookup_app_r by lia. f_equal. lia. Qed.

Lemma process_loop_data fuel buffer i acc b :
  buffer !! i = Some b → b ≠ IAC →
  process_loop (S fuel) buffer i acc
  = process_loop fuel buffer (i + 1) (acc ++ [b]).
Proof.
  intros Hb Hne. cbn [process_loop].
  rewrite bool_decide_eq_true_2 by (eapply lookup_lt_Some; eauto). simpl.
  rewrite (index_Return _ _ _ Hb). simpl.
  now rewrite (bool_decide_eq_true_2 _ Hne).
Qed.

Lemma process_loop_negotiation fuel buffer i acc c o :
  buffer !! i = Some IAC → buffer !! (i + 1)%nat = Some c →
  buffer !! (i + 2)%nat = Some o → c ∈ [DO; DONT; WILL; WONT] →
  process_loop (S fuel) buffer i acc
  = process_loop fuel buffer (i + 3) (acc ++ [IAC; c; o]).
Proof.
  intros Hb Hc Ho Hneg. cbn [process_loop].
  pose proof (lookup_lt_Some _ _ _ Ho) as Hlen.
  rewrite bool_decide_eq_true_2 by lia. simpl.
  rewrite (index_Return _ _ _ Hb). simpl.
  rewrite bool_decide_eq_false_2 by lia. simpl.
  rewrite (index_Return _ _ _ Hc). simpl.
  rewrite (bool_decide_eq_true_2 _ Hneg), bool_decide_eq_true_2 by lia. simpl.
  now rewrite (index_Return _ _ _ Ho).
Qed.

Lemma process_loop_command fuel buffer i acc c :
  buffer !! i = Some IAC → buffer !! (i + 1)%nat = Some c →
  c ∉ [DO; DONT; WILL; WONT] → c ≠ SB →
  process_loop (S fuel) buffer i acc
  = process_loop fuel buffer (i + 2) (acc ++ [IAC; c]).
Proof.
  intros Hb Hc Hneg Hsb. cbn [process_loop].
  pose proof (lookup_lt_Some _ _ _ Hc) as Hlen.
  rewrite bool_decide_eq_true_2 by lia. simpl.
  rewrite (index_Return _ _ _ Hb). simpl.
  rewrite bool_decide_eq_false_2 by lia. simpl.
  rewrite (index_Return _ _ _ Hc). simpl.
  rewrite (bool_decide_eq_false_2 _ Hneg). simpl.
  now rewrite (bool_decide_eq_false_2 _ Hsb).
Qed.

(** The common start of the two subnegotiation cases. *)
Lemma process_loop_sb fuel a acc t :
  process_loop (S fuel) (a ++ IAC :: SB :: t) (length a) acc
  = (j ← find_se (length (a ++ IAC :: SB :: t)) (a ++ IAC :: SB :: t) (length a + 2);
     if bool_decide (j < length (a ++ IAC :: SB :: t) - 1)%nat then
       process_loop fuel (a ++ IAC :: SB :: t) (j + 2)
         (acc ++ slice (a ++ IAC :: SB :: t) (length a) (j + 2))
     else Return (acc, drop (length a) (a ++ IAC :: SB :: t))).
Proof.
  cbn [process_loop].
  rewrite bool_decide_eq_true_2 by (rewrite length_app; simpl; lia). simpl.
  rewrite (index_Return _ (length a) IAC) by apply list_lookup_middle, eq_refl.
  simpl.
  rewrite bool_decide_eq_false_2 by (rewrite length_app; simpl; lia). simpl.
  rewrite (index_Return _ (length a + 1) SB).
  2:{ rewrite lookup_app_add. done. }
  simpl. done.
Qed.

Lemma process_loop_subnegotiation fuel a acc p rest :
  contains_iac_se p = false →
  process_loop (S fuel) (a ++ subnegotiation p ++ rest) (length a) acc
  = process_loop fuel (a ++ subnegotiation p ++ rest)
      (length a + length (subnegotiation p)) (acc ++ subnegotiation p).
Proof.
  intros Hp. unfold subnegotiation.
  change ((IAC :: SB :: p ++ [IAC; SE]) ++ rest)
    with (IAC :: SB :: (p ++ [IAC; SE]) ++ rest).
  rewrite process_loop_sb.
  set (buffer := a ++ IAC :: SB :: (p ++ [IAC; SE]) ++ rest).
  assert (buffer = (a ++ [IAC; SB]) ++ p ++ IAC :: SE :: rest) as Hbuf.
  { unfold buffer. rewrite <- !app_assoc. done. }
  assert (length buffer = length a + length p + 4 + length rest)%nat as Hlen.
  { rewrite Hbuf, !length_app. simpl. lia. }
  replace (length a + 2)%nat with (length (a ++ [IAC; SB]))
    by (rewrite length_app; simpl; lia).
  rewrite Hbuf at 2. rewrite find_se_found; [|now apply contains_iac_se_snoc|lia].
  simpl. rewrite length_app. simpl.
  rewrite bool_decide_eq_true_2 by lia.
  rewrite length_app. simpl.
  replace (length a + 2 + length p + 2)%nat
    with (length a + S (S (length p + 2)))%nat by lia.
  do 2 f_equal. unfold slice, buffer.
  rewrite drop_app_length.
  replace (length a + S (S (length p + 2)) - length a)%nat
    with (length (IAC :: SB :: p ++ [IAC; SE])) by (simpl; rewrite length_app; simpl; lia).
  change (IAC :: SB :: (p ++ [IAC; SE]) ++ rest)
    with ((IAC :: SB :: p ++ [IAC; SE]) ++ rest).
  now rewrite take_app_length.
Qed.

Lemma process_loop_incomplete fuel a acc q :
  contains_iac_se q = false →
  process_loop (S fuel) (a ++ IAC :: SB :: q) (length a) acc
  = Return (acc, IAC :: SB :: q).
Proof.
  intros Hq. rewrite process_loop_sb.
  assert (a ++ IAC :: SB :: q = (a ++ [IAC; SB]) ++ q) as Hbuf
    by (rewrite <- app_assoc; done).
  destruct (find_se_missing q (a ++ [IAC; SB]) (length (a ++ IAC :: SB :: q)) Hq)
    as (j & Hj & Hend).
  { rewrite length_app. simpl. lia. }
  replace (length a + 2)%nat with (length (a ++ [IAC; SB]))
    by (rewrite length_app; simpl; lia).
  rewrite Hbuf at 2. rewrite Hj. simpl.
  rewrite <- Hbuf in Hend. rewrite (bool_decide_eq_false_2 _ Hend).
  now rewrite drop_app_length.
Qed.

(** A run of complete units is emitted as it stands. *)
Lemma process_loop_tokens (pre : bytes) :
  tokens pre →
  ∀ a rest acc fuel, (length pre + length rest ≤ fuel)%nat →
    ∃ fuel', (length rest ≤ fuel')%nat
      ∧ process_loop fuel (a ++ pre ++ rest) (length a) acc
        = process_loop fuel' ((a ++ pre) ++ rest) (length (a ++ pre)) (acc ++ pre).
Proof.
  induction 1 as [|b t Hb _ IH|c o t Hc _ IH|c t Hc Hsb _ IH|p t Hp _ IH];
    intros a rest acc fuel Hfuel.
  - exists fuel. rewrite !app_nil_r. simpl in *. split; [lia|done].
  - destruct fuel as [|fuel]; [simpl in Hfuel; lia|].
    rewrite (process_loop_data _ _ _ _ b); [|apply list_lookup_middle, eq_refl|done].
    destruct (IH (a ++ [b]) rest (acc ++ [b]) fuel) as (fuel' & Hf & Heq);
      [simpl in Hfuel; lia|].
    exists fuel'. split; [done|]. aligned Heq.
  - destruct fuel as [|fuel]; [simpl in Hfuel; lia|].
    rewrite (process_loop_negotiation _ _ _ _ c o);
      [|apply list_lookup_middle, eq_refl
       |rewrite lookup_app_add; done|rewrite lookup_app_add; done|done].
    destruct (IH (a ++ [IAC; c; o]) rest (acc ++ [IAC; c; o]) fuel)
      as (fuel' & Hf & Heq); [simpl in Hfuel; lia|].
    exists fuel'. split; [done|]. aligned Heq.
  - destruct fuel as [|fuel]; [simpl in Hfuel; lia|].
    rewrite (process_loop_command _ _ _ _ c);
      [|apply list_lookup_middle, eq_refl|rewrite lookup_app_add; done|done..].
    destruct (IH (a ++ [IAC; c]) rest (acc ++ [IAC; c]) fuel)
      as (fuel' & Hf & Heq); [simpl in Hfuel; lia|].
    exists fuel'. split; [done|]. aligned Heq.
  - destruct fuel as [|fuel]; [simpl in Hfuel; lia|].
    rewrite <- (app_assoc (subnegotiation p)).
    rewrite process_loop_subnegotiation by done.
    destruct (IH (a ++ subnegotiation p) rest (acc ++ subnegotiation p) fuel)
      as (fuel' & Hf & Heq).
    { rewrite length_app in Hfuel. simpl in Hfuel. lia. }
    exists fuel'. split; [done|]. aligned Heq.
Qed.

(** *** A subnegotiation split over two reads *)

Lemma iac_in_subnegotiation_prefix (pre q : bytes) :
  IAC ∈ pre ++ IAC :: q.
Proof. apply elem_of_app. right. apply elem_of_cons. now left. Qed.

(** C3, as the code has it.  When the first read holds at least the two
    introducer bytes [IAC SB] of the subnegotiation (and not yet all of it),
    and what precedes it is made of complete units, the first round emits
    exactly what precedes the subnegotiation and keeps the received part of
    it, and the second round emits the subnegotiation first and whole. *)
Theorem straddle_reassembled_after_sb
    (pre payload post : bytes) (k : nat) (direction : str) :
  tokens pre →
  contains_iac_se payload = false →
  (length pre + 2 ≤ k)%nat →
  (k < length pre + length (subnegotiation payload))%nat →
  straddle_reassembled pre payload post k direction.
Proof.
  intros Hpre Hpayload Hlo Hhi. unfold straddle_reassembled.
  set (sub := subnegotiation payload) in *.
  set (m := (k - length pre)%nat).
  assert (length sub = length payload + 4)%nat as Hsub.
  { unfold sub, subnegotiation. simpl. rewrite length_app. simpl. lia. }
  set (q := take (m - 2) (payload ++ [IAC])).
  assert (take m sub = IAC :: SB :: q) as Hkept.
  { unfold sub, subnegotiation, q.
    replace m with (S (S (m - 2))) at 1 by lia. simpl. do 2 f_equal.
    rewrite (cons_middle IAC), app_assoc, take_app_le; [done|].
    rewrite length_app. simpl. lia. }
  assert (contains_iac_se q = false) as Hq
    by now apply contains_iac_se_take, contains_iac_se_snoc.
  assert (take k (pre ++ sub ++ post) = pre ++ IAC :: SB :: q) as Hfirst.
  { replace k with (length pre + m)%nat by lia.
    rewrite take_app_add, take_app_le by lia. now rewrite Hkept. }
  assert (take m sub ++ drop k (pre ++ sub ++ post) = sub ++ post) as Hsecond.
  { replace k with (length pre + m)%nat by lia.
    rewrite drop_app_add, drop_app_le, app_assoc, take_drop by lia. done. }
  split.
  - rewrite Hfirst, Hkept. unfold _process_telnet_commands.
    rewrite bool_decide_eq_true_2
      by apply iac_in_subnegotiation_prefix.
    simpl negb. cbv iota.
    destruct (process_loop_tokens pre Hpre [] (IAC :: SB :: q) []
                (length (pre ++ IAC :: SB :: q))) as (fuel' & Hfuel' & Heq).
    { rewrite length_app. lia. }
    simpl in Heq. rewrite Heq.
    destruct fuel' as [|fuel']; [simpl in Hfuel'; lia|].
    now rewrite process_loop_incomplete.
  - rewrite Hsecond. unfold _process_telnet_commands.
    rewrite bool_decide_eq_true_2
      by apply (iac_in_subnegotiation_prefix [] ((SB :: payload ++ [IAC; SE]) ++ post)).
    simpl negb. cbv iota.
    assert (length (sub ++ post) = S (length payload + 3 + length post)) as ->
      by (rewrite length_app; lia).
    pose proof (process_loop_subnegotiation
                  (length payload + 3 + length post) [] [] payload post Hpayload)
      as Hstep.
    destruct (process_loop_partition (sub ++ post)
                (length payload + 3 + length post) (length sub) sub)
      as (e & r & Hrun & _); [rewrite length_app; simpl; lia..|].
    exists e, r. rewrite <- Hrun. exact Hstep.
Qed.

Lemma straddle_reassembled_after_sb_witness :
  straddle_reassembled [x41] [x18; x01] [x42] 3 (lit "client_to_server").
Proof.
  apply straddle_reassembled_after_sb.
  - apply tokens_data; [discriminate|apply tokens_nil].
  - reflexivity.
  - simpl. lia.
  - simpl. lia.
Defined.

(** C3, as the specification states it, fails when the first read ends
    right after the [IAC] that opens the subnegotiation: that lone [IAC] is
    emitted at once and nothing is kept for the next round. *)
Lemma straddle_split_after_iac_not_reassembled :
  _process_telnet_commands (take 1 (subnegotiation [x18; x01])) (lit "client_to_server")
    = Return ([IAC], [])
  ∧ ¬ straddle_reassembled [] [x18; x01] [] 1 (lit "client_to_server").
Proof.
  split; [reflexivity|].
  unfold straddle_reassembled. intros [Hfirst _].
  vm_compute in Hfirst. discriminate Hfirst.
Qed.

End TelnetProcess.

(** ** The parsers never raise *)

(** *** The Telnet body *)

Lemma telnet_scan_commands_finishes (data : bytes) :
  ∀ fuel i commands, (length data ≤ fuel + i)%nat →
    finishes (Telnet.scan_commands fuel data i commands).
Proof.
  induction fuel as [|fuel IH]; intros i commands Hfuel; simpl;
    (case_bool_decide as Hlt; simpl; [|discriminate]); [lia|].
  apply finishes_bind; [apply finishes_index|]. intros b.
  destruct (_ && _); [|apply IH; lia].
  apply finishes_bind; [apply finishes_index|]. intros cmd.
  destruct (_ && _).
  { apply finishes_bind; [apply finishes_index|]. intros opt. apply IH. lia. }
  destruct (_ && _); [|apply IH; lia].
  apply finishes_bind; [apply finishes_index|]. intros sub_opt.
  destruct (find_se_total data (length data) (i + 3)) as (j & -> & Hj); [lia|].
  simpl. case_bool_decide; apply IH; lia.
Qed.

Lemma telnet_body_terminates (data : bytes) (direction : str) :
  terminates (Telnet.parse_body data direction).
Proof.
  unfold Telnet.parse_body.
  repeat first
    [ terminates_step
    | apply terminates_lift, telnet_scan_commands_finishes; lia ].
Qed.

(** C2.  For every byte sequence and every direction, the [parse_packet]
    of each of the four handlers returns a metadata dictionary: no
    exception leaves it and none of its loops runs for ever; an exception
    that its body meets is recorded in the ['parse_error'] entry of the
    dictionary that is returned. *)
Theorem parse_packet_never_raises `{PyText} :
  never_raises Http.HTTPProtocolHandler
  ∧ never_raises Ftp.FTPProtocolHandler
  ∧ never_raises Dns.DNSProtocolHandler
  ∧ never_raises Telnet.TelnetProtocolHandler.
Proof.
  repeat split; apply never_raises_of_terminates; intros data direction.
  - apply http_body_terminates.
  - apply ftp_body_terminates.
  - apply dns_body_terminates.
  - apply telnet_body_terminates.
Qed.

(** A DNS query cut off after its header: the [IndexError] of the name loop
    ends up in ['parse_error'], next to the header fields decoded before. *)
Example dns_truncated_question :
  let header := [x12; x34; x01; x00; x00; x01; x00; x00; x00; x00; x00; x00] in
  ∃ metadata,
    @Dns.parse_packet ascii_text header client_to_server = Return metadata
    ∧ raised (@Dns.parse_body ascii_text header client_to_server)
      = Some (IndexError (lit "index out of range"))
    ∧ dict_get (lit "parse_error") metadata = Some (PStr (lit "index out of range"))
    ∧ dict_get (lit "transaction_id") metadata = Some (PInt 4660).
Proof. eexists. repeat split; vm_compute; reflexivity. Qed.

(** A datagram shorter than the header is reported under ['error']. *)
Lemma dns_short_packet_error `{PyText} (data : bytes) (direction : str) :
  (length data < 12)%nat →
  Dns.parse_packet data direction
  = Return [(lit "error", PStr (lit "Packet too short for DNS header"))].
Proof.
  intros Hshort. unfold Dns.parse_packet, Base.parse_packet, try_parse. simpl.
  unfold Dns.parse_body. now rewrite bool_decide_eq_true_2.
Qed.


(** ** The relay loops and the [paused] flag *)

Section RelayPause.
Import Relay.

(** The inspection block changes nothing but the log. *)
Lemma inspect_returns (cls : Base.handler_class) (self : Base.handler)
    (fresh_id : str) (now : pyfloat) (data : bytes) (direction : str)
    (st : state) (peer : address) :
  never_raises cls → Base.server_peer self = Some peer →
  ∃ st',
    inspect cls self fresh_id now data direction st = Return st'
    ∧ sent_to_server st' = sent_to_server st
    ∧ sent_to_client st' = sent_to_client st
    ∧ running st' = running st.
Proof.
  intros Hcls Hpeer. unfold inspect.
  destruct (Base.should_inspect_packet cls data direction); [|eauto].
  destruct (Hcls data direction) as (md & Hmd & _).
  destruct (create_packet_returns cls self fresh_id now data direction peer md
              Hpeer Hmd) as (packet & -> & _).
  simpl. destruct (Base.paused packet); eauto.
Qed.


End RelayPause.




(* ===================================================================== *)
(** * Part III: further properties of the code                            *)
(* ===================================================================== *)

(** ** What [try_parse] returns for a body whose run is known *)

(** Membership in a list that is written out. *)
Ltac in_list :=
  first [apply list_elem_of_here | apply list_elem_of_further; in_list].
(** Closes a decidable statement about data that is written out. *)
Ltac by_evaluation := apply (bool_decide_eq_true_1 _); vm_compute; reflexivity.

Ltac ascii_ok := unfold is_ascii; repeat constructor.

Ltac token_ok :=
  unfold Http.request_token; repeat split; [ascii_ok | by_evaluation ..].

(** A body that returns leaves its dictionary as the metadata. *)
Lemma try_parse_run (body : parser unit) (md : dict) :
  body [] = (md, Return tt) → try_parse body = Return md ∧ raised body = None.
Proof. intros Hrun. unfold try_parse, raised. now rewrite Hrun. Qed.

(** A body that terminates: the entries that it assigns are in the metadata,
    the entries that it keeps are not, ['parse_error'] apart. *)
Lemma try_parse_entries (body : parser unit) :
  terminates body →
  ∃ metadata,
    try_parse body = Return metadata
    ∧ (∀ k v, k ≠ lit "parse_error" → assigns k v body →
              dict_get k metadata = Some v)
    ∧ (∀ k, k ≠ lit "parse_error" → keeps k body →
            dict_get k metadata = None).
Proof.
  intros Hbody. specialize (Hbody []). unfold try_parse.
  destruct (body []) as [md [a|e|]] eqn:Hrun; simpl in *; [| |done].
  - exists md. split; [done|]. split.
    + intros k v _ Hkv. specialize (Hkv []). now rewrite Hrun in Hkv.
    + intros k _ Hk. specialize (Hk []). now rewrite Hrun in Hk.
  - eexists. split; [done|]. split.
    + intros k v Hk Hkv. rewrite dict_get_set_ne by done.
      specialize (Hkv []). now rewrite Hrun in Hkv.
    + intros k Hne Hk. rewrite dict_get_set_ne by done.
      specialize (Hk []). now rewrite Hrun in Hk.
Qed.

(** A body that returns: nothing is recorded under ['parse_error'] unless
    the body itself assigns it. *)
Lemma try_parse_returns (body : parser unit) :
  returns body →
  ∃ metadata,
    try_parse body = Return metadata
    ∧ raised body = None
    ∧ (∀ k v, assigns k v body → dict_get k metadata = Some v)
    ∧ (∀ k, keeps k body → dict_get k metadata = None).
Proof.
  intros Hbody. destruct (Hbody []) as [[] Hrun]. unfold try_parse, raised.
  destruct (body []) as [md o] eqn:Hbody0. simpl in Hrun. subst o.
  exists md. repeat split.
  - intros k v Hkv. specialize (Hkv []). now rewrite Hbody0 in Hkv.
  - intros k Hk. specialize (Hk []). now rewrite Hbody0 in Hk.
Qed.

Lemma returns_lift_bind {A B : Type} (a : A) (f : A → parser B) :
  returns (f a) → returns (lift (Return a) ≫= f).
Proof. intros Hf md. exact (Hf md). Qed.

(** Takes apart a body whose steps all return. *)
Ltac returns_steps :=
  lazymatch goal with
  | |- returns (mret _) => apply returns_ret
  | |- returns (setitem _ _) => apply returns_setitem
  | |- returns (lift (Return _)) => apply returns_lift
  | |- returns (lift (Return _) ≫= _) => apply returns_lift_bind; cbv beta iota
  | |- returns (_ ≫= _) => apply returns_bind; [|intros ?]
  | |- returns (if ?b then _ else _) => destruct b
  end.

(** ** Where a separator first occurs *)

Section FirstOccurrence.
Context {A : Type} `{EqDecision A}.
Implicit Types (s sub a r : list A).

Lemma startswith_inv s p : startswith s p = true → ∃ r, s = p ++ r.
Proof.
  revert s. induction p as [|x p IH]; intros s Hs; [now exists s|].
  destruct s as [|y s]; [discriminate|]. simpl in Hs.
  apply andb_true_iff in Hs as [Hxy Hs]. apply bool_decide_eq_true in Hxy as ->.
  destruct (IH s Hs) as [r ->]. now exists r.
Qed.

Lemma contains_inv s sub : contains s sub = true → ∃ a r, s = a ++ sub ++ r.
Proof.
  induction s as [|x s IH]; cbn [contains]; intros Hs.
  - rewrite orb_false_r in Hs. destruct (startswith_inv _ _ Hs) as [r Hr].
    now exists [], r.
  - apply orb_true_iff in Hs as [Hs|Hs].
    + destruct (startswith_inv _ _ Hs) as [r Hr]. now exists [], r.
    + destruct (IH Hs) as (a & r & ->). now exists (x :: a), r.
Qed.

(** [s.split(sep, 1)] cuts [s] at the first occurrence of [sep]. *)
Lemma split_first (h : A) t s :
  contains s (h :: t) = true →
  ∃ a r, s = a ++ (h :: t) ++ r
         ∧ split s (h :: t) (Some 1%nat) = [a; r]
         ∧ ∀ a' r', s = a' ++ (h :: t) ++ r' → (length a ≤ length a')%nat.
Proof.
  unfold split. induction s as [|c s IH]; intros Hs.
  { simpl in Hs. discriminate Hs. }
  destruct (startswith (c :: s) (h :: t)) eqn:Hstart.
  - destruct (startswith_inv _ _ Hstart) as [r Hr].
    exists [], r. split; [done|]. split; [|intros; simpl; lia].
    cbn [split_pieces]. rewrite Hstart. cbn [negb andb bool_decide].
    rewrite bool_decide_eq_false_2 by done. cbn [negb andb].
    injection Hr as -> ->.
    replace (length (h :: t) - 1)%nat with (length t) by (simpl; lia).
    rewrite split_pieces_skip. cbn [fmap option_fmap option_map pred].
    now rewrite split_pieces_zero.
  - assert (contains s (h :: t) = true) as Hrest.
    { cbn [contains] in Hs. rewrite Hstart in Hs. exact Hs. }
    destruct (IH Hrest) as (a & r & -> & Hsplit & Hmin).
    exists (c :: a), r. split; [done|]. split.
    + cbn [split_pieces]. rewrite Hstart, andb_false_r.
      destruct (split_pieces (h :: t) (Some 1%nat) 0 (a ++ (h :: t) ++ r))
        as [piece pieces]. now injection Hsplit as -> ->.
    + intros [|c' a'] r' Heq.
      * assert (startswith ([] ++ (h :: t) ++ r') (h :: t) = false) as Hno
          by (rewrite <- Heq; exact Hstart).
        cbn [app] in Hno. change (h :: t ++ r') with ((h :: t) ++ r') in Hno.
        rewrite startswith_app in Hno. discriminate Hno.
      * injection Heq as -> Heq. simpl. specialize (Hmin a' r' Heq). lia.
Qed.

End FirstOccurrence.

(** A prefix no longer than the first part is looked for in that part. *)
Lemma startswith_app_long {A : Type} `{EqDecision A} (s t p : list A) :
  (length p ≤ length s)%nat → startswith (s ++ t) p = startswith s p.
Proof.
  revert s. induction p as [|x p IH]; intros s Hlen.
  - now destruct s, t.
  - destruct s as [|y s]; [simpl in Hlen; lia|]. simpl in *.
    rewrite IH by lia. done.
Qed.

(** ** [src/proxy/packet.py]: files, keys and paths *)

Section PacketFiles.
Import PacketModule.

(** [save] stores under [packet_path] and nowhere else. *)
Lemma save_run (p : Packet) (storage_path : str) (fs : filesystem) :
  let path := packet_path p storage_path in
  save p storage_path fs
  = match json_dump (to_dict p) with
    | Return doc =>
        (<[path ++ lit ".bin" := BinaryFile (data p)]>
           (<[path ++ lit ".json" := JsonFile doc]> fs), Some path)
    | _ => (<[path ++ lit ".json" := BrokenJsonFile]> fs, None)
    end.
Proof. reflexivity. Qed.

(** Two file names with different extensions differ, whatever the paths. *)
Lemma json_is_not_bin (a b : str) : a ++ lit ".json" ≠ b ++ lit ".bin".
Proof.
  change (lit ".json") with (lit ".js" ++ lit "on").
  change (lit ".bin") with (lit ".b" ++ lit "in").
  rewrite !app_assoc. intros Heq.
  apply app_inj_2 in Heq as [_ Heq]; [discriminate Heq|reflexivity].
Qed.

(** Takes the body of [load] apart, step by step. *)
Ltac load_steps H :=
  cbn [mbind outcome_bind] in H;
  repeat match type of H with
         | context [match ?o ≫= ?f with _ => _ end] =>
             destruct o eqn:?; cbn [mbind outcome_bind] in H; try discriminate H
         end.

(** X1.  [Packet.load] returns a packet only when both files of the path
    are there, the [.json] file holding a JSON document and the [.bin] file
    bytes; the data of the packet are the bytes of the [.bin] file, whatever
    the document says. *)
Theorem load_reads_both_files (path : str) (fs : filesystem) (p : Packet) :
  load path fs = Some p →
  (∃ doc, fs !! (path ++ lit ".json") = Some (JsonFile doc))
  ∧ fs !! (path ++ lit ".bin") = Some (BinaryFile (data p)).
Proof.
  unfold load, load_body, read_json, read_bytes. intros Hload.
  destruct (fs !! (path ++ lit ".json")) as [[doc| |]|]; try discriminate Hload.
  destruct (fs !! (path ++ lit ".bin")) as [[| |content]|]; try discriminate Hload.
  split; [eauto|]. do 2 f_equal.
  load_steps Hload. now injection Hload as <-.
Qed.

(** A key that is not among the members of a document is not in the
    dictionary read from it. *)
Lemma dict_get_fold_absent {V : Type} (k : str) (items acc : list (str * V)) :
  k ∉ map fst items →
  dict_get k (fold_left (fun acc kv => dict_set (fst kv) (snd kv) acc) items acc)
  = dict_get k acc.
Proof.
  revert acc. induction items as [|[k' v] items IH]; intros acc Hk; [done|].
  simpl in *. apply not_elem_of_cons in Hk as [Hne Hk].
  rewrite IH by done. now apply dict_get_set_ne.
Qed.

Lemma dict_get_of_items_absent {V : Type} (k : str) (items : list (str * V)) :
  k ∉ map fst items → dict_get k (dict_of_items items) = None.
Proof. intros Hk. unfold dict_of_items. now rewrite dict_get_fold_absent. Qed.

Lemma getitem_absent (k : str) (members : list (str * json)) :
  k ∉ map fst members →
  getitem (json_load (JObject members)) k = Raise (KeyError k).
Proof.
  intros Hk. cbn [json_load getitem].
  rewrite dict_get_of_items_absent; [done|].
  now rewrite map_map.
Qed.

(** X2.  A document without the key ['modified'] (one written before the
    flag existed) still loads, and the packet loaded from it is not marked
    as modified. *)
Theorem load_defaults_modified (path : str) (fs : filesystem)
    (members : list (str * json)) (p : Packet) :
  fs !! (path ++ lit ".json") = Some (JsonFile (JObject members)) →
  lit "modified" ∉ map fst members →
  load path fs = Some p →
  modified p = false.
Proof.
  intros Hfile Hkey. unfold load, load_body, read_json, read_bytes.
  rewrite Hfile. intros Hload.
  destruct (fs !! (path ++ lit ".bin")) as [[| |content]|]; try discriminate Hload.
  load_steps Hload. injection Hload as <-. cbn [modified].
  match goal with
  | H : get_default _ (lit "modified") _ ≫= as_bool = Return ?b |- ?b = false =>
      rename H into Hmod
  end.
  cbn [json_load get_default] in Hmod.
  rewrite dict_get_of_items_absent in Hmod by now rewrite map_map.
  now injection Hmod as <-.
Qed.

(** X3.  Every other key that [load] reads is required: when the document
    lacks one of ['source'], ['destination'], ['protocol'], ['direction'],
    ['id'], ['timestamp'], ['paused'] or ['metadata'], [load] returns
    [None]. *)
Theorem load_requires_key (path : str) (fs : filesystem)
    (members : list (str * json)) (k : str) :
  fs !! (path ++ lit ".json") = Some (JsonFile (JObject members)) →
  k ∈ [lit "source"; lit "destination"; lit "protocol"; lit "direction";
       lit "id"; lit "timestamp"; lit "paused"; lit "metadata"] →
  k ∉ map fst members →
  load path fs = None.
Proof.
  intros Hfile Hk Habsent.
  pose proof (getitem_absent k members Habsent) as Hget.
  unfold load, load_body, read_json, read_bytes. rewrite Hfile.
  destruct (fs !! (path ++ lit ".bin")) as [[| |content]|]; try reflexivity.
  cbn [mbind outcome_bind].
  rewrite !elem_of_cons, elem_of_nil in Hk.
  destruct Hk as [->|[->|[->|[->|[->|[->|[->|[->|[]]]]]]]]];
    repeat first
      [ reflexivity
      | rewrite Hget; cbn [mbind outcome_bind]
      | match goal with
        | |- context [match ?o ≫= ?f with _ => _ end] =>
            destruct o eqn:?; cbn [mbind outcome_bind]
        end ].
Qed.

(** [json.dump] refuses the dictionary of a packet whose metadata it
    refuses. *)
Lemma json_dump_to_dict_raises (p : Packet) (e : exn) :
  json_dump (PDict (metadata p)) = Raise e →
  json_dump (to_dict p) = Raise e.
Proof.
  intros Hmd. unfold to_dict.
  remember (PDict (metadata p)) as mdv.
  cbn [json_dump mapM address_value fst snd mbind mret outcome_bind outcome_ret].
  rewrite Hmd. reflexivity.
Qed.

(** X4.  When [json.dump] refuses the metadata of a packet, [save] returns
    [None]; it has then not touched the [.bin] file, and the [.json] file
    that it leaves behind cannot be loaded. *)
Theorem save_fails_on_unserialisable_metadata (p : Packet) (storage_path : str)
    (fs : filesystem) (e : exn) :
  json_dump (PDict (metadata p)) = Raise e →
  let path := packet_path p storage_path in
  ∃ fs',
    save p storage_path fs = (fs', None)
    ∧ fs' !! (path ++ lit ".bin") = fs !! (path ++ lit ".bin")
    ∧ load path fs' = None.
Proof.
  intros Hmd path. rewrite save_run, (json_dump_to_dict_raises p e Hmd).
  fold path. eexists. split; [reflexivity|]. split.
  - apply lookup_insert_ne, json_is_not_bin.
  - unfold load, load_body, read_json. now rewrite lookup_insert_eq.
Qed.



(** *** The hexadecimal rendering of the data *)

Lemma hex_char_inj (a b : N) :
  (a < 16)%N → (b < 16)%N → hex_char a = hex_char b → a = b.
Proof.
  unfold hex_char. intros Ha Hb.
  destruct (N.ltb_spec a 10), (N.ltb_spec b 10); lia.
Qed.

Lemma bytes_hex_length (b : bytes) : length (bytes_hex b) = (2 * length b)%nat.
Proof. induction b as [|x b IH]; simpl; [done|]. rewrite IH. lia. Qed.

Lemma bytes_hex_inj (b1 b2 : bytes) : bytes_hex b1 = bytes_hex b2 → b1 = b2.
Proof.
  revert b2. induction b1 as [|x b1 IH]; intros [|y b2] Heq; try done.
  simpl in Heq. injection Heq as Hhi Hlo Hrest.
  pose proof (Byte.to_N_bounded x) as Hx. pose proof (Byte.to_N_bounded y) as Hy.
  apply hex_char_inj in Hhi; [|apply N.Div0.div_lt_upper_bound; lia..].
  apply hex_char_inj in Hlo; [|apply N.mod_lt; lia..].
  assert (Byte.to_N x = Byte.to_N y) as Hxy.
  { rewrite (N.div_mod (Byte.to_N x) 16), (N.div_mod (Byte.to_N y) 16) by lia.
    now rewrite Hhi, Hlo. }
  f_equal; [|now apply IH].
  apply (inj Some). now rewrite <- !Byte.of_to_N, Hxy.
Qed.

(** X7.  The ['data_hex'] entry of [to_dict] is a string of twice as many
    characters as the packet has bytes, ['data_length'] is the number of
    bytes, and the string determines the bytes: two packets with the same
    ['data_hex'] have the same data. *)
Theorem to_dict_data_hex_faithful (p : Packet) :
  ∃ h,
    getitem (to_dict p) (lit "data_hex") = Return (PStr h)
    ∧ getitem (to_dict p) (lit "data_length")
      = Return (PInt (Z.of_nat (length (data p))))
    ∧ length h = (2 * length (data p))%nat
    ∧ ∀ p', getitem (to_dict p') (lit "data_hex") = Return (PStr h) →
            data p' = data p.
Proof.
  exists (bytes_hex (data p)). repeat split.
  - apply bytes_hex_length.
  - intros p' Hp'. apply bytes_hex_inj.
    change (getitem (to_dict p') (lit "data_hex"))
      with (Return (PStr (bytes_hex (data p'))) : outcome pyval) in Hp'.
    now injection Hp'.
Qed.

End PacketFiles.

Lemma load_reads_both_files_witness :
  let packet :=
    {| PacketModule.id := lit "7f3c";
       PacketModule.timestamp := {| mantissa := 3400000001; exponent := -1 |};
       PacketModule.data := [x47; x45; x54];
       PacketModule.source := (lit "10.0.0.1", 40000);
       PacketModule.destination := (lit "10.0.0.2", 80);
       PacketModule.protocol := lit "http";
       PacketModule.direction := lit "client_to_server";
       PacketModule.paused := true; PacketModule.modified := true;
       PacketModule.metadata := [(lit "method", PStr (lit "GET"))] |} in
  let fs := fst (PacketModule.save packet (lit "data/packets") ∅) in
  let path := lit "data/packets/1700000000_http_7f3c.packet" in
  (∃ doc, fs !! (path ++ lit ".json") = Some (JsonFile doc))
  ∧ fs !! (path ++ lit ".bin") = Some (BinaryFile [x47; x45; x54]).
Proof.
  intros packet fs path.
  apply (load_reads_both_files path fs packet).
  vm_compute. reflexivity.
Defined.

Lemma load_defaults_modified_witness :
  let members :=
    [(lit "id", JString (lit "7f3c"));
     (lit "timestamp", JFloat {| mantissa := 3400000001; exponent := -1 |});
     (lit "source", JArray [JString (lit "10.0.0.1"); JInt 40000]);
     (lit "destination", JArray [JString (lit "10.0.0.2"); JInt 80]);
     (lit "protocol", JString (lit "http"));
     (lit "direction", JString (lit "client_to_server"));
     (lit "paused", JBool true);
     (lit "metadata", JObject [])] in
  let fs : filesystem :=
    <[lit "p.json" := JsonFile (JObject members)]>
      (<[lit "p.bin" := BinaryFile [x47; x45; x54]]> ∅) in
  ∃ p, PacketModule.load (lit "p") fs = Some p
       ∧ PacketModule.modified p = false.
Proof.
  intros members fs.
  eexists. split; [vm_compute; reflexivity|].
  apply (load_defaults_modified (lit "p") fs members).
  - vm_compute. reflexivity.
  - apply (bool_decide_eq_true_1 _). vm_compute. reflexivity.
  - vm_compute. reflexivity.
Defined.

Lemma load_requires_key_witness :
  PacketModule.load (lit "p")
    (<[lit "p.json" := JsonFile (JObject [(lit "id", JString (lit "7f3c"))])]>
       (<[lit "p.bin" := BinaryFile [x47]]> ∅))
  = None.
Proof.
  apply (load_requires_key (lit "p") _ [(lit "id", JString (lit "7f3c"))]
           (lit "paused")).
  - vm_compute. reflexivity.
  - apply (bool_decide_eq_true_1 _). vm_compute. reflexivity.
  - apply (bool_decide_eq_true_1 _). vm_compute. reflexivity.
Defined.

Lemma save_fails_on_unserialisable_metadata_witness :
  let p :=
    {| PacketModule.id := lit "7f3c";
       PacketModule.timestamp := {| mantissa := 1; exponent := 30 |};
       PacketModule.data := [x47];
       PacketModule.source := (lit "10.0.0.1", 40000);
       PacketModule.destination := (lit "10.0.0.2", 80);
       PacketModule.protocol := lit "http";
       PacketModule.direction := lit "client_to_server";
       PacketModule.paused := false; PacketModule.modified := false;
       PacketModule.metadata := [(lit "raw", PBytes [x48])] |} in
  ∃ fs',
    PacketModule.save p (lit "data") ∅ = (fs', None)
    ∧ fs' !! (PacketModule.packet_path p (lit "data") ++ lit ".bin") = None
    ∧ PacketModule.load (PacketModule.packet_path p (lit "data")) fs' = None.
Proof.
  intros p.
  destruct (save_fails_on_unserialisable_metadata p (lit "data") ∅
              (TypeError (lit "Object of type bytes is not JSON serializable"))
              eq_refl) as (fs' & Hsave & Hbin & Hload).
  exists fs'. split; [exact Hsave|]. split; [|exact Hload].
  rewrite Hbin. apply lookup_empty.
Defined.


(** ** [src/protocols/http.py]: the body of a message, responses *)

Section HttpBody.
Context `{T : PyText}.
Import Http.

Lemma returns_try_pass (body : parser unit) : terminates body → returns (try_pass body).
Proof.
  intros Hbody md. specialize (Hbody md). unfold try_pass.
  destruct (body md) as [md' [[]|e|]]; simpl in *; [eauto..|done].
Qed.

(** The loop over the header lines of any chunk: it returns, leaves a
    dictionary under ['headers'] and touches no other entry. *)
Lemma http_header_lines_any (lines : list bytes) :
  ∀ (md start : dict),
    dict_get (lit "headers") md = Some (PDict start) →
    ∃ md' start',
      parse_header_lines lines md = (md', Return tt)
      ∧ dict_get (lit "headers") md' = Some (PDict start')
      ∧ ∀ k, k ≠ lit "headers" → dict_get k md' = dict_get k md.
Proof.
  induction lines as [|line rest IH]; intros md start Hstart; [simpl; eauto|].
  cbn [parse_header_lines]. destruct (_ || _); [simpl; eauto|].
  destruct (http_header_block_returns line md start Hstart)
    as (md1 & start1 & Hblock & Hstart1).
  assert (∀ k, k ≠ lit "headers" → dict_get k md1 = dict_get k md) as Hkeep1.
  { intros k Hk.
    assert (keeps k (header_block line)) as Hkeeps.
    { unfold header_block.
      repeat first [apply keeps_setitem_in; exact Hk | keeps_step]. }
    specialize (Hkeeps md). now rewrite Hblock in Hkeeps. }
  destruct (IH md1 start1 Hstart1) as (md' & start' & Hrun & Hstart' & Hkeep).
  exists md', start'. split; [|split; [done|]].
  - unfold mbind, parser_bind, try_pass. now rewrite Hblock.
  - intros k Hk. now rewrite Hkeep, Hkeep1.
Qed.

(** The first half of [parse_packet], on any chunk: it returns, leaves a
    dictionary under ['headers'] and sets nothing outside [head_keys]. *)
Lemma http_head_run (data : bytes) (direction : str) :
  ∃ md1 hs,
    (if bool_decide (direction = client_to_server) then parse_request data
     else parse_response data) [] = (md1, Return tt)
    ∧ dict_get (lit "headers") md1 = Some (PDict hs)
    ∧ ∀ k, k ∉ head_keys → dict_get k md1 = None.
Proof.
  assert (∀ (first : parser unit) lines,
            (∃ md0, first [] = (md0, Return tt)
                    ∧ ∀ k, k ∉ head_keys → dict_get k md0 = None) →
            ∃ md1 hs,
              (first;; setitem (lit "headers") (PDict []);;
               parse_header_lines lines) [] = (md1, Return tt)
              ∧ dict_get (lit "headers") md1 = Some (PDict hs)
              ∧ ∀ k, k ∉ head_keys → dict_get k md1 = None) as Hshape.
  { intros first lines (md0 & Hfirst & Hmd0).
    destruct (http_header_lines_any lines
                (dict_set (lit "headers") (PDict []) md0) [])
      as (md1 & hs & Hrun & Hhs & Hkeep); [apply dict_get_set_eq|].
    exists md1, hs. split; [|split; [done|]].
    - cbv [mbind parser_bind setitem]. rewrite Hfirst. exact Hrun.
    - intros k Hk. rewrite Hkeep, dict_get_set_ne, Hmd0; try done.
      all: intros ->; apply Hk; in_list. }
  assert (∀ k1 k2 k3 v1 v2 v3,
            k1 ∈ head_keys → k2 ∈ head_keys → k3 ∈ head_keys →
            ∃ md0, (setitem k1 v1;; setitem k2 v2;; setitem k3 v3) []
                   = (md0, Return tt)
                   ∧ ∀ k, k ∉ head_keys → dict_get k md0 = None) as Hthree.
  { intros k1 k2 k3 v1 v2 v3 H1 H2 H3. eexists. split; [reflexivity|].
    intros k Hk. rewrite !dict_get_set_ne; [done|intros ->; contradiction..]. }
  assert (∃ md0 : dict, (mret tt : parser unit) [] = (md0, Return tt)
                 ∧ ∀ k, k ∉ head_keys → dict_get k md0 = None) as Hnone.
  { exists []. split; [reflexivity|done]. }
  case_bool_decide.
  - unfold parse_request. cbv zeta. apply Hshape.
    destruct (split data CRLF None) as [|line rest]; [exact Hnone|].
    destruct (split (decode_utf8_ignore line) (lit " ") None)
      as [|m [|p [|v more]]]; try exact Hnone.
    apply Hthree; in_list.
  - unfold parse_response. cbv zeta. apply Hshape.
    destruct (split data CRLF None) as [|line rest]; [exact Hnone|].
    destruct (split (decode_utf8_ignore line) (lit " ") (Some 2%nat))
      as [|m [|p [|v more]]]; try exact Hnone.
    apply Hthree; in_list.
Qed.

(** What [parse_packet] returns for any chunk, from what its first half
    leaves: the content type, and the length and preview of the body when
    the chunk holds an empty line. *)
Lemma http_body_run (data : bytes) (direction : str) :
  ∃ md1 hs,
    (if bool_decide (direction = client_to_server) then parse_request data
     else parse_response data) [] = (md1, Return tt)
    ∧ dict_get (lit "headers") md1 = Some (PDict hs)
    ∧ (∀ k, k ∉ head_keys → dict_get k md1 = None)
    ∧ let md2 := dict_set (lit "content_type") (PStr (content_type_of md1)) md1 in
      (contains data (CRLF ++ CRLF) = false
       ∧ parse_body data direction [] = (md2, Return tt))
      ∨ (∃ head body,
           data = head ++ (CRLF ++ CRLF) ++ body
           ∧ split data (CRLF ++ CRLF) (Some 1%nat) = [head; body]
           ∧ (∀ head' body', data = head' ++ (CRLF ++ CRLF) ++ body' →
                             (length head ≤ length head')%nat)
           ∧ let md3 := dict_set (lit "body_length")
                          (PInt (Z.of_nat (length body))) md2 in
             parse_body data direction []
             = (if startswith (content_type_of md1) (lit "text/")
                   || startswith (content_type_of md1) (lit "application/json")
                   || startswith (content_type_of md1) (lit "application/xml")
                then dict_set (lit "body_preview")
                       (PStr (decode_utf8_ignore (take 100 body))) md3
                else md3, Return tt)).
Proof.
  destruct (http_head_run data direction) as (md1 & hs & Hhead & Hhs & Hkeys).
  exists md1, hs. split; [done|]. split; [done|]. split; [done|]. intros md2.
  unfold parse_body.
  destruct (contains data (CRLF ++ CRLF)) eqn:Hblank.
  - right. destruct (split_first x0d [x0a; x0d; x0a] data Hblank)
      as (head & body & Hdata & Hsplit & Hmin).
    exists head, body. split; [exact Hdata|]. split; [exact Hsplit|].
    split; [exact Hmin|]. cbv zeta.
    unfold mbind at 1. unfold parser_bind at 1. rewrite Hhead.
    cbv [mbind parser_bind get_metadata setitem].
    change (CRLF ++ CRLF) with [x0d; x0a; x0d; x0a]. rewrite Hsplit.
    destruct (_ || _); reflexivity.
  - left. split; [done|].
    unfold mbind at 1. unfold parser_bind at 1. rewrite Hhead.
    reflexivity.
Qed.

Lemma not_head_key (k : str) :
  k ∈ [lit "parse_error"; lit "content_type"; lit "body_length"; lit "body_preview"] →
  k ∉ head_keys.
Proof.
  rewrite !elem_of_cons, elem_of_nil. unfold head_keys.
  intros [->|[->|[->|[->|[]]]]]; apply (bool_decide_eq_false_1 _); vm_compute; reflexivity.
Qed.

(** X8.  Whatever the bytes and the direction, the body of the HTTP
    [parse_packet] raises nothing: the metadata never hold a
    ['parse_error'], and always hold a dictionary under ['headers'] and a
    string under ['content_type']. *)
Theorem http_parse_packet_never_fails (data : bytes) (direction : str) :
  ∃ metadata header_dict content_type,
    parse_packet data direction = Return metadata
    ∧ raised (parse_body data direction) = None
    ∧ dict_get (lit "parse_error") metadata = None
    ∧ dict_get (lit "headers") metadata = Some (PDict header_dict)
    ∧ dict_get (lit "content_type") metadata = Some (PStr content_type).
Proof.
  destruct (http_body_run data direction) as (md1 & hs & _ & Hhs & Hkeys & Hrun).
  pose proof (Hkeys (lit "parse_error") (not_head_key (lit "parse_error") ltac:(in_list))) as Herr.
  cbv zeta in Hrun.
  destruct Hrun as [[_ Hrun]|(head & body & _ & _ & _ & Hrun)];
    destruct (try_parse_run _ _ Hrun) as [Hparse Hraised];
    eexists _, hs, (content_type_of md1);
    (split; [exact Hparse|]); (split; [exact Hraised|]).
  - rewrite dict_get_set_eq, !dict_get_set_ne by lit_neq. done.
  - destruct (_ || _);
      rewrite ?(dict_get_set_ne _ (lit "body_preview")) by lit_neq;
      rewrite !(dict_get_set_ne _ (lit "body_length")) by lit_neq;
      rewrite dict_get_set_eq, !dict_get_set_ne by lit_neq; done.
Qed.

(** X9.  The body of an HTTP message is what follows the first empty line:
    when the bytes hold [CRLF CRLF], ['body_length'] is the number of bytes
    after its first occurrence, and ['body_preview'] is the decoded first
    100 bytes of them exactly when the content type starts with [text/],
    [application/json] or [application/xml]; when the bytes hold no
    [CRLF CRLF], neither entry is set. *)
Theorem http_body_length (data : bytes) (direction : str) :
  ∃ metadata content_type,
    parse_packet data direction = Return metadata
    ∧ dict_get (lit "content_type") metadata = Some (PStr content_type)
    ∧ (∀ head body,
         data = head ++ CRLF ++ CRLF ++ body →
         (∀ head' body', data = head' ++ CRLF ++ CRLF ++ body' →
                         (length head ≤ length head')%nat) →
         dict_get (lit "body_length") metadata
         = Some (PInt (Z.of_nat (length body)))
         ∧ dict_get (lit "body_preview") metadata
           = if startswith content_type (lit "text/")
                || startswith content_type (lit "application/json")
                || startswith content_type (lit "application/xml")
             then Some (PStr (decode_utf8_ignore (take 100 body)))
             else None)
    ∧ ((∀ head body, data ≠ head ++ CRLF ++ CRLF ++ body) →
       dict_get (lit "body_length") metadata = None
       ∧ dict_get (lit "body_preview") metadata = None).
Proof.
  destruct (http_body_run data direction) as (md1 & hs & _ & Hhs & Hkeys & Hrun).
  pose proof (Hkeys (lit "body_length") (not_head_key (lit "body_length") ltac:(in_list))) as Hlen.
  pose proof (Hkeys (lit "body_preview") (not_head_key (lit "body_preview") ltac:(in_list))) as Hpre.
  cbv zeta in Hrun.
  destruct Hrun as [[Hblank Hrun]|(head & body & Hdata & _ & Hmin & Hrun)];
    destruct (try_parse_run _ _ Hrun) as [Hparse _];
    eexists _, (content_type_of md1); (split; [exact Hparse|]).
  - split; [apply dict_get_set_eq|]. split.
    + intros head body Hdata _. rewrite Hdata, (app_assoc CRLF) in Hblank.
      now rewrite contains_app in Hblank.
    + intros _. now rewrite !dict_get_set_ne by lit_neq.
  - split; [|split].
    + destruct (_ || _);
        rewrite ?(dict_get_set_ne _ (lit "body_preview")) by lit_neq;
        rewrite !(dict_get_set_ne _ (lit "body_length")) by lit_neq;
        apply dict_get_set_eq.
    + intros head' body' Hdata' Hmin'.
      assert (head' = head ∧ body' = body) as [-> ->].
      { assert (data = head ++ CRLF ++ CRLF ++ body) as Hdata2
          by (rewrite Hdata; now rewrite <- (app_assoc CRLF)).
        assert (data = head' ++ (CRLF ++ CRLF) ++ body') as Hdata3
          by (rewrite Hdata'; now rewrite (app_assoc CRLF)).
        pose proof (Hmin' head body Hdata2) as Hge.
        pose proof (Hmin head' body' Hdata3) as Hle.
        rewrite Hdata in Hdata3. apply app_inj_1 in Hdata3 as [Hh Hb]; [|lia].
        split; [done|]. now apply app_inv_head in Hb. }
      destruct (_ || _).
      * rewrite dict_get_set_eq, dict_get_set_ne, dict_get_set_eq by lit_neq. done.
      * rewrite dict_get_set_eq, !dict_get_set_ne by lit_neq. done.
    + intros Hnone. destruct (Hnone head body).
      rewrite Hdata. now rewrite <- (app_assoc CRLF).
Qed.

(** *** Messages made of a first line, header lines, an empty line and a
    body *)

Lemma http_message_lines (first : str) (headers : list (str * str)) (body : bytes) :
  is_ascii first → 13%N ∉ first → Forall header_ok headers →
  split (encode_ascii first ++ CRLF
         ++ flat_map (fun h => encode_ascii (header_line h) ++ CRLF) headers
         ++ CRLF ++ body) CRLF None
  = encode_ascii first
    :: map (fun h => encode_ascii (header_line h)) headers
    ++ [] :: split body CRLF None.
Proof.
  intros Hascii Hcr Hheaders. unfold CRLF.
  rewrite (split_app x0d [x0a]); [|now apply cr_not_in_encode_ascii|done].
  f_equal. simpl. induction Hheaders as [|h headers Hh _ IH]; simpl.
  - apply (split_app x0d [x0a] None []); [apply not_elem_of_nil|done].
  - rewrite <- !app_assoc.
    destruct (header_line_ascii h Hh) as [Hhascii Hhcr].
    rewrite (split_app x0d [x0a]); [|now apply cr_not_in_encode_ascii|done].
    simpl. now rewrite IH.
Qed.

(** No separator that starts with [h] can start in a run without [h]. *)
Lemma split_pieces_pass {A : Type} `{EqDecision A} (h : A) (t l s : list A)
    (maxsplit : option nat) :
  h ∉ l →
  split_pieces (h :: t) maxsplit 0 (l ++ s)
  = (l ++ fst (split_pieces (h :: t) maxsplit 0 s),
     snd (split_pieces (h :: t) maxsplit 0 s)).
Proof.
  intros Hh. induction l as [|c l IH].
  - simpl. now destruct (split_pieces _ _ _ s).
  - apply not_elem_of_cons in Hh as [Hne Hh].
    rewrite <- app_comm_cons. cbn [split_pieces].
    rewrite startswith_cons_ne, andb_false_r by done.
    now rewrite (IH Hh).
Qed.

(** A line break followed by a line that is not empty is no empty line. *)
Lemma split_pieces_line_break (c : byte) (s : bytes) (maxsplit : option nat) :
  c ≠ x0d →
  split_pieces (CRLF ++ CRLF) maxsplit 0 (CRLF ++ c :: s)
  = (CRLF ++ fst (split_pieces (CRLF ++ CRLF) maxsplit 0 (c :: s)),
     snd (split_pieces (CRLF ++ CRLF) maxsplit 0 (c :: s))).
Proof.
  intros Hc. unfold CRLF. cbn [app].
  assert (startswith (x0d :: x0a :: c :: s) [x0d; x0a; x0d; x0a] = false) as Hcr.
  { cbn [startswith]. rewrite (bool_decide_eq_false_2 (x0d = c)) by done.
    now rewrite !andb_false_r. }
  assert (startswith (x0a :: c :: s) [x0d; x0a; x0d; x0a] = false) as Hlf.
  { apply startswith_cons_ne. discriminate. }
  remember (c :: s) as line.
  cbn [split_pieces]. rewrite Hcr, Hlf, !andb_false_r.
  now destruct (split_pieces _ _ _ line).
Qed.

Lemma http_message_shape (first : bytes) (headers : list (str * str))
    (body : bytes) :
  first ++ CRLF
  ++ flat_map (fun h => encode_ascii (header_line h) ++ CRLF) headers
  ++ CRLF ++ body
  = message_head first headers ++ (CRLF ++ CRLF) ++ body.
Proof.
  unfold message_head. revert first.
  induction headers as [|h headers IH]; intros first; cbn [flat_map].
  - rewrite app_nil_r. cbn [app]. now rewrite (app_assoc CRLF).
  - rewrite <- !app_assoc. rewrite (IH (encode_ascii (header_line h))).
    now rewrite <- !app_assoc.
Qed.

(** The first empty line of a message is the one that ends its head. *)
Lemma http_message_blank_line (first : bytes) (headers : list (str * str))
    (body : bytes) :
  x0d ∉ first → Forall header_ok headers →
  split (first ++ CRLF
         ++ flat_map (fun h => encode_ascii (header_line h) ++ CRLF) headers
         ++ CRLF ++ body) (CRLF ++ CRLF) (Some 1%nat)
  = [message_head first headers; body].
Proof.
  intros Hfirst Hheaders. unfold split, message_head. revert first Hfirst.
  induction Hheaders as [|h headers Hh _ IH]; intros first Hfirst.
  - simpl flat_map. rewrite app_nil_r. cbn [app].
    change (first ++ CRLF ++ CRLF ++ body)
      with (first ++ (x0d :: [x0a; x0d; x0a]) ++ body).
    change (CRLF ++ CRLF) with (x0d :: [x0a; x0d; x0a]).
    rewrite split_pieces_app by done.
    cbn [fmap option_fmap option_map pred]. now rewrite split_pieces_zero.
  - destruct (header_line_ascii h Hh) as [Hascii Hcr].
    pose proof (cr_not_in_encode_ascii _ Hascii Hcr) as Hline.
    destruct (encode_ascii (header_line h)) as [|c line] eqn:Hbytes.
    { unfold header_line, encode_ascii in Hbytes. rewrite !map_app in Hbytes.
      apply app_eq_nil in Hbytes as [_ Hbytes]. discriminate Hbytes. }
    assert (c ≠ x0d) as Hc.
    { intros ->. apply Hline. apply list_elem_of_here. }
    specialize (IH (c :: line) Hline).
    cbn [flat_map]. rewrite Hbytes.
    change (CRLF ++ CRLF) with (x0d :: [x0a; x0d; x0a]) in *.
    rewrite split_pieces_pass by done.
    rewrite <- !app_assoc.
    change (CRLF ++ (c :: line) ++ ?x) with (CRLF ++ c :: (line ++ x)).
    change (x0d :: [x0a; x0d; x0a]) with (CRLF ++ CRLF) in *.
    rewrite split_pieces_line_break by done.
    change (c :: line ++ ?x) with ((c :: line) ++ x).
    destruct (split_pieces (CRLF ++ CRLF) (Some 1%nat) 0
                ((c :: line) ++ CRLF ++ _)) as [piece pieces].
    injection IH as -> ->. reflexivity.
Qed.

(** The three parts of a status line; the message may hold spaces. *)
Lemma http_status_line_parts (version status_code status_message : str) :
  32%N ∉ version → 32%N ∉ status_code →
  split (version ++ lit " " ++ status_code ++ lit " " ++ status_message)
    (lit " ") (Some 2%nat)
  = [version; status_code; status_message].
Proof.
  intros Hv Hc. rewrite lit_space.
  rewrite split_app by done. cbn [fmap option_fmap option_map pred].
  rewrite split_app by done. cbn [fmap option_fmap option_map pred].
  now rewrite split_zero.
Qed.

(** The response branch on the bytes of a response. *)
Lemma http_parse_response_run (version status_code status_message : str)
    (headers : list (str * str)) (body : bytes) :
  PyTextLaws T →
  request_token version → request_token status_code →
  is_ascii status_message → 13%N ∉ status_message →
  Forall header_ok headers →
  ∃ md1,
    parse_response (response_bytes version status_code status_message headers body) []
    = (md1, Return tt)
    ∧ dict_get (lit "version") md1 = Some (PStr version)
    ∧ dict_get (lit "status_code") md1 = Some (PStr status_code)
    ∧ dict_get (lit "status_message") md1 = Some (PStr status_message)
    ∧ dict_get (lit "headers") md1 = Some (PDict (header_map headers [])).
Proof.
  intros Hlaws (Hv & Hvsp & Hvcr) (Hc & Hcsp & Hccr) Hm Hmcr Hheaders.
  assert (is_ascii (version ++ lit " " ++ status_code ++ lit " " ++ status_message))
    as Hascii.
  { rewrite !is_ascii_app. repeat split; try done; repeat constructor. }
  assert (13%N ∉ version ++ lit " " ++ status_code ++ lit " " ++ status_message)
    as Hcr.
  { rewrite !elem_of_app, lit_space, !list_elem_of_singleton.
    intros [?|[?|[?|[?|?]]]]; done. }
  unfold parse_response, response_bytes. cbv zeta.
  rewrite http_message_lines by done.
  cbn [tail]. rewrite decode_encode_ascii by done.
  rewrite http_status_line_parts by done.
  cbv [mbind parser_bind setitem].
  set (md0 := dict_set (lit "headers") (PDict []) _).
  destruct (http_header_lines_run headers Hlaws Hheaders
              (split body CRLF None) md0 []) as (md1 & Hrun & Hmap & Hkeep).
  { apply dict_get_set_eq. }
  exists md1. split; [exact Hrun|].
  rewrite !Hkeep by lit_neq. repeat split; try exact Hmap; reflexivity.
Qed.

(** The body of a message, from the run of [parse_packet] on it. *)
Lemma http_message_body_length (first : bytes) (headers : list (str * str))
    (body : bytes) (direction : str) :
  x0d ∉ first → Forall header_ok headers →
  let data := first ++ CRLF
              ++ flat_map (fun h => encode_ascii (header_line h) ++ CRLF) headers
              ++ CRLF ++ body in
  ∃ md1 metadata,
    (if bool_decide (direction = client_to_server) then parse_request data
     else parse_response data) [] = (md1, Return tt)
    ∧ parse_packet data direction = Return metadata
    ∧ dict_get (lit "body_length") metadata = Some (PInt (Z.of_nat (length body)))
    ∧ ∀ k, k ∈ head_keys → dict_get k metadata = dict_get k md1.
Proof.
  intros Hfirst Hheaders data.
  destruct (http_body_run data direction)
    as (md1 & hs & Hhead & Hhs & Hkeys & Hrun).
  exists md1. cbv zeta in Hrun.
  destruct Hrun as [[Hblank _]|(head & body' & _ & Hsplit & _ & Hrun)].
  { unfold data in Hblank.
    rewrite http_message_shape, contains_app in Hblank. discriminate Hblank. }
  unfold data in Hsplit. rewrite http_message_blank_line in Hsplit by done.
  injection Hsplit as <- <-.
  destruct (try_parse_run _ _ Hrun) as [Hparse _].
  eexists. split; [exact Hhead|]. split; [exact Hparse|]. split.
  - destruct (_ || _);
      rewrite ?(dict_get_set_ne _ (lit "body_preview")) by lit_neq;
      apply dict_get_set_eq.
  - intros k Hk. unfold head_keys in Hk.
    rewrite !elem_of_cons, elem_of_nil in Hk.
    destruct Hk as [->|[->|[->|[->|[->|[->|[]]]]]]];
      destruct (_ || _); rewrite !dict_get_set_ne by lit_neq; reflexivity.
Qed.

(** X10.  A response made of a status line, header lines, an empty line and
    a body is recovered in the direction server to client: the version, the
    status code and the status message (which may hold spaces), the header
    map, and the length of the body. *)
Theorem http_response_recovered (version status_code status_message : str)
    (headers : list (str * str)) (body : bytes) :
  PyTextLaws T →
  request_token version → request_token status_code →
  is_ascii status_message → 13%N ∉ status_message →
  Forall header_ok headers →
  ∃ metadata,
    parse_packet
      (response_bytes version status_code status_message headers body)
      server_to_client
    = Return metadata
    ∧ dict_get (lit "version") metadata = Some (PStr version)
    ∧ dict_get (lit "status_code") metadata = Some (PStr status_code)
    ∧ dict_get (lit "status_message") metadata = Some (PStr status_message)
    ∧ dict_get (lit "headers") metadata = Some (PDict (header_map headers []))
    ∧ dict_get (lit "body_length") metadata = Some (PInt (Z.of_nat (length body))).
Proof.
  intros Hlaws Hv Hc Hm Hmcr Hheaders.
  destruct (http_parse_response_run version status_code status_message headers
              body Hlaws Hv Hc Hm Hmcr Hheaders)
    as (md1 & Hhead & Hversion & Hcode & Hmessage & Hmap).
  destruct (http_message_body_length
              (encode_ascii (version ++ lit " " ++ status_code ++ lit " "
                               ++ status_message))
              headers body server_to_client)
    as (md1' & md & Hhead' & Hparse & Hlen & Hkeep); [|done|].
  { destruct Hv as (Hva & _ & Hvcr), Hc as (Hca & _ & Hccr).
    apply cr_not_in_encode_ascii.
    - rewrite !is_ascii_app. repeat split; try done; repeat constructor.
    - rewrite !elem_of_app, lit_space, !list_elem_of_singleton.
      intros [?|[?|[?|[?|?]]]]; done. }
  rewrite bool_decide_eq_false_2 in Hhead' by lit_neq.
  unfold response_bytes in Hhead. rewrite Hhead in Hhead'.
  injection Hhead' as <-. exists md. split; [exact Hparse|].
  rewrite !Hkeep by in_list. done.
Qed.

(** X11.  For a request made of a request line, header lines, an empty
    line and a body, ['body_length'] is the length of the body, even when
    the body itself holds empty lines. *)
Theorem http_request_body_length (method path version : str)
    (headers : list (str * str)) (body : bytes) :
  request_token method → request_token path → request_token version →
  Forall header_ok headers →
  ∃ metadata,
    parse_packet (request_bytes method path version headers body) client_to_server
    = Return metadata
    ∧ dict_get (lit "body_length") metadata = Some (PInt (Z.of_nat (length body))).
Proof.
  intros (Hm & _ & Hmcr) (Hp & _ & Hpcr) (Hv & _ & Hvcr) Hheaders.
  destruct (http_message_body_length
              (encode_ascii (method ++ lit " " ++ path ++ lit " " ++ version))
              headers body client_to_server)
    as (md1 & md & _ & Hparse & Hlen & _); [|done|].
  { apply cr_not_in_encode_ascii.
    - rewrite !is_ascii_app. repeat split; try done; repeat constructor.
    - rewrite !elem_of_app, lit_space, !list_elem_of_singleton.
      intros [?|[?|[?|[?|?]]]]; done. }
  exists md. split; [exact Hparse|exact Hlen].
Qed.

End HttpBody.

Lemma http_response_recovered_witness :
  let headers := [(lit "Content-Type", lit " text/html");
                  (lit "Set-Cookie", lit " a=1")] in
  let body := encode_ascii (lit "<p>not found</p>") in
  ∃ metadata,
    @Http.parse_packet ascii_text
      (Http.response_bytes (lit "HTTP/1.1") (lit "404") (lit "Not Found")
         headers body) server_to_client
    = Return metadata
    ∧ dict_get (lit "status_code") metadata = Some (PStr (lit "404"))
    ∧ dict_get (lit "status_message") metadata = Some (PStr (lit "Not Found"))
    ∧ dict_get (lit "body_length") metadata = Some (PInt 16).
Proof.
  intros headers body.
  destruct (@http_response_recovered ascii_text (lit "HTTP/1.1") (lit "404")
              (lit "Not Found") headers body ascii_text_laws)
    as (md & Hrun & _ & Hcode & Hmessage & _ & Hlength).
  - token_ok.
  - token_ok.
  - ascii_ok.
  - by_evaluation.
  - unfold headers, Http.header_ok, is_ascii. repeat constructor; by_evaluation.
  - exists md. repeat split; done.
Defined.

Lemma http_request_body_length_witness :
  let headers := [(lit "Host", lit " example.com");
                  (lit "Content-Type", lit " application/json")] in
  let body := encode_ascii (lit "{}") ++ Http.CRLF ++ Http.CRLF in
  ∃ metadata,
    @Http.parse_packet ascii_text
      (Http.request_bytes (lit "POST") (lit "/items") (lit "HTTP/1.1")
         headers body) client_to_server
    = Return metadata
    ∧ dict_get (lit "body_length") metadata = Some (PInt 6).
Proof.
  intros headers body.
  apply (@http_request_body_length ascii_text (lit "POST") (lit "/items")
           (lit "HTTP/1.1") headers body).
  - token_ok.
  - token_ok.
  - token_ok.
  - unfold headers, Http.header_ok, is_ascii. repeat constructor; by_evaluation.
Defined.

(** ** [src/protocols/http.py]: where the handler connects *)

Section HttpTarget.
Context `{T : PyText} `{U : HttpSetup.PyUrl}.
Import Http HttpSetup.

Lemma span_line_value (value rest : bytes) (b : byte) :
  x0d ∉ value → x0a ∉ value → b = x0d ∨ b = x0a →
  span_line (value ++ b :: rest) = value.
Proof.
  intros Hcr Hlf Hb. induction value as [|c value IH]; simpl.
  - destruct Hb as [-> | ->]; reflexivity.
  - apply not_elem_of_cons in Hcr as [Hc1 Hcr], Hlf as [Hc2 Hlf].
    rewrite !bool_decide_eq_false_2 by done. simpl. now rewrite IH.
Qed.

(** The search finds the first [Host: ] that a value follows. *)
Lemma search_host_found (pre value rest : bytes) (b : byte) :
  contains (pre ++ encode_ascii (lit "Host:")) (encode_ascii (lit "Host: ")) = false →
  value ≠ [] → x0d ∉ value → x0a ∉ value → b = x0d ∨ b = x0a →
  search_host (pre ++ encode_ascii (lit "Host: ") ++ value ++ b :: rest)
  = Some value.
Proof.
  intros Hpre Hvalue Hcr Hlf Hb.
  assert (match_host (encode_ascii (lit "Host: ") ++ value ++ b :: rest)
          = Some value) as Hhere.
  { unfold match_host. rewrite startswith_app.
    change (drop 6 (encode_ascii (lit "Host: ") ++ ?x)) with x.
    rewrite span_line_value by done. now rewrite bool_decide_eq_false_2. }
  induction pre as [|c pre IH].
  - cbn [app]. destruct (encode_ascii (lit "Host: ") ++ value ++ b :: rest)
      eqn:Hdata; [discriminate Hhere|].
    cbn [search_host]. now rewrite Hhere.
  - cbn [app contains] in Hpre. apply orb_false_iff in Hpre as [Hstart Hpre].
    specialize (IH Hpre). cbn [app search_host].
    assert (match_host (c :: pre ++ encode_ascii (lit "Host: ") ++ value ++ b :: rest)
            = None) as ->; [|exact IH].
    unfold match_host.
    change (encode_ascii (lit "Host: ") ++ value ++ b :: rest)
      with (encode_ascii (lit "Host:") ++ (x20 :: value ++ b :: rest)).
    rewrite (app_assoc pre), app_comm_cons.
    rewrite startswith_app_long; [now rewrite Hstart|].
    simpl. rewrite length_app. simpl. lia.
Qed.

Lemma numeral_no_colon (d : str) : Ftp.numeral d → 58%N ∉ d.
Proof.
  intros [_ Hd] Hin. rewrite Forall_forall in Hd. specialize (Hd _ Hin).
  discriminate Hd.
Qed.

(** Host and port, from a text [host:port] or [host]. *)
Lemma host_and_port_numeral (host port : str) (default : Z) :
  PyUrlLaws U → 58%N ∉ host → Ftp.numeral port → (length port ≤ 4300)%nat →
  host_and_port (host ++ lit ":" ++ port) default
  = Return (Some host, Some (Ftp.numeral_value port))
  ∧ host_and_port host default = Return (Some host, Some default).
Proof.
  intros Hlaws Hhost Hport Hlen. unfold host_and_port. rewrite lit_colon. split.
  - rewrite split_app by done. change (pred <$> None) with (@None nat).
    rewrite split_none by now apply numeral_no_colon.
    cbn. now rewrite (int_of_numeral U Hlaws).
  - now rewrite split_none.
Qed.

Lemma setup_target (host : str) (port : Z) (header_data : bytes) :
  determine_target header_data = Return (Some host, Some port) →
  host ≠ [] → port ≠ 0 →
  _setup_server_connection header_data = Return (Target host port).
Proof.
  intros Hfound Hhost Hport. unfold _setup_server_connection. rewrite Hfound.
  cbn [mbind outcome_bind]. rewrite (bool_decide_eq_false_2 _ Hhost).
  destruct (Z.eqb_spec port 0); [contradiction|reflexivity].
Qed.

(** X12.  For a [CONNECT host:port] request the handler connects to that
    host and port; for a [CONNECT host] request without a port, to port
    443. *)
Theorem http_connect_target (host port version : str) (rest : bytes) :
  PyTextLaws T → PyUrlLaws U →
  host ≠ [] → is_ascii host → 32%N ∉ host → 58%N ∉ host → 13%N ∉ host →
  Ftp.numeral port → (length port ≤ 4300)%nat → Ftp.numeral_value port ≠ 0 →
  is_ascii version → 13%N ∉ version →
  _setup_server_connection
    (encode_ascii (lit "CONNECT " ++ host ++ lit ":" ++ port ++ lit " " ++ version)
     ++ CRLF ++ rest)
  = Return (Target host (Ftp.numeral_value port))
  ∧ _setup_server_connection
      (encode_ascii (lit "CONNECT " ++ host ++ lit " " ++ version) ++ CRLF ++ rest)
    = Return (Target host 443).
Proof.
  intros Hlaws Hurl Hne Hhost Hsp Hcolon Hcr Hport Hlen Hvalue Hversion Hvcr.
  destruct (host_and_port_numeral host port 443 Hurl Hcolon Hport Hlen)
    as [Hwith Hwithout].
  pose proof (numeral_ascii port Hport) as Hpascii.
  assert ((13%N ∉ port) ∧ (32%N ∉ port)) as [Hpcr Hpsp].
  { destruct Hport as [_ Hd]. rewrite Forall_forall in Hd.
    split; intros Hin; specialize (Hd _ Hin); discriminate Hd. }
  assert (∀ host_port : str,
            is_ascii host_port → 13%N ∉ host_port → 32%N ∉ host_port →
            determine_target
              (encode_ascii (lit "CONNECT " ++ host_port ++ lit " " ++ version)
               ++ CRLF ++ rest)
            = host_and_port host_port 443) as Hline.
  { intros host_port Hascii Hhcr Hhsp.
    assert (is_ascii (lit "CONNECT " ++ host_port ++ lit " " ++ version)) as Hall.
    { rewrite !is_ascii_app. repeat split; try done; repeat constructor. }
    assert (13%N ∉ lit "CONNECT " ++ host_port ++ lit " " ++ version) as Hallcr.
    { rewrite !elem_of_app, lit_space, list_elem_of_singleton.
      intros [Hin|[?|[?|?]]]; try done.
      revert Hin. apply (bool_decide_eq_false_1 _). vm_compute. reflexivity. }
    unfold determine_target.
    rewrite encode_ascii_app at 1. rewrite <- app_assoc, startswith_app.
    unfold CRLF. rewrite (split_app x0d [x0a]);
      [|now apply cr_not_in_encode_ascii|done].
    cbn [index lookup list_lookup mbind outcome_bind].
    rewrite decode_encode_ascii by done.
    change (lit "CONNECT " ++ host_port ++ lit " " ++ version)
      with (lit "CONNECT" ++ lit " " ++ host_port ++ lit " " ++ version).
    rewrite lit_space.
    rewrite (split_app 32%N []);
      [|apply (bool_decide_eq_false_1 _); vm_compute; reflexivity|done].
    change (pred <$> None) with (@None nat).
    rewrite (split_app 32%N []) by done.
    cbv zeta. rewrite bool_decide_eq_true_2 by (simpl; lia).
    reflexivity. }
  split.
  - apply setup_target; [|done..].
    rewrite <- Hwith.
    replace (lit "CONNECT " ++ host ++ lit ":" ++ port ++ lit " " ++ version)
      with (lit "CONNECT " ++ (host ++ lit ":" ++ port) ++ lit " " ++ version)
      by now rewrite <- !app_assoc.
    apply Hline.
    + rewrite !is_ascii_app. repeat split; try done; repeat constructor.
    + rewrite !elem_of_app, lit_colon, list_elem_of_singleton.
      intros [?|[?|?]]; done.
    + rewrite !elem_of_app, lit_colon, list_elem_of_singleton.
      intros [?|[?|?]]; done.
  - apply setup_target; [|done..].
    rewrite <- Hwithout. now apply Hline.
Qed.

(** X13.  For a request other than [CONNECT] the handler connects where
    the first [Host: ] header says: to the host and the port of
    [Host: host:port], and to port 80 for [Host: host]. *)
Theorem http_host_header_target (pre : bytes) (host port : str) (rest : bytes) :
  PyTextLaws T → PyUrlLaws U →
  contains (pre ++ encode_ascii (lit "Host:")) (encode_ascii (lit "Host: ")) = false →
  host ≠ [] → is_ascii host → 58%N ∉ host → 13%N ∉ host → 10%N ∉ host →
  Ftp.numeral port → (length port ≤ 4300)%nat → Ftp.numeral_value port ≠ 0 →
  (startswith
     (pre ++ encode_ascii (lit "Host: " ++ host ++ lit ":" ++ port) ++ CRLF ++ rest)
     (encode_ascii (lit "CONNECT ")) = false →
   _setup_server_connection
     (pre ++ encode_ascii (lit "Host: " ++ host ++ lit ":" ++ port) ++ CRLF ++ rest)
   = Return (Target host (Ftp.numeral_value port)))
  ∧ (startswith
       (pre ++ encode_ascii (lit "Host: " ++ host) ++ CRLF ++ rest)
       (encode_ascii (lit "CONNECT ")) = false →
     _setup_server_connection
       (pre ++ encode_ascii (lit "Host: " ++ host) ++ CRLF ++ rest)
     = Return (Target host 80)).
Proof.
  intros Hlaws Hurl Hpre Hne Hhost Hcolon Hcr Hlf Hport Hlen Hvalue.
  destruct (host_and_port_numeral host port 80 Hurl Hcolon Hport Hlen)
    as [Hwith Hwithout].
  pose proof (numeral_ascii port Hport) as Hpascii.
  assert ((13%N ∉ port) ∧ (10%N ∉ port)) as [Hpcr Hplf].
  { destruct Hport as [_ Hd]. rewrite Forall_forall in Hd.
    split; intros Hin; specialize (Hd _ Hin); discriminate Hd. }
  assert (∀ value : str,
            value ≠ [] → is_ascii value → 13%N ∉ value → 10%N ∉ value →
            startswith
              (pre ++ encode_ascii (lit "Host: " ++ value) ++ CRLF ++ rest)
              (encode_ascii (lit "CONNECT ")) = false →
            determine_target
              (pre ++ encode_ascii (lit "Host: " ++ value) ++ CRLF ++ rest)
            = host_and_port value 80) as Hline.
  { intros value Hvne Hascii Hvcr Hvlf Hstart.
    unfold determine_target. rewrite Hstart.
    rewrite encode_ascii_app, <- !app_assoc.
    unfold CRLF. cbn [app].
    rewrite (search_host_found pre (encode_ascii value) (x0a :: rest) x0d); auto.
    - now rewrite decode_encode_ascii.
    - intros Hnil. apply Hvne. now destruct value.
    - now apply cr_not_in_encode_ascii.
    - intros Hin. apply Hvlf. unfold encode_ascii in Hin.
      apply list_elem_of_fmap in Hin as (c & Hc & Hin).
      unfold is_ascii in Hascii. rewrite Forall_forall in Hascii.
      specialize (Hascii c Hin).
      assert (c = 10%N) as <-; [|done].
      rewrite <- (char_of_byte_of_char c) by lia. now rewrite <- Hc. }
  split; intros Hstart.
  - apply setup_target; [|done..].
    rewrite <- Hwith.
    replace (lit "Host: " ++ host ++ lit ":" ++ port)
      with (lit "Host: " ++ (host ++ lit ":" ++ port)) in * by done.
    apply Hline; try done.
    + intros Hnil. apply app_eq_nil in Hnil as [? _]. contradiction.
    + rewrite !is_ascii_app. repeat split; try done; repeat constructor.
    + rewrite !elem_of_app, lit_colon, list_elem_of_singleton.
      intros [?|[?|?]]; done.
    + rewrite !elem_of_app, lit_colon, list_elem_of_singleton.
      intros [?|[?|?]]; done.
  - apply setup_target; [|done..].
    rewrite <- Hwithout. now apply Hline.
Qed.

End HttpTarget.

(** The ASCII services satisfy the law of [int]. *)
Lemma ascii_url_laws : HttpSetup.PyUrlLaws HttpSetup.ascii_url.
Proof.
  split. intros d Hd _.
  exact (@int_of_str_numeral ascii_text d ascii_text_laws Hd).
Qed.

Lemma http_connect_target_witness :
  @HttpSetup._setup_server_connection ascii_text HttpSetup.ascii_url
    (encode_ascii (lit "CONNECT example.com:8443 HTTP/1.1") ++ Http.CRLF
     ++ encode_ascii (lit "Host: example.com:8443") ++ Http.CRLF ++ Http.CRLF)
  = Return (HttpSetup.Target (lit "example.com") 8443)
  ∧ @HttpSetup._setup_server_connection ascii_text HttpSetup.ascii_url
      (encode_ascii (lit "CONNECT example.com HTTP/1.1") ++ Http.CRLF
       ++ encode_ascii (lit "Host: example.com:8443") ++ Http.CRLF ++ Http.CRLF)
    = Return (HttpSetup.Target (lit "example.com") 443).
Proof.
  apply (@http_connect_target ascii_text HttpSetup.ascii_url (lit "example.com")
           (lit "8443") (lit "HTTP/1.1")
           (encode_ascii (lit "Host: example.com:8443") ++ Http.CRLF ++ Http.CRLF)
           ascii_text_laws ascii_url_laws).
  - discriminate.
  - ascii_ok.
  - by_evaluation.
  - by_evaluation.
  - by_evaluation.
  - unfold Ftp.numeral. split; [discriminate|repeat constructor].
  - simpl. lia.
  - vm_compute. discriminate.
  - ascii_ok.
  - by_evaluation.
Defined.

Lemma http_host_header_target_witness :
  let pre := encode_ascii (lit "GET /index.html HTTP/1.1") ++ Http.CRLF
             ++ encode_ascii (lit "Accept: */*") ++ Http.CRLF in
  @HttpSetup._setup_server_connection ascii_text HttpSetup.ascii_url
    (pre ++ encode_ascii (lit "Host: example.com:8080") ++ Http.CRLF ++ Http.CRLF)
  = Return (HttpSetup.Target (lit "example.com") 8080)
  ∧ @HttpSetup._setup_server_connection ascii_text HttpSetup.ascii_url
      (pre ++ encode_ascii (lit "Host: example.com") ++ Http.CRLF ++ Http.CRLF)
    = Return (HttpSetup.Target (lit "example.com") 80).
Proof.
  intros pre.
  destruct (@http_host_header_target ascii_text HttpSetup.ascii_url pre
              (lit "example.com") (lit "8080") (Http.CRLF)
              ascii_text_laws ascii_url_laws) as [Hwith Hwithout].
  - vm_compute. reflexivity.
  - discriminate.
  - ascii_ok.
  - by_evaluation.
  - by_evaluation.
  - by_evaluation.
  - unfold Ftp.numeral. split; [discriminate|repeat constructor].
  - simpl. lia.
  - vm_compute. discriminate.
  - split; [apply Hwith | apply Hwithout]; vm_compute; reflexivity.
Defined.

(** ** [src/protocols/ftp.py]: commands, responses, the data connection *)

Section FtpCommands.
Context `{T : PyText}.
Import Ftp.

(** The command branch, from the parts that [text.split(' ', 1)] finds. *)
Lemma ftp_command_run (text part0 : str) (more : list str) :
  split text (lit " ") (Some 1%nat) = part0 :: more →
  let command := str_upper part0 in
  ∃ md,
    parse_command text [] = (md, Return tt)
    ∧ dict_get (lit "command") md = Some (PStr command)
    ∧ dict_get (lit "parse_error") md = None
    ∧ dict_get (lit "argument") md = PStr <$> head more
    ∧ dict_get (lit "username") md
      = (if bool_decide (command = lit "USER")
         then Some (PStr (default [] (head more))) else None)
    ∧ dict_get (lit "password") md
      = (if bool_decide (command = lit "PASS")
         then Some (PStr (lit "********")) else None)
    ∧ dict_get (lit "directory_operation") md
      = (if bool_decide (command ∈ [lit "CWD"; lit "CDUP"; lit "PWD"])
         then Some (PBool true) else None)
    ∧ dict_get (lit "data_channel_operation") md
      = (if bool_decide (command ∈ [lit "RETR"; lit "STOR"; lit "LIST"; lit "NLST"])
         then Some (PBool true) else None)
    ∧ dict_get (lit "filename") md
      = (if bool_decide (command ∈ [lit "RETR"; lit "STOR"])
         then PStr <$> head more else None).
Proof.
  intros Hparts command. unfold parse_command. rewrite Hparts. cbv zeta.
  change (index (part0 :: more) 0) with (Return part0 : outcome str).
  lazymatch goal with
  | |- context [lift (Return part0) ≫= ?f] =>
      change (lift (Return part0) ≫= f) with (f part0)
  end.
  cbv beta. fold command. clearbody command. clear Hparts text.
  assert (∃ arg : option str,
            head more = arg
            ∧ bool_decide (1 < length (part0 :: more))%nat = bool_decide (is_Some arg)
            ∧ index (part0 :: more) 1
              = from_option Return (Raise (IndexError (lit "index out of range"))) arg)
    as (arg & -> & -> & ->).
  { destruct more as [|part1 more]; eexists; (split; [reflexivity|]); split;
      try reflexivity; apply bool_decide_ext; cbn [length];
      rewrite ?is_Some_alt; split; (lia || done || (intros []; lia) || eauto). }
  destruct (decide (command = lit "USER")) as [->|Huser].
  { destruct arg; eexists; (split; [vm_compute; reflexivity|]);
      repeat split; vm_compute; reflexivity. }
  destruct (decide (command = lit "PASS")) as [->|Hpass].
  { destruct arg; eexists; (split; [vm_compute; reflexivity|]);
      repeat split; vm_compute; reflexivity. }
  destruct (decide (command ∈ [lit "CWD"; lit "CDUP"; lit "PWD"])) as [Hdir|Hdir].
  { rewrite !elem_of_cons, elem_of_nil in Hdir.
    destruct Hdir as [->|[->|[->|[]]]];
      destruct arg; eexists; (split; [vm_compute; reflexivity|]);
      repeat split; vm_compute; reflexivity. }
  destruct (decide (command ∈ [lit "RETR"; lit "STOR"; lit "LIST"; lit "NLST"]))
    as [Hdata|Hdata].
  { rewrite !elem_of_cons, elem_of_nil in Hdata.
    destruct Hdata as [->|[->|[->|[->|[]]]]];
      destruct arg; eexists; (split; [vm_compute; reflexivity|]);
      repeat split; vm_compute; reflexivity. }
  assert (command ∉ [lit "RETR"; lit "STOR"]) as Hfile.
  { intros Hin. apply Hdata. rewrite !elem_of_cons in *. tauto. }
  destruct (bool_decide (command = lit "USER")) eqn:E1;
    [apply bool_decide_eq_true in E1; contradiction|].
  destruct (bool_decide (command = lit "PASS")) eqn:E2;
    [apply bool_decide_eq_true in E2; contradiction|].
  destruct (bool_decide (command ∈ [lit "CWD"; lit "CDUP"; lit "PWD"])) eqn:E3;
    [apply bool_decide_eq_true in E3; contradiction|].
  destruct (bool_decide (command ∈ [lit "RETR"; lit "STOR"; lit "LIST"; lit "NLST"]))
    eqn:E4; [apply bool_decide_eq_true in E4; contradiction|].
  destruct (bool_decide (command ∈ [lit "RETR"; lit "STOR"])) eqn:E5;
    [apply bool_decide_eq_true in E5; contradiction|].
  destruct arg; eexists; (split; [reflexivity|]); repeat split.
Qed.

Lemma ftp_parse_command_packet (data : bytes) (md : dict) :
  parse_command (strip (decode_utf8_ignore data)) [] = (md, Return tt) →
  parse_packet data client_to_server = Return md
  ∧ raised (parse_body data client_to_server) = None.
Proof.
  intros Hrun. apply try_parse_run.
  cbn [Base.parse_body FTPProtocolHandler]. unfold parse_body.
  now rewrite bool_decide_eq_true_2.
Qed.

(** X14.  An FTP command line [cmd arg]: the command is recorded in upper
    case and the argument as written; the argument is also the user name
    after [USER] and the file name after [RETR] and [STOR] (and after no
    other command), while the argument of [PASS] is recorded under
    ['password'] as eight asterisks. *)
Theorem ftp_command_with_argument (data : bytes) (cmd arg : str) :
  strip (decode_utf8_ignore data) = cmd ++ lit " " ++ arg →
  32%N ∉ cmd →
  let command := str_upper cmd in
  ∃ metadata,
    parse_packet data client_to_server = Return metadata
    ∧ dict_get (lit "command") metadata = Some (PStr command)
    ∧ dict_get (lit "argument") metadata = Some (PStr arg)
    ∧ (command = lit "USER" →
       dict_get (lit "username") metadata = Some (PStr arg))
    ∧ (command = lit "PASS" →
       dict_get (lit "password") metadata = Some (PStr (lit "********")))
    ∧ (command ∈ [lit "RETR"; lit "STOR"] →
       dict_get (lit "filename") metadata = Some (PStr arg)
       ∧ dict_get (lit "data_channel_operation") metadata = Some (PBool true))
    ∧ (command ∉ [lit "RETR"; lit "STOR"] →
       dict_get (lit "filename") metadata = None).
Proof.
  intros Htext Hcmd command.
  destruct (ftp_command_run (strip (decode_utf8_ignore data)) cmd [arg])
    as (md & Hrun & Hcommand & _ & Harg & Huser & Hpass & _ & Hchannel & Hfile).
  { rewrite Htext, lit_space, split_app by done.
    cbn [fmap option_fmap option_map pred]. now rewrite split_zero. }
  destruct (ftp_parse_command_packet data md Hrun) as [Hparse _].
  exists md. split; [exact Hparse|]. fold command in Hcommand, Huser, Hpass,
    Hchannel, Hfile.
  split; [exact Hcommand|]. split; [exact Harg|]. split; [|split; [|split]].
  - intros Hc. now rewrite Huser, bool_decide_eq_true_2.
  - intros Hc. now rewrite Hpass, bool_decide_eq_true_2.
  - intros Hc. split; [now rewrite Hfile, bool_decide_eq_true_2|].
    rewrite Hchannel, bool_decide_eq_true_2; [done|].
    rewrite !elem_of_cons in *. tauto.
  - intros Hc. now rewrite Hfile, bool_decide_eq_false_2.
Qed.

(** X15.  An FTP command line without a space: the command is recorded,
    no argument and no file name are, and the user name of a bare [USER] is
    the empty string. *)
Theorem ftp_command_without_argument (data : bytes) :
  32%N ∉ strip (decode_utf8_ignore data) →
  let command := str_upper (strip (decode_utf8_ignore data)) in
  ∃ metadata,
    parse_packet data client_to_server = Return metadata
    ∧ dict_get (lit "command") metadata = Some (PStr command)
    ∧ dict_get (lit "argument") metadata = None
    ∧ dict_get (lit "filename") metadata = None
    ∧ (command = lit "USER" →
       dict_get (lit "username") metadata = Some (PStr [])).
Proof.
  intros Htext command.
  destruct (ftp_command_run (strip (decode_utf8_ignore data))
              (strip (decode_utf8_ignore data)) [])
    as (md & Hrun & Hcommand & _ & Harg & Huser & _ & _ & _ & Hfile).
  { rewrite lit_space. now apply split_none. }
  destruct (ftp_parse_command_packet data md Hrun) as [Hparse _].
  exists md. split; [exact Hparse|]. fold command in Hcommand, Huser, Hfile.
  split; [exact Hcommand|]. split; [exact Harg|]. split.
  - rewrite Hfile. destruct (bool_decide (command ∈ _)); reflexivity.
  - intros Hc. now rewrite Huser, bool_decide_eq_true_2.
Qed.

(** X16.  Whatever the bytes, parsing them as an FTP command raises
    nothing: the metadata hold a ['command'] and no ['parse_error']. *)
Theorem ftp_command_never_fails (data : bytes) :
  ∃ metadata command,
    parse_packet data client_to_server = Return metadata
    ∧ raised (parse_body data client_to_server) = None
    ∧ dict_get (lit "command") metadata = Some (PStr command)
    ∧ dict_get (lit "parse_error") metadata = None.
Proof.
  assert (∃ part0 more,
            split (strip (decode_utf8_ignore data)) (lit " ") (Some 1%nat)
            = part0 :: more) as (part0 & more & Hparts).
  { unfold split. destruct (split_pieces _ _ _ _). eauto. }
  destruct (ftp_command_run _ part0 more Hparts)
    as (md & Hrun & Hcommand & Herr & _).
  destruct (ftp_parse_command_packet data md Hrun) as [Hparse Hraised].
  now exists md, (str_upper part0).
Qed.

End FtpCommands.

Section FtpResponses.
Context `{T : PyText}.
Import Ftp.

(** The first word of a text, as [text.split(' ', 1)] finds it. *)
Lemma ftp_first_word (word rest : str) :
  32%N ∉ word → rest = [] ∨ head rest = Some 32%N →
  ∃ more, split (word ++ rest) (lit " ") (Some 1%nat) = word :: more.
Proof.
  intros Hword [->|Hrest]; rewrite lit_space.
  - rewrite app_nil_r, split_none by done. eauto.
  - destruct rest as [|c rest]; [discriminate Hrest|]. injection Hrest as ->.
    change (word ++ 32%N :: rest) with (word ++ [32%N] ++ rest).
    rewrite split_app by done. eauto.
Qed.

(** X17.  A line from the server whose first word is not made of digits
    yields empty metadata. *)
Theorem ftp_response_without_code (data : bytes) (word rest : str) :
  strip (decode_utf8_ignore data) = word ++ rest →
  32%N ∉ word → rest = [] ∨ head rest = Some 32%N →
  isdigit word = false →
  parse_packet data server_to_client = Return [].
Proof.
  intros Htext Hword Hrest Hdigit.
  destruct (ftp_first_word word rest Hword Hrest) as [more Hsplit].
  unfold parse_packet, Base.parse_packet, try_parse.
  cbn [Base.parse_body FTPProtocolHandler]. unfold parse_body.
  rewrite bool_decide_eq_false_2 by lit_neq.
  unfold parse_response. rewrite Htext, Hsplit, Hdigit. reflexivity.
Qed.

(** The response branch on a line that starts with a code and a space. *)
Lemma ftp_response_shape (code message : str) (c : char) (digits : str) :
  32%N ∉ code → isdigit code = true → code = c :: digits →
  parse_response (code ++ lit " " ++ message)
  = (setitem (lit "response_code") (PStr code);;
     setitem (lit "response_message") (PStr message);;
     (if bool_decide (c = 49%N) then
        setitem (lit "response_type") (PStr (lit "preliminary"))
      else if bool_decide (c = 50%N) then
        setitem (lit "response_type") (PStr (lit "completion"))
      else if bool_decide (c = 51%N) then
        setitem (lit "response_type") (PStr (lit "intermediate"))
      else if bool_decide (c = 52%N) then
        setitem (lit "response_type") (PStr (lit "transient_negative"))
      else if bool_decide (c = 53%N) then
        setitem (lit "response_type") (PStr (lit "permanent_negative"))
      else mret tt);;
     if bool_decide (code = lit "227") then
       match search_pasv (code ++ lit " " ++ message) with
       | Some groups =>
           endpoint ← lift (passive_endpoint groups);
           setitem (lit "passive_ip") (PStr (fst endpoint));;
           setitem (lit "passive_port") (PInt (snd endpoint))
       | None => mret tt
       end
     else mret tt).
Proof.
  intros Hcode Hdigit Hshape. unfold parse_response.
  assert (split (code ++ lit " " ++ message) (lit " ") (Some 1%nat)
          = [code; message]) as ->.
  { rewrite lit_space, split_app by done.
    cbn [fmap option_fmap option_map pred]. now rewrite split_zero. }
  rewrite Hdigit. subst code. reflexivity.
Qed.

(** X18.  A line from the server that starts with a numeric code and a
    space: the code and the message are recorded, and the response type
    follows the first digit of the code (1 preliminary, 2 completion,
    3 intermediate, 4 transient negative, 5 permanent negative, none for
    any other digit). *)
Theorem ftp_response_classified (data : bytes) (code message : str)
    (c : char) (digits : str) :
  strip (decode_utf8_ignore data) = code ++ lit " " ++ message →
  32%N ∉ code → isdigit code = true → code = c :: digits →
  ∃ metadata,
    parse_packet data server_to_client = Return metadata
    ∧ dict_get (lit "response_code") metadata = Some (PStr code)
    ∧ dict_get (lit "response_message") metadata = Some (PStr message)
    ∧ dict_get (lit "response_type") metadata
      = (if bool_decide (c = 49%N) then Some (PStr (lit "preliminary"))
         else if bool_decide (c = 50%N) then Some (PStr (lit "completion"))
         else if bool_decide (c = 51%N) then Some (PStr (lit "intermediate"))
         else if bool_decide (c = 52%N) then Some (PStr (lit "transient_negative"))
         else if bool_decide (c = 53%N) then Some (PStr (lit "permanent_negative"))
         else None).
Proof.
  intros Htext Hcode Hdigit Hshape.
  destruct (try_parse_entries (parse_body data server_to_client)
              (ftp_body_terminates _ _)) as (md & Hrun & Hsome & Hnone).
  exists md. split; [exact Hrun|].
  assert (parse_body data server_to_client
          = parse_response (code ++ lit " " ++ message)) as Hbody.
  { unfold parse_body. rewrite bool_decide_eq_false_2 by lit_neq.
    now rewrite Htext. }
  rewrite Hbody, (ftp_response_shape code message c digits) in Hsome, Hnone
    by done.
  split; [|split].
  - apply Hsome; [lit_neq|]. apply assigns_here. intros _. repeat keeps_step.
  - apply Hsome; [lit_neq|].
    apply assigns_later; [apply returns_setitem|intros _].
    apply assigns_here. intros _. repeat keeps_step.
  - revert Hsome Hnone. repeat case_bool_decide; intros Hsome Hnone;
      first
        [ apply Hsome; [lit_neq|];
          do 2 (apply assigns_later; [apply returns_setitem|intros _]);
          apply assigns_before;
          [apply assigns_setitem|intros _; repeat keeps_step]
        | apply Hnone; [lit_neq|]; repeat keeps_step ].
Qed.

(** X19.  For a [227 Entering Passive Mode] response, the relay loop and
    [parse_packet] agree: the endpoint that the loop hands to
    [_handle_data_connection] is the one recorded under ['passive_ip'] and
    ['passive_port'], and when the loop opens no data connection the
    metadata hold neither entry. *)
Theorem ftp_data_connection_matches_metadata (data : bytes) (rest : str) :
  PyTextLaws T →
  strip (decode_utf8_ignore data) = lit "227 Entering Passive Mode" ++ rest →
  ∃ metadata,
    parse_packet data server_to_client = Return metadata
    ∧ match watch_pasv_response data with
      | Some (passive_ip, passive_port) =>
          dict_get (lit "passive_ip") metadata = Some (PStr passive_ip)
          ∧ dict_get (lit "passive_port") metadata = Some (PInt passive_port)
      | None =>
          dict_get (lit "passive_ip") metadata = None
          ∧ dict_get (lit "passive_port") metadata = None
      end.
Proof.
  intros Hlaws Htext.
  set (message := lit "Entering Passive Mode" ++ rest).
  assert (strip (decode_utf8_ignore data) = lit "227" ++ lit " " ++ message)
    as Htext' by (rewrite Htext; reflexivity).
  assert (isdigit (lit "227") = true) as Hdigit.
  { unfold isdigit. cbn [forallb lit map list_ascii_of_string].
    rewrite !(isdigit_ascii T Hlaws) by reflexivity. reflexivity. }
  assert (parse_body data server_to_client
          = parse_response (lit "227" ++ lit " " ++ message)) as Hbody.
  { unfold parse_body. rewrite bool_decide_eq_false_2 by lit_neq.
    now rewrite Htext'. }
  unfold parse_packet, Base.parse_packet.
  cbn [Base.parse_body FTPProtocolHandler].
  rewrite Hbody, (ftp_response_shape (lit "227") message 50%N (lit "27"));
    [|apply (bool_decide_eq_true_1 _); vm_compute; reflexivity|done..].
  unfold watch_pasv_response, _handle_pasv_response. cbv zeta.
  rewrite Htext.
  rewrite (contains_startswith _ _ (startswith_app rest _)).
  change (lit "227" ++ lit " " ++ message)
    with (lit "227 Entering Passive Mode" ++ rest).
  destruct (search_pasv (lit "227 Entering Passive Mode" ++ rest)) as [groups|].
  - pose proof (passive_endpoint_finishes groups) as Hfin.
    destruct (passive_endpoint groups) as [[ip port]|e|]; [| |done];
      eexists; (split; [reflexivity|]); split; reflexivity.
  - eexists. split; [reflexivity|]. split; reflexivity.
Qed.

End FtpResponses.

Lemma ftp_command_with_argument_witness :
  ∃ metadata,
    @Ftp.parse_packet ascii_text (encode_ascii (lit "retr report.txt") ++ [x0d; x0a])
      client_to_server
    = Return metadata
    ∧ dict_get (lit "command") metadata = Some (PStr (lit "RETR"))
    ∧ dict_get (lit "filename") metadata = Some (PStr (lit "report.txt")).
Proof.
  destruct (@ftp_command_with_argument ascii_text
              (encode_ascii (lit "retr report.txt") ++ [x0d; x0a])
              (lit "retr") (lit "report.txt"))
    as (md & Hrun & Hcommand & _ & _ & _ & Hfile & _).
  - vm_compute. reflexivity.
  - by_evaluation.
  - exists md. split; [exact Hrun|]. split; [exact Hcommand|].
    apply Hfile. by_evaluation.
Defined.

Lemma ftp_command_without_argument_witness :
  ∃ metadata,
    @Ftp.parse_packet ascii_text (encode_ascii (lit "quit") ++ [x0d; x0a])
      client_to_server
    = Return metadata
    ∧ dict_get (lit "command") metadata = Some (PStr (lit "QUIT"))
    ∧ dict_get (lit "argument") metadata = None.
Proof.
  destruct (@ftp_command_without_argument ascii_text
              (encode_ascii (lit "quit") ++ [x0d; x0a]))
    as (md & Hrun & Hcommand & Hargument & _).
  - by_evaluation.
  - exists md. split; [exact Hrun|]. split; [exact Hcommand|exact Hargument].
Defined.

Lemma ftp_response_without_code_witness :
  @Ftp.parse_packet ascii_text
    (encode_ascii (lit "Welcome to the archive") ++ [x0d; x0a]) server_to_client
  = Return [].
Proof.
  apply (@ftp_response_without_code ascii_text _ (lit "Welcome")
           (lit " to the archive")).
  - vm_compute. reflexivity.
  - by_evaluation.
  - right. reflexivity.
  - vm_compute. reflexivity.
Defined.

Lemma ftp_response_classified_witness :
  ∃ metadata,
    @Ftp.parse_packet ascii_text
      (encode_ascii (lit "530 Login incorrect.") ++ [x0d; x0a]) server_to_client
    = Return metadata
    ∧ dict_get (lit "response_code") metadata = Some (PStr (lit "530"))
    ∧ dict_get (lit "response_type") metadata
      = Some (PStr (lit "permanent_negative")).
Proof.
  destruct (@ftp_response_classified ascii_text
              (encode_ascii (lit "530 Login incorrect.") ++ [x0d; x0a])
              (lit "530") (lit "Login incorrect.") 53%N (lit "30"))
    as (md & Hrun & Hcode & _ & Htype).
  - vm_compute. reflexivity.
  - by_evaluation.
  - vm_compute. reflexivity.
  - reflexivity.
  - exists md. split; [exact Hrun|]. split; [exact Hcode|exact Htype].
Defined.

Lemma ftp_data_connection_matches_metadata_witness :
  let data := encode_ascii (lit "227 Entering Passive Mode (192,168,1,2,19,137).")
              ++ [x0d; x0a] in
  @Ftp.watch_pasv_response ascii_text data = Some (lit "192.168.1.2", 5001)
  ∧ ∃ metadata,
      @Ftp.parse_packet ascii_text data server_to_client = Return metadata
      ∧ dict_get (lit "passive_ip") metadata = Some (PStr (lit "192.168.1.2"))
      ∧ dict_get (lit "passive_port") metadata = Some (PInt 5001).
Proof.
  intros data.
  assert (@Ftp.watch_pasv_response ascii_text data = Some (lit "192.168.1.2", 5001))
    as Hwatch by (vm_compute; reflexivity).
  split; [exact Hwatch|].
  destruct (@ftp_data_connection_matches_metadata ascii_text data
              (lit " (192,168,1,2,19,137).") ascii_text_laws)
    as (md & Hrun & Hsame).
  - vm_compute. reflexivity.
  - rewrite Hwatch in Hsame. exists md. split; [exact Hrun|exact Hsame].
Defined.

(** ** [src/protocols/dns.py]: the question section *)

Section DnsQuestions.
Context `{T : PyText}.
Import Dns.

Lemma dns_skip_name_returns (data : bytes) :
  ∀ fuel offset, (length data ≤ fuel + offset)%nat →
    ∃ offset', skip_name fuel data offset = Return offset'.
Proof.
  induction fuel as [|fuel IH]; intros offset Hfuel; simpl;
    (case_bool_decide as Hlt; simpl; [|eauto]); [lia|].
  destruct (index_lt data offset Hlt) as (b & _ & ->). simpl.
  repeat (case_bool_decide; [eauto|]). apply IH. lia.
Qed.

Lemma dns_skip_questions_returns (data : bytes) :
  ∀ qdcount offset, ∃ offset', skip_questions qdcount data offset = Return offset'.
Proof.
  induction qdcount as [|n IH]; intros offset; simpl; [eauto|].
  destruct (dns_skip_name_returns data (length data) offset) as [o ->]; [lia|].
  simpl. apply IH.
Qed.

(** The part of [parse_packet] that handles the answers of a response
    returns, whatever the chunk. *)

Lemma encode_labels_length (labels : list str) :
  (length labels < length (encode_labels labels))%nat.
Proof.
  induction labels as [|label labels IH]; [simpl; lia|].
  rewrite encode_labels_cons. simpl. rewrite length_app. lia.
Qed.

(** A question: the name, then type and class. *)
Lemma dns_question_run (header : bytes) (labels : list str)
    (t1 t2 c1 c2 : byte) (rest : bytes) (qr qdcount ancount : Z) :
  PyTextLaws T → Forall label_ok labels → length header = 12%nat →
  0 < qdcount →
  let data := header ++ encode_labels labels ++ [t1; t2; c1; c2] ++ rest in
  parse_sections data qr qdcount ancount
  = ((setitem (lit "query_name") (PStr (join (lit ".") labels));;
      setitem (lit "query_type") (PStr (qtype_name (u16 t1 t2)));;
      setitem (lit "query_class") (PStr (qclass_name (u16 c1 c2))));;
     (if negb (qr =? 0) && bool_decide (0 < ancount) then
        setitem (lit "answers") (PList []);;
        lift (skip_questions (Z.to_nat qdcount) data 12);;
        setitem (lit "answers_parsed") (PInt (Z.min ancount 10))
      else mret tt)).
Proof.
  intros Hlaws Hlabels Hheader Hq data. unfold parse_sections.
  rewrite (bool_decide_eq_true_2 _ Hq).
  pose proof (dns_name_loop_labels labels Hlaws Hlabels header
                ([t1; t2; c1; c2] ++ rest) [] (length data)) as Hname.
  rewrite Hheader in Hname. fold data in Hname. rewrite Hname; cycle 1.
  { pose proof (encode_labels_length labels). unfold data.
    rewrite !length_app. lia. }
  set (offset := (12 + length (encode_labels labels))%nat).
  assert (bool_decide (offset + 4 ≤ length data)%nat = true) as Hroom.
  { apply bool_decide_eq_true_2. unfold offset, data.
    rewrite !length_app, Hheader. simpl. lia. }
  assert (slice data offset (offset + 4) = [t1; t2; c1; c2]) as Hslice.
  { unfold slice, data, offset. rewrite <- Hheader, <- length_app, app_assoc.
    rewrite drop_app_length.
    replace (length (header ++ encode_labels labels) + 4
             - length (header ++ encode_labels labels))%nat with 4%nat by lia.
    reflexivity. }
  change (lift (Return ([] ++ labels, offset)) ≫= ?f)
    with (f (labels, offset)).
  cbv beta iota. rewrite Hroom, Hslice. reflexivity.
Qed.

(** The name alone, when fewer than four bytes follow it. *)
Lemma dns_name_only_run (header : bytes) (labels : list str)
    (rest : bytes) (qr qdcount ancount : Z) :
  PyTextLaws T → Forall label_ok labels → length header = 12%nat →
  0 < qdcount → (length rest < 4)%nat →
  let data := header ++ encode_labels labels ++ rest in
  parse_sections data qr qdcount ancount
  = ((setitem (lit "query_name") (PStr (join (lit ".") labels));; mret tt);;
     (if negb (qr =? 0) && bool_decide (0 < ancount) then
        setitem (lit "answers") (PList []);;
        lift (skip_questions (Z.to_nat qdcount) data 12);;
        setitem (lit "answers_parsed") (PInt (Z.min ancount 10))
      else mret tt)).
Proof.
  intros Hlaws Hlabels Hheader Hq Hrest data. unfold parse_sections.
  rewrite (bool_decide_eq_true_2 _ Hq).
  pose proof (dns_name_loop_labels labels Hlaws Hlabels header rest []
                (length data)) as Hname.
  rewrite Hheader in Hname. fold data in Hname. rewrite Hname; cycle 1.
  { pose proof (encode_labels_length labels). unfold data.
    rewrite !length_app. lia. }
  set (offset := (12 + length (encode_labels labels))%nat).
  assert (bool_decide (offset + 4 ≤ length data)%nat = false) as Hroom.
  { apply bool_decide_eq_false_2. unfold offset, data.
    rewrite !length_app, Hheader. lia. }
  change (lift (Return ([] ++ labels, offset)) ≫= ?f)
    with (f (labels, offset)).
  cbv beta iota. rewrite Hroom. reflexivity.
Qed.

(** X20.  A DNS message that announces a question and holds a complete
    one: the name, the type and the class of the question are decoded, no
    ['parse_error'] is recorded whatever follows the question, and
    ['answers_parsed'] is set (to the announced number of answers, at most
    10) exactly for a response that announces answers. *)
Theorem dns_question_decoded
    (a0 a1 a2 a3 a4 a5 a6 a7 a8 a9 a10 a11 : byte) (labels : list str)
    (t1 t2 c1 c2 : byte) (rest : bytes) (direction : str) :
  PyTextLaws T → Forall label_ok labels → 0 < u16 a4 a5 →
  let header := [a0; a1; a2; a3; a4; a5; a6; a7; a8; a9; a10; a11] in
  let data := header ++ encode_labels labels ++ [t1; t2; c1; c2] ++ rest in
  ∃ metadata,
    parse_packet data direction = Return metadata
    ∧ dict_get (lit "query_name") metadata = Some (PStr (join (lit ".") labels))
    ∧ dict_get (lit "query_type") metadata = Some (PStr (qtype_name (u16 t1 t2)))
    ∧ dict_get (lit "query_class") metadata = Some (PStr (qclass_name (u16 c1 c2)))
    ∧ dict_get (lit "parse_error") metadata = None
    ∧ dict_get (lit "answers_parsed") metadata
      = if Z.testbit (u16 a2 a3) 15 && bool_decide (0 < u16 a6 a7)
        then Some (PInt (Z.min (u16 a6 a7) 10)) else None.
Proof.
  intros Hlaws Hlabels Hq header data.
  assert (parse_body data direction
          = (setitem (lit "transaction_id") (PInt (u16 a0 a1));;
     setitem (lit "query_count") (PInt (u16 a4 a5));;
     setitem (lit "answer_count") (PInt (u16 a6 a7));;
     setitem (lit "authority_count") (PInt (u16 a8 a9));;
     setitem (lit "additional_count") (PInt (u16 a10 a11));;
     setitem (lit "is_response") (PBool (Z.testbit (u16 a2 a3) 15));;
     setitem (lit "opcode") (PInt (Z.land (Z.shiftr (u16 a2 a3) 11) 15));;
     setitem (lit "authoritative") (PBool (negb (Z.land (Z.shiftr (u16 a2 a3) 10) 1 =? 0)));;
     setitem (lit "truncated") (PBool (negb (Z.land (Z.shiftr (u16 a2 a3) 9) 1 =? 0)));;
     setitem (lit "recursion_desired") (PBool (negb (Z.land (Z.shiftr (u16 a2 a3) 8) 1 =? 0)));;
     setitem (lit "recursion_available") (PBool (negb (Z.land (Z.shiftr (u16 a2 a3) 7) 1 =? 0)));;
     setitem (lit "response_code") (PInt (Z.land (u16 a2 a3) 15));;
     setitem (lit "opcode_name") (PStr (opcode_name (Z.land (Z.shiftr (u16 a2 a3) 11) 15)));;
     setitem (lit "response_code_name") (PStr (rcode_name (Z.land (u16 a2 a3) 15)));;
     ((setitem (lit "query_name") (PStr (join (lit ".") labels));;
       setitem (lit "query_type") (PStr (qtype_name (u16 t1 t2)));;
       setitem (lit "query_class") (PStr (qclass_name (u16 c1 c2))));;
      (if Z.testbit (u16 a2 a3) 15 && bool_decide (0 < u16 a6 a7) then
         setitem (lit "answers") (PList []);;
         lift (skip_questions (Z.to_nat (u16 a4 a5)) data 12);;
         setitem (lit "answers_parsed") (PInt (Z.min (u16 a6 a7) 10))
       else mret tt)))) as Hbody.
  { unfold data, header. rewrite dns_body_with_header.
    rewrite (dns_question_run [a0; a1; a2; a3; a4; a5; a6; a7; a8; a9; a10; a11])
      by done.
    now rewrite !flag_bit. }
  unfold parse_packet, Base.parse_packet.
  cbn [Base.parse_body DNSProtocolHandler]. rewrite Hbody.
  destruct (dns_skip_questions_returns data (Z.to_nat (u16 a4 a5)) 12) as [o Ho].
  rewrite Ho.
  lazymatch goal with
  | |- context [try_parse ?body] =>
      destruct (try_parse_returns body) as (md & Hrun & _ & Hsome & Hnone)
  end.
  { repeat returns_steps. }
  exists md. split; [exact Hrun|].
  split; [|split; [|split; [|split]]].
  - apply Hsome. do 14 (apply assigns_later; [apply returns_setitem|intros _]).
    apply assigns_before; [|intros _; repeat keeps_step].
    apply assigns_here. intros _. repeat keeps_step.
  - apply Hsome. do 14 (apply assigns_later; [apply returns_setitem|intros _]).
    apply assigns_before; [|intros _; repeat keeps_step].
    apply assigns_later; [apply returns_setitem|intros _].
    apply assigns_here. intros _. repeat keeps_step.
  - apply Hsome. do 14 (apply assigns_later; [apply returns_setitem|intros _]).
    apply assigns_before; [|intros _; repeat keeps_step].
    do 2 (apply assigns_later; [apply returns_setitem|intros _]).
    apply assigns_setitem.
  - apply Hnone. repeat keeps_step.
  - revert Hsome Hnone. destruct (_ && _); intros Hsome Hnone.
    + apply Hsome. do 14 (apply assigns_later; [apply returns_setitem|intros _]).
      apply assigns_later; [repeat returns_steps|intros _].
      apply assigns_later; [apply returns_setitem|intros _].
      apply assigns_later; [apply returns_lift|intros _].
      apply assigns_setitem.
    + apply Hnone. repeat keeps_step.
Qed.

(** X21.  A DNS message cut less than four bytes after the name of its
    question: the name is recorded, the type and the class are not, and no
    ['parse_error'] is. *)
Theorem dns_question_cut_after_name
    (a0 a1 a2 a3 a4 a5 a6 a7 a8 a9 a10 a11 : byte) (labels : list str)
    (rest : bytes) (direction : str) :
  PyTextLaws T → Forall label_ok labels → 0 < u16 a4 a5 →
  (length rest < 4)%nat →
  let header := [a0; a1; a2; a3; a4; a5; a6; a7; a8; a9; a10; a11] in
  ∃ metadata,
    parse_packet (header ++ encode_labels labels ++ rest) direction
    = Return metadata
    ∧ dict_get (lit "query_name") metadata = Some (PStr (join (lit ".") labels))
    ∧ dict_get (lit "query_type") metadata = None
    ∧ dict_get (lit "query_class") metadata = None
    ∧ dict_get (lit "parse_error") metadata = None.
Proof.
  intros Hlaws Hlabels Hq Hrest header.
  unfold parse_packet, Base.parse_packet.
  cbn [Base.parse_body DNSProtocolHandler].
  unfold header. rewrite dns_body_with_header.
  rewrite (dns_name_only_run [a0; a1; a2; a3; a4; a5; a6; a7; a8; a9; a10; a11])
    by done.
  destruct (dns_skip_questions_returns
              ([a0; a1; a2; a3; a4; a5; a6; a7; a8; a9; a10; a11]
               ++ encode_labels labels ++ rest) (Z.to_nat (u16 a4 a5)) 12)
    as [o Ho].
  rewrite Ho.
  lazymatch goal with
  | |- context [try_parse ?body] =>
      destruct (try_parse_returns body) as (md & Hrun & _ & Hsome & Hnone)
  end.
  { repeat returns_steps. }
  exists md. split; [exact Hrun|].
  split; [|split; [|split]]; try (apply Hnone; repeat keeps_step).
  apply Hsome. do 14 (apply assigns_later; [apply returns_setitem|intros _]).
  apply assigns_before; [|intros _; repeat keeps_step].
  apply assigns_here. intros _. repeat keeps_step.
Qed.

(** X22.  A DNS message that announces a question and ends with its
    header: reading the name raises [IndexError], which ends up under
    ['parse_error']; the entries of the header stay in the metadata, and no
    name is recorded. *)
Theorem dns_question_missing
    (a0 a1 a2 a3 a4 a5 a6 a7 a8 a9 a10 a11 : byte) (direction : str) :
  0 < u16 a4 a5 →
  let header := [a0; a1; a2; a3; a4; a5; a6; a7; a8; a9; a10; a11] in
  ∃ metadata,
    parse_packet header direction = Return metadata
    ∧ raised (parse_body header direction)
      = Some (IndexError (lit "index out of range"))
    ∧ dict_get (lit "parse_error") metadata
      = Some (PStr (lit "index out of range"))
    ∧ dict_get (lit "transaction_id") metadata = Some (PInt (u16 a0 a1))
    ∧ dict_get (lit "query_count") metadata = Some (PInt (u16 a4 a5))
    ∧ dict_get (lit "response_code_name") metadata
      = Some (PStr (rcode_name (Z.land (u16 a2 a3) 15)))
    ∧ dict_get (lit "query_name") metadata = None.
Proof.
  intros Hq header.
  unfold parse_packet, Base.parse_packet, try_parse, raised.
  cbn [Base.parse_body DNSProtocolHandler].
  change header with ([a0; a1; a2; a3; a4; a5; a6; a7; a8; a9; a10; a11] ++ []).
  rewrite dns_body_with_header. unfold parse_sections.
  rewrite (bool_decide_eq_true_2 _ Hq).
  eexists. split; [reflexivity|]. repeat split.
Qed.

End DnsQuestions.

Lemma dns_question_decoded_witness :
  let response := [x12; x34; x81; x80; x00; x01; x00; x02; x00; x00; x00; x00]
                  ++ Dns.encode_labels [lit "example"; lit "com"]
                  ++ [x00; x1c; x00; x01] in
  ∃ metadata,
    @Dns.parse_packet ascii_text response server_to_client = Return metadata
    ∧ dict_get (lit "query_name") metadata = Some (PStr (lit "example.com"))
    ∧ dict_get (lit "query_type") metadata = Some (PStr (lit "AAAA"))
    ∧ dict_get (lit "query_class") metadata = Some (PStr (lit "IN"))
    ∧ dict_get (lit "parse_error") metadata = None
    ∧ dict_get (lit "answers_parsed") metadata = Some (PInt 2).
Proof.
  intros response.
  apply (@dns_question_decoded ascii_text
           x12 x34 x81 x80 x00 x01 x00 x02 x00 x00 x00 x00
           [lit "example"; lit "com"] x00 x1c x00 x01 [] server_to_client
           ascii_text_laws).
  - unfold Dns.label_ok, is_ascii. repeat constructor.
  - vm_compute. reflexivity.
Defined.

Lemma dns_question_cut_after_name_witness :
  let query := [x12; x34; x01; x00; x00; x01; x00; x00; x00; x00; x00; x00]
               ++ Dns.encode_labels [lit "example"; lit "com"] ++ [x00; x01; x00] in
  ∃ metadata,
    @Dns.parse_packet ascii_text query client_to_server = Return metadata
    ∧ dict_get (lit "query_name") metadata = Some (PStr (lit "example.com"))
    ∧ dict_get (lit "query_type") metadata = None
    ∧ dict_get (lit "query_class") metadata = None
    ∧ dict_get (lit "parse_error") metadata = None.
Proof.
  intros query.
  apply (@dns_question_cut_after_name ascii_text
           x12 x34 x01 x00 x00 x01 x00 x00 x00 x00 x00 x00
           [lit "example"; lit "com"] [x00; x01; x00] client_to_server
           ascii_text_laws).
  - unfold Dns.label_ok, is_ascii. repeat constructor.
  - vm_compute. reflexivity.
  - simpl. lia.
Defined.

Lemma dns_question_missing_witness :
  ∃ metadata,
    @Dns.parse_packet ascii_text
      [x12; x34; x01; x00; x00; x02; x00; x00; x00; x00; x00; x00] client_to_server
    = Return metadata
    ∧ dict_get (lit "parse_error") metadata = Some (PStr (lit "index out of range"))
    ∧ dict_get (lit "query_count") metadata = Some (PInt 2)
    ∧ dict_get (lit "query_name") metadata = None.
Proof.
  destruct (@dns_question_missing ascii_text
              x12 x34 x01 x00 x00 x02 x00 x00 x00 x00 x00 x00 client_to_server)
    as (md & Hrun & _ & Herror & _ & Hcount & _ & Hname).
  - vm_compute. reflexivity.
  - exists md. split; [exact Hrun|]. split; [exact Herror|].
    split; [exact Hcount|exact Hname].
Defined.

(** ** [src/protocols/telnet.py]: what the processor keeps, what the
    parser counts *)

Section TelnetRemainder.
Import Telnet.

(** When the scan for [IAC SE] runs to the end of the buffer, the bytes it
    went over hold no [IAC SE]. *)
Lemma find_se_not_found (buffer : bytes) :
  ∀ fuel j j', find_se fuel buffer j = Return j' →
    ¬ (j' < length buffer - 1)%nat →
    contains_iac_se (drop j buffer) = false.
Proof.
  assert (∀ j, ¬ (j < length buffer - 1)%nat →
               contains_iac_se (drop j buffer) = false) as Hshort.
  { intros j Hj.
    destruct (drop j buffer) as [|b [|c t]] eqn:Hdrop; try reflexivity.
    apply (f_equal length) in Hdrop. rewrite length_drop in Hdrop.
    simpl in Hdrop. lia. }
  induction fuel as [|fuel IH]; intros j j' Hrun Hend; simpl in Hrun.
  - destruct (bool_decide (j < length buffer - 1)%nat) eqn:Hj;
      [discriminate Hrun|].
    apply bool_decide_eq_false in Hj. now apply Hshort.
  - destruct (bool_decide (j < length buffer - 1)%nat) eqn:Hj; cycle 1.
    { apply bool_decide_eq_false in Hj. now apply Hshort. }
    apply bool_decide_eq_true in Hj. simpl in Hrun.
    destruct (index_lt buffer j) as (bj & Hbj & Hij); [lia|].
    destruct (index_lt buffer (j + 1)) as (bj1 & Hbj1 & Hij1); [lia|].
    rewrite Hij, Hij1 in Hrun. simpl in Hrun.
    destruct (bool_decide (bj = IAC) && bool_decide (bj1 = SE)) eqn:Hpair.
    { injection Hrun as <-. contradiction. }
    specialize (IH _ _ Hrun Hend).
    rewrite (drop_S _ _ _ Hbj). replace (S j) with (j + 1)%nat by lia.
    rewrite (drop_S _ _ _ Hbj1) in *. simpl. now rewrite Hpair.
Qed.

(** The loop returns; what it emits from index [i] on, followed by what it
    keeps, is the buffer from [i] on; and what it keeps is empty or a
    subnegotiation that is still open. *)
Lemma process_loop_run (buffer : bytes) :
  ∀ fuel i acc, (i ≤ length buffer)%nat → (length buffer ≤ fuel + i)%nat →
    ∃ emitted remaining,
      process_loop fuel buffer i acc = Return (acc ++ emitted, remaining)
      ∧ emitted ++ remaining = drop i buffer
      ∧ (remaining = []
         ∨ ∃ q, remaining = IAC :: SB :: q ∧ contains_iac_se q = false).
Proof.
  induction fuel as [|fuel IH]; intros i acc Hi Hfuel; simpl.
  - rewrite bool_decide_eq_false_2 by lia. simpl.
    exists [], []. rewrite app_nil_r, drop_ge by lia. auto.
  - case_bool_decide as Hlt; simpl; cycle 1.
    { exists [], []. rewrite app_nil_r, drop_ge by lia. auto. }
    destruct (index_lt buffer i Hlt) as (b & Hb & ->). simpl.
    destruct (bool_decide (b ≠ IAC) || bool_decide (length buffer - 1 ≤ i)%nat)
      eqn:Hplain.
    { destruct (IH (i + 1)%nat (acc ++ [b])) as (e & r & -> & Her & Hr); [lia..|].
      exists (b :: e), r. rewrite <- app_assoc. split; [done|]. split; [|done].
      rewrite (drop_S _ _ _ Hb). simpl. f_equal.
      now replace (S i) with (i + 1)%nat by lia. }
    apply orb_false_iff in Hplain as [Hiac Hlast].
    apply bool_decide_eq_false in Hiac, Hlast.
    assert (b = IAC) as -> by (destruct (decide (b = IAC)); [done|contradiction]).
    destruct (index_lt buffer (i + 1)) as (command & Hc & ->); [lia|]. simpl.
    assert (drop i buffer = IAC :: command :: drop (i + 2) buffer) as Htwo.
    { rewrite (drop_S _ _ _ Hb). replace (S i) with (i + 1)%nat by lia.
      rewrite (drop_S _ _ _ Hc). now replace (S (i + 1)) with (i + 2)%nat by lia. }
    destruct (bool_decide (command ∈ [DO; DONT; WILL; WONT])
              && bool_decide (i < length buffer - 2)%nat) eqn:Hneg.
    { apply andb_true_iff in Hneg as [_ Hopt]. apply bool_decide_eq_true in Hopt.
      destruct (index_lt buffer (i + 2)) as (option & Ho & ->); [lia|]. simpl.
      destruct (IH (i + 3)%nat (acc ++ [IAC; command; option]))
        as (e & r & -> & Her & Hr); [lia..|].
      exists (IAC :: command :: option :: e), r. rewrite <- app_assoc.
      split; [done|]. split; [|done].
      rewrite Htwo, (drop_S _ _ _ Ho). simpl. do 3 f_equal.
      now replace (S (i + 2)) with (i + 3)%nat by lia. }
    clear Hneg. destruct (bool_decide (command = SB)) eqn:Hsb.
    + apply bool_decide_eq_true in Hsb as ->.
      destruct (find_se_total buffer (length buffer) (i + 2)) as (j & Hj & Hle); [lia|].
      rewrite Hj. simpl. case_bool_decide as Hfound.
      * destruct (IH (j + 2)%nat (acc ++ slice buffer i (j + 2)))
          as (e & r & -> & Her & Hr); [lia..|].
        exists (slice buffer i (j + 2) ++ e), r. rewrite <- !app_assoc.
        split; [done|]. split; [|done]. rewrite Her. unfold slice.
        replace (j + 2)%nat with (i + (j + 2 - i))%nat at 2 by lia.
        rewrite <- drop_drop. apply take_drop.
      * exists [], (drop i buffer). rewrite app_nil_r. split; [done|].
        split; [done|]. right. exists (drop (i + 2) buffer).
        split; [exact Htwo|]. exact (find_se_not_found _ _ _ _ Hj Hfound).
    + destruct (IH (i + 2)%nat (acc ++ [IAC; command])) as (e & r & -> & Her & Hr);
        [lia..|].
      exists (IAC :: command :: e), r. rewrite <- app_assoc. split; [done|].
      split; [|done]. rewrite Htwo. simpl. now rewrite Her.
Qed.

Lemma process_telnet_commands_run (buffer : bytes) (direction : str) :
  ∃ processed_data remaining_buffer,
    _process_telnet_commands buffer direction
      = Return (processed_data, remaining_buffer)
    ∧ processed_data ++ remaining_buffer = buffer
    ∧ (remaining_buffer = []
       ∨ ∃ q, remaining_buffer = IAC :: SB :: q ∧ contains_iac_se q = false).
Proof.
  unfold _process_telnet_commands. case_bool_decide; simpl.
  - apply (process_loop_run buffer (length buffer) 0%nat []); lia.
  - exists buffer, []. rewrite app_nil_r. auto.
Qed.

(** X23.  What the Telnet command processor keeps for the next round is
    either nothing or the start of a subnegotiation: [IAC SB] followed by
    bytes that hold no [IAC SE]. *)
Theorem telnet_remainder_is_open_subnegotiation
    (buffer : bytes) (direction : str) :
  ∃ processed_data remaining_buffer,
    _process_telnet_commands buffer direction
      = Return (processed_data, remaining_buffer)
    ∧ (remaining_buffer = []
       ∨ ∃ q, remaining_buffer = IAC :: SB :: q ∧ contains_iac_se q = false).
Proof.
  destruct (process_telnet_commands_run buffer direction)
    as (p & r & Hrun & _ & Hr). eauto.
Qed.

(** X24.  A buffer made of complete Telnet units is emitted whole, in
    order, and nothing is kept. *)
Theorem process_telnet_commands_complete_units (buffer : bytes) (direction : str) :
  tokens buffer →
  _process_telnet_commands buffer direction = Return (buffer, []).
Proof.
  intros Htokens. unfold _process_telnet_commands.
  case_bool_decide; simpl; [|done].
  destruct (process_loop_tokens buffer Htokens [] [] [] (length buffer))
    as (fuel' & _ & Hrun); [simpl; lia|].
  simpl in Hrun. rewrite !app_nil_r in Hrun. rewrite Hrun.
  destruct fuel'; simpl; rewrite bool_decide_eq_false_2 by lia; reflexivity.
Qed.

End TelnetRemainder.

Section TelnetParse.
Import Telnet.

Lemma telnet_scan_commands_returns (data : bytes) :
  ∀ fuel i commands, (length data ≤ fuel + i)%nat →
    ∃ found, scan_commands fuel data i commands = Return found.
Proof.
  induction fuel as [|fuel IH]; intros i commands Hfuel; simpl;
    (case_bool_decide as Hlt; simpl; [|eauto]); [lia|].
  destruct (index_lt data i Hlt) as (b & _ & ->). simpl.
  destruct (bool_decide (b = IAC) && bool_decide (i < length data - 1)%nat)
    eqn:Hiac; [|apply IH; lia].
  apply andb_true_iff in Hiac as [_ Hnext]. apply bool_decide_eq_true in Hnext.
  destruct (index_lt data (i + 1)) as (cmd & _ & ->); [lia|]. simpl.
  destruct (bool_decide (cmd ∈ [DO; DONT; WILL; WONT])
            && bool_decide (i < length data - 2)%nat) eqn:Hneg.
  { apply andb_true_iff in Hneg as [_ Hopt]. apply bool_decide_eq_true in Hopt.
    destruct (index_lt data (i + 2)) as (opt & _ & ->); [lia|]. simpl.
    apply IH. lia. }
  destruct (bool_decide (cmd = SB) && bool_decide (i < length data - 2)%nat)
    eqn:Hsb; [|apply IH; lia].
  apply andb_true_iff in Hsb as [_ Hopt]. apply bool_decide_eq_true in Hopt.
  destruct (index_lt data (i + 2)) as (sub_opt & _ & ->); [lia|]. simpl.
  destruct (find_se_total data (length data) (i + 3)) as (j & -> & Hj); [lia|].
  simpl. destruct (bool_decide (j < length data - 1)%nat); apply IH; lia.
Qed.

(** X25.  Whatever the bytes and the direction, the body of the Telnet
    [parse_packet] raises nothing: the metadata hold no ['parse_error'],
    ['command_count'] is the number of commands found, ['commands'] lists
    the first ten of them when there is one, and ['additional_commands']
    counts the others when there are more than ten. *)
Theorem telnet_parse_packet_never_fails (data : bytes) (direction : str) :
  ∃ metadata commands,
    parse_packet data direction = Return metadata
    ∧ raised (parse_body data direction) = None
    ∧ scan_commands (length data) data 0 [] = Return commands
    ∧ dict_get (lit "parse_error") metadata = None
    ∧ dict_get (lit "command_count") metadata
      = Some (PInt (Z.of_nat (length commands)))
    ∧ dict_get (lit "commands") metadata
      = (if bool_decide (commands = []) then None
         else Some (PList (map PStr (take 10 commands))))
    ∧ dict_get (lit "additional_commands") metadata
      = (if bool_decide (10 < length commands)%nat
         then Some (PInt (Z.of_nat (length commands) - 10)) else None).
Proof.
  destruct (telnet_scan_commands_returns data (length data) 0%nat [])
    as [commands Hscan]; [lia|].
  unfold parse_packet, Base.parse_packet.
  cbn [Base.parse_body TelnetProtocolHandler]. unfold parse_body.
  rewrite Hscan.
  change (lift (Return commands) ≫= ?f) with (f commands). cbv beta zeta.
  lazymatch goal with
  | |- context [try_parse ?body] =>
      destruct (try_parse_returns body) as (md & Hrun & Hraised & Hsome & Hnone)
  end.
  { repeat returns_steps. }
  exists md, commands. split; [exact Hrun|]. split; [exact Hraised|].
  split; [reflexivity|]. split; [|split; [|split]].
  - apply Hnone. repeat keeps_step.
  - apply Hsome. apply assigns_here. intros _. repeat keeps_step.
  - revert Hsome Hnone.
    destruct (bool_decide (commands = [])); intros Hsome Hnone.
    + apply Hnone. cbn [negb]. repeat keeps_step.
    + apply Hsome. cbn [negb].
      apply assigns_later; [apply returns_setitem|intros _].
      apply assigns_before; [|intros _; repeat keeps_step].
      apply assigns_here. intros _. repeat keeps_step.
  - revert Hsome Hnone.
    destruct (bool_decide (commands = [])) eqn:Hempty;
      destruct (bool_decide (10 < length commands)%nat) eqn:Hmany;
      intros Hsome Hnone; cbn [negb] in *.
    + apply bool_decide_eq_true in Hempty, Hmany. subst commands.
      simpl in Hmany. lia.
    + apply Hnone. repeat keeps_step.
    + apply Hsome.
      apply assigns_later; [apply returns_setitem|intros _].
      apply assigns_before; [|intros _; repeat keeps_step].
      apply assigns_later; [apply returns_setitem|intros _].
      apply assigns_setitem.
    + apply Hnone. repeat keeps_step.
Qed.

End TelnetParse.

Section RelayBytes.
Import Relay.

(** X26.  A turn of the Telnet relay loop conserves the bytes of its
    direction: what has been sent on, followed by the buffer kept, is after
    the turn what it was before, followed by the bytes read; and nothing is
    sent the other way. *)
Theorem telnet_relay_conserves_bytes (self : Base.handler) (peer : address)
    (fresh_id : str) (now : pyfloat) (buffer data : bytes) (st : state) :
  Base.server_peer self = Some peer → data ≠ [] →
  (∃ buffer' st',
     telnet_client_readable self fresh_id now buffer data st
       = Return (buffer', st')
     ∧ concat (sent_to_server st') ++ buffer'
       = concat (sent_to_server st) ++ buffer ++ data
     ∧ sent_to_client st' = sent_to_client st)
  ∧ (∃ buffer' st',
       telnet_server_readable self fresh_id now buffer data st
         = Return (buffer', st')
       ∧ concat (sent_to_client st') ++ buffer'
         = concat (sent_to_client st) ++ buffer ++ data
       ∧ sent_to_server st' = sent_to_server st).
Proof.
  intros Hpeer Hdata.
  pose proof (never_raises_of_terminates Telnet.TelnetProtocolHandler
                telnet_body_terminates) as Htelnet.
  split.
  - unfold telnet_client_readable. rewrite bool_decide_eq_false_2 by done.
    destruct (process_telnet_commands_run (buffer ++ data) client_to_server)
      as (processed & remaining & Hround & Hsplit & _).
    rewrite Hround. simpl. exists remaining.
    destruct (bool_decide (processed = [])) eqn:Hempty; simpl.
    { apply bool_decide_eq_true in Hempty. subst processed.
      eexists. split; [done|]. simpl in Hsplit. subst remaining.
      split; [|done]. now rewrite app_assoc. }
    destruct (inspect_returns _ self fresh_id now processed client_to_server st peer
                Htelnet Hpeer) as (st' & -> & Hs & Hc & _).
    simpl. eexists. split; [done|]. simpl. rewrite Hs, Hc. split; [|done].
    rewrite concat_app. simpl. rewrite app_nil_r, <- !app_assoc.
    now rewrite Hsplit.
  - unfold telnet_server_readable. rewrite bool_decide_eq_false_2 by done.
    destruct (process_telnet_commands_run (buffer ++ data) server_to_client)
      as (processed & remaining & Hround & Hsplit & _).
    rewrite Hround. simpl. exists remaining.
    destruct (bool_decide (processed = [])) eqn:Hempty; simpl.
    { apply bool_decide_eq_true in Hempty. subst processed.
      eexists. split; [done|]. simpl in Hsplit. subst remaining.
      split; [|done]. now rewrite app_assoc. }
    destruct (inspect_returns _ self fresh_id now processed server_to_client st peer
                Htelnet Hpeer) as (st' & -> & Hs & Hc & _).
    simpl. eexists. split; [done|]. simpl. rewrite Hs, Hc. split; [|done].
    rewrite concat_app. simpl. rewrite app_nil_r, <- !app_assoc.
    now rewrite Hsplit.
Qed.


End RelayBytes.

Lemma process_telnet_commands_complete_units_witness :
  let buffer := [x6c; x73; Telnet.IAC; Telnet.WILL; x01; Telnet.IAC; xf1]
                ++ Telnet.subnegotiation [x18; x01] ++ [x0d; x0a] in
  Telnet._process_telnet_commands buffer client_to_server = Return (buffer, []).
Proof.
  intros buffer. apply process_telnet_commands_complete_units.
  repeat first
    [ apply Telnet.tokens_nil
    | apply Telnet.tokens_data; [discriminate|]
    | apply Telnet.tokens_negotiation; [by_evaluation|]
    | apply Telnet.tokens_command; [by_evaluation|discriminate|]
    | apply (Telnet.tokens_subnegotiation [x18; x01]); [reflexivity|] ].
Defined.

Lemma telnet_relay_conserves_bytes_witness :
  let self := {| Base.client_address := (lit "127.0.0.1", 40000);
                 Base.server_peer := Some (lit "10.0.0.7", 23);
                 Base.inspection_mode := lit "both";
                 Base.pause_by_default := true |} in
  let st := {| Relay.running := true; Relay.sent_to_server := [[x41]];
               Relay.sent_to_client := []; Relay.log := [] |} in
  let now := {| mantissa := 1; exponent := 30 |} in
  ∃ buffer' st',
    Relay.telnet_client_readable self (lit "id-1") now
      [Telnet.IAC; Telnet.SB; x18] [x01; Telnet.IAC; Telnet.SE; x42; Telnet.IAC] st
    = Return (buffer', st')
    ∧ concat (Relay.sent_to_server st') ++ buffer'
      = [x41; Telnet.IAC; Telnet.SB; x18; x01; Telnet.IAC; Telnet.SE; x42; Telnet.IAC]
    ∧ Relay.sent_to_client st' = [].
Proof.
  intros self st now.
  destruct (telnet_relay_conserves_bytes self (lit "10.0.0.7", 23) (lit "id-1") now
              [Telnet.IAC; Telnet.SB; x18]
              [x01; Telnet.IAC; Telnet.SE; x42; Telnet.IAC] st)
    as [Hclient _].
  - reflexivity.
  - discriminate.
  - exact Hclient.
Defined.


(** ** The registry of handlers and the server loops *)

Section ServerRegistry.
Context `{T : PyText}.
Import Server.

Lemma register_blocks_run (protocol_configs : pyval)
    (blocks : list (str * Base.handler_class)) :
  NoDup (map fst blocks) →
  (∀ name, name ∈ map fst blocks → ∃ b, enabled protocol_configs name = Return b) →
  ∀ _handlers,
  ∃ _handlers',
    register_blocks protocol_configs blocks _handlers = (_handlers', Return tt)
    ∧ ∀ name,
        Registry.get_handler name _handlers'
        = match dict_get name blocks, enabled protocol_configs name with
          | Some handler_class, Return true => Some handler_class
          | _, _ => Registry.get_handler name _handlers
          end.
Proof.
  induction blocks as [|[name cls] blocks IH]; intros Hnodup Hconfig h.
  - exists h. split; [reflexivity|]. intros name. reflexivity.
  - simpl in Hnodup. apply NoDup_cons in Hnodup as [Hfresh Hnodup].
    destruct (Hconfig name) as [b Hb]; [simpl; apply list_elem_of_here|].
    cbn [register_blocks]. unfold register_if_enabled. rewrite Hb.
    destruct (IH Hnodup
                (fun n Hn => Hconfig n (list_elem_of_further _ _ _ Hn))
                (if b then Registry.register name cls h else h))
      as (h' & Hrun & Hget).
    exists h'. split; [now destruct b|].
    intros n. rewrite Hget. cbn [dict_get].
    unfold Registry.get_handler, Registry.register in *.
    case_bool_decide as Hn.
    + subst n. rewrite Hb.
      assert (dict_get name blocks = None) as ->.
      { clear -Hfresh. induction blocks as [|[k v] blocks IH]; [done|].
        simpl in *. apply not_elem_of_cons in Hfresh as [Hne Hfresh].
        rewrite bool_decide_eq_false_2 by done. now apply IH. }
      destruct b; [apply lookup_insert_eq|done].
    + destruct (dict_get n blocks);
        [destruct (enabled protocol_configs n) as [[]| |]; try done|];
        destruct b; try done; now apply lookup_insert_ne.
Qed.

(** X28.  With a configuration whose protocol sections are dictionaries,
    [_register_protocol_handlers] registers the handler class of a protocol
    exactly when its section has a true ['enabled']: the server loop of an
    enabled protocol hands its connections to the class of that name, and
    for every other name the registry answers as it did before. *)
Theorem registered_handlers_follow_configuration (protocol_configs : pyval)
    (_handlers : Registry.handlers) :
  (∀ name, name ∈ [lit "http"; lit "ftp"; lit "dns"; lit "telnet"] →
           ∃ b, enabled protocol_configs name = Return b) →
  ∃ _handlers',
    _register_protocol_handlers protocol_configs _handlers = (_handlers', Return tt)
    ∧ ∀ name,
        (name ∈ [lit "http"; lit "ftp"; lit "dns"; lit "telnet"] →
         enabled protocol_configs name = Return true →
         ∃ handler_class,
           accept name _handlers' = Handled handler_class
           ∧ Base.get_protocol_name handler_class = name)
        ∧ (name ∉ [lit "http"; lit "ftp"; lit "dns"; lit "telnet"]
           ∨ enabled protocol_configs name = Return false →
           accept name _handlers' = accept name _handlers).
Proof.
  intros Hconfig.
  destruct (register_blocks_run protocol_configs handler_classes
              ltac:(apply (bool_decide_eq_true_1 _); vm_compute; reflexivity)
              Hconfig _handlers) as (h' & Hrun & Hget).
  exists h'. split; [exact Hrun|]. intros name. unfold accept.
  rewrite Hget. clear Hget Hrun. split.
  - intros Hname Henabled. rewrite Henabled.
    rewrite !elem_of_cons, elem_of_nil in Hname.
    destruct Hname as [->|[->|[->|[->|[]]]]]; eexists; split; reflexivity.
  - intros [Hname|Hdisabled].
    + assert (dict_get name handler_classes = None) as ->; [|done].
      unfold handler_classes. cbn [dict_get].
      rewrite !elem_of_cons, elem_of_nil in Hname.
      repeat case_bool_decide; try done; tauto.
    + rewrite Hdisabled. now destruct (dict_get name handler_classes).
Qed.

End ServerRegistry.

Lemma registered_handlers_follow_configuration_witness :
  let protocol_configs :=
    PDict [(lit "http", PDict [(lit "enabled", PBool true); (lit "port", PInt 8080)]);
           (lit "dns", PDict [(lit "enabled", PBool false)]);
           (lit "telnet", PDict [(lit "port", PInt 2323)])] in
  ∃ _handlers',
    @Server._register_protocol_handlers ascii_text protocol_configs ∅
    = (_handlers', Return tt)
    ∧ (∃ handler_class,
         Server.accept (lit "http") _handlers' = Server.Handled handler_class
         ∧ Base.get_protocol_name handler_class = lit "http")
    ∧ Server.accept (lit "ftp") _handlers' = Server.Closed
    ∧ Server.accept (lit "dns") _handlers' = Server.Closed
    ∧ Server.accept (lit "telnet") _handlers' = Server.Closed.
Proof.
  intros protocol_configs.
  destruct (@registered_handlers_follow_configuration ascii_text protocol_configs ∅)
    as (_handlers' & Hrun & Hnames).
  - intros name Hname. rewrite !elem_of_cons, elem_of_nil in Hname.
    destruct Hname as [->|[->|[->|[->|[]]]]]; eexists; vm_compute; reflexivity.
  - exists _handlers'. split; [exact Hrun|]. split; [|split; [|split]].
    + apply (Hnames (lit "http")); [by_evaluation|vm_compute; reflexivity].
    + apply (Hnames (lit "ftp")). right. vm_compute. reflexivity.
    + apply (Hnames (lit "dns")). right. vm_compute. reflexivity.
    + apply (Hnames (lit "telnet")). right. vm_compute. reflexivity.
Defined.
